(** * Shopify products fetcher: record normalisation and paginated retrieval

    A shallow embedding of [main.py]: the [Product] data class with its
    [from_dict] constructor, the three fetch operations of [ShopifyAPI]
    ([get_products], [get_all_products], [search_products]) and
    [export_to_json].

    Python values are embedded as the [json] type (what [response.json()]
    yields), Python exceptions as the [exn] type threaded through a small
    state-and-error monad, and the outside world (the remote shop, the
    console, the file system) as an explicit [world] record. *)

From Stdlib Require Import String Ascii List ZArith Bool Lia.
From Stdlib Require Import DecimalString DecimalZ DecimalPos.
Import ListNotations.
Set Warnings "-register-all".
Open Scope string_scope.
Open Scope list_scope.

(** ** Python strings *)

Module PyStr.

(** The double quote character. *)
Definition dquote : string := String (ascii_of_nat 34) "".

(** [s.startswith(p)] *)
Fixpoint starts_with (p s : string) : bool :=
  match p with
  | "" => true
  | String a p' =>
      match s with
      | "" => false
      | String b s' => Ascii.eqb a b && starts_with p' s'
      end
  end.

(** [sub in s] *)
Fixpoint contains (sub s : string) : bool :=
  starts_with sub s ||
  match s with
  | "" => false
  | String _ s' => contains sub s'
  end.

(** [split_from sep skip s]: the pieces of [s] once its first [skip]
    characters, the rest of a separator just matched, are dropped. *)
Fixpoint split_from (sep : string) (skip : nat) (s : string) : list string :=
  match s with
  | "" => [""]
  | String c s' =>
      match skip with
      | S k => split_from sep k s'
      | O =>
          if starts_with sep s
          then "" :: split_from sep (String.length sep - 1) s'
          else match split_from sep 0 s' with
               | piece :: pieces => String c piece :: pieces
               | [] => [String c ""]
               end
      end
  end.

(** [s.split(sep)] for a non-empty separator: the occurrences of [sep] are
    found from the left and do not overlap. *)
Definition split (sep s : string) : list string := split_from sep 0 s.

(** [sep.join(pieces)] *)
Fixpoint join (sep : string) (pieces : list string) : string :=
  match pieces with
  | [] => ""
  | [p] => p
  | p :: rest => p ++ sep ++ join sep rest
  end.

(** No occurrence of [sep] in [a ++ tail] starts inside [a]. *)
Fixpoint no_start (sep a tail : string) : bool :=
  match a with
  | "" => true
  | String c a' => negb (starts_with sep (a ++ tail)) && no_start sep a' tail
  end.

(** The character [c] occurs in [s]. *)
Fixpoint has_char (c : ascii) (s : string) : bool :=
  match s with
  | "" => false
  | String b s' => Ascii.eqb c b || has_char c s'
  end.

End PyStr.

(** ** Python values *)

(** The values [response.json()] produces.  Numbers are integers, as the
    data class annotates them; prices travel as text. *)
Inductive json : Type :=
| JNull
| JBool (b : bool)
| JInt (z : Z)
| JStr (s : string)
| JList (items : list json)
| JObj (fields : list (string * json)).

(** A [dict] with string keys, in insertion order; its keys are distinct, and
    a key is looked up at its first pair. *)
Definition dict : Type := list (string * json).

(** The exceptions the program can raise.  [RequestException] is the one the
    fetch operations catch; it carries its message.  [OSError] is the one of
    [open] (a [FileNotFoundError], a [PermissionError] and the like) and
    carries the path; [UnicodeEncodeError] is the one of a write of text
    that has no UTF-8 encoding. *)
Inductive exn : Type :=
| KeyError (key : json)
| TypeError
| AttributeError
| IndexError
| RequestException (msg : string)
| OSError (path : string)
| UnicodeEncodeError.

Inductive result (A : Type) : Type :=
| Ok (a : A)
| Raise (e : exn).
Arguments Ok {A} a.
Arguments Raise {A} e.

Definition rbind {A B} (r : result A) (k : A -> result B) : result B :=
  match r with
  | Ok a => k a
  | Raise e => Raise e
  end.

Declare Scope result_scope.
Delimit Scope result_scope with result.
Notation "x <- r ;; k" := (rbind r (fun x => k))
  (at level 61, r at next level, right associativity) : result_scope.

Module Py.

(** [d.get(key)] as an option: [None] when the key is absent. *)
Fixpoint lookup (key : string) (d : dict) : option json :=
  match d with
  | [] => None
  | (k, v) :: d' => if String.eqb k key then Some v else lookup key d'
  end.

(** [d.get(key, default)] *)
Definition get_default (d : dict) (key : string) (default : json) : json :=
  match lookup key d with
  | Some v => v
  | None => default
  end.

(** [d[key]] *)
Definition getitem (d : dict) (key : string) : result json :=
  match lookup key d with
  | Some v => Ok v
  | None => Raise (KeyError (JStr key))
  end.

(** [d[key] = v] *)
Fixpoint setitem (d : dict) (key : string) (v : json) : dict :=
  match d with
  | [] => [(key, v)]
  | (k, v0) :: d' =>
      if String.eqb k key then (k, v) :: d' else (k, v0) :: setitem d' key v
  end.

(** [x.get(key)] on an arbitrary value: only a dict has the method. *)
Definition get (x : json) (key : string) : result json :=
  match x with
  | JObj d => Ok (get_default d key JNull)
  | _ => Raise AttributeError
  end.

(** [x.get(key, default)] on an arbitrary value. *)
Definition get_or (x : json) (key : string) (default : json) : result json :=
  match x with
  | JObj d => Ok (get_default d key default)
  | _ => Raise AttributeError
  end.

(** [x[key]] for a string key, on an arbitrary value. *)
Definition subscript (x : json) (key : string) : result json :=
  match x with
  | JObj d => getitem d key
  | _ => Raise TypeError
  end.

(** Truth value of [x] in a condition. *)
Definition truthy (x : json) : bool :=
  match x with
  | JNull => false
  | JBool b => b
  | JInt z => negb (Z.eqb z 0)
  | JStr s => negb (String.eqb s "")
  | JList l => match l with [] => false | _ => true end
  | JObj d => match d with [] => false | _ => true end
  end.

(** [len(x)] *)
Definition len (x : json) : result Z :=
  match x with
  | JStr s => Ok (Z.of_nat (String.length s))
  | JList l => Ok (Z.of_nat (List.length l))
  | JObj d => Ok (Z.of_nat (List.length d))
  | _ => Raise TypeError
  end.

(** [x[0]] *)
Definition first (x : json) : result json :=
  match x with
  | JList (v :: _) => Ok v
  | JList [] => Raise IndexError
  | JStr (String c _) => Ok (JStr (String c ""))
  | JStr "" => Raise IndexError
  | JObj _ => Raise (KeyError (JInt 0))
  | _ => Raise TypeError
  end.

(** The characters of a string, each as a one-character string. *)
Fixpoint chars (s : string) : list json :=
  match s with
  | "" => []
  | String c s' => JStr (String c "") :: chars s'
  end.

(** The values a [for] loop or a comprehension over [x] visits. *)
Definition iterate (x : json) : result (list json) :=
  match x with
  | JList l => Ok l
  | JStr s => Ok (chars s)
  | JObj d => Ok (map (fun kv => JStr (fst kv)) d)
  | _ => Raise TypeError
  end.

(** [[f(x) for x in l]]: left to right, stopping at the first exception. *)
Fixpoint comprehension {A} (f : json -> result A) (l : list json)
  : result (list A) :=
  match l with
  | [] => Ok []
  | x :: l' =>
      (y <- f x ;; ys <- comprehension f l' ;; Ok (y :: ys))%result
  end.

(** [l[i]] on a list of strings. *)
Definition index (l : list string) (i : nat) : result string :=
  match nth_error l i with
  | Some s => Ok s
  | None => Raise IndexError
  end.

End Py.

(** ** The [Product] data class *)

(** The data class performs no conversion or check: every attribute holds
    whatever Python value it was given, [None] being [JNull]. *)
Record Product : Type := mkProduct {
  id : json;
  title : json;
  handle : json;
  vendor : json;
  product_type : json;
  status : json;
  price : json;
  inventory_quantity : json
}.

Module ProductM.

(** The [if data.get('variants') and len(data['variants']) > 0] block: the
    pair of [price] and [inventory_quantity] after it. *)
Definition variant_fields (data : json) : result (json * json) :=
  (variants <- Py.get data "variants" ;;
   if Py.truthy variants then
     vs <- Py.subscript data "variants" ;;
     n <- Py.len vs ;;
     if (n >? 0)%Z then
       vs' <- Py.subscript data "variants" ;;
       first_variant <- Py.first vs' ;;
       price <- Py.get first_variant "price" ;;
       inventory_quantity <- Py.get first_variant "inventory_quantity" ;;
       Ok (price, inventory_quantity)
     else Ok (JNull, JNull)
   else Ok (JNull, JNull))%result.

(** [Product.from_dict(data)] *)
Definition from_dict (data : json) : result Product :=
  (pq <- variant_fields data ;;
   id <- Py.subscript data "id" ;;
   title <- Py.subscript data "title" ;;
   handle <- Py.subscript data "handle" ;;
   vendor <- Py.subscript data "vendor" ;;
   product_type <- Py.subscript data "product_type" ;;
   status <- Py.subscript data "status" ;;
   Ok (mkProduct id title handle vendor product_type status
                 (fst pq) (snd pq)))%result.

(** The required keys, in the order [from_dict] reads them. *)
Definition required : list string :=
  ["id"; "title"; "handle"; "vendor"; "product_type"; "status"].

Definition present (fields : dict) (key : string) : bool :=
  match Py.lookup key fields with
  | Some _ => true
  | None => false
  end.

(** The entry holds every required key. *)
Definition has_required (fields : dict) : bool :=
  forallb (present fields) required.

(** The first required key the entry lacks. *)
Definition first_missing (fields : dict) : option string :=
  find (fun key => negb (present fields key)) required.

(** The exceptions by which normalisation fails on an entry that breaks
    the schema: a key that is not there, a value of the wrong kind. *)
Definition MalformedRecord (e : exn) : bool :=
  match e with
  | KeyError _ | TypeError | AttributeError => true
  | IndexError | RequestException _ | OSError _ | UnicodeEncodeError => false
  end.

End ProductM.

(** ** The outside world *)

(** What [requests.get] sends: the URL, the headers and the query
    parameters. *)
Record request : Type := mkRequest {
  req_url : string;
  req_headers : dict;
  req_params : dict
}.

(** A response object: [http_error] is the message of the [HTTPError] that
    [raise_for_status()] raises ([None] when the status is accepted),
    [body] is [response.json()] and [link_header] is
    [response.headers.get('Link')]. *)
Record response : Type := mkResponse {
  http_error : option string;
  body : json;
  link_header : option string
}.

(** What one call of [requests.get] comes to: a transport failure (a
    [RequestException] raised by the call itself) or a response. *)
Inductive outcome : Type :=
| TransportError (msg : string)
| Reply (r : response).

(** The remote shop answers the [n]-th request ever sent according to
    [remote]; [sent] logs the requests issued so far, [stdout] the lines
    printed, [files] the files written (path and content, latest first);
    [writable] tells the paths that [open(path, 'w')] accepts: the others
    lie in a directory that is missing, are a directory themselves, or are
    refused to the user.  (A path with a NUL character, for which [open]
    raises a [ValueError], is not considered.) *)
Record world (text : Type) : Type := mkWorld {
  remote : nat -> request -> outcome;
  sent : list request;
  stdout : list string;
  files : list (string * text);
  writable : string -> bool
}.
Arguments mkWorld {text}.
Arguments writable {text}.
Arguments remote {text}.
Arguments sent {text}.
Arguments stdout {text}.
Arguments files {text}.

Section Effects.

Context {text : Type}.

(** Computations: they read and change the world and end with a value or
    an exception. *)
Definition M (A : Type) : Type := world text -> result A * world text.

Definition ret {A} (a : A) : M A := fun w => (Ok a, w).

Definition bind {A B} (m : M A) (k : A -> M B) : M B :=
  fun w =>
    match m w with
    | (Ok a, w') => k a w'
    | (Raise e, w') => (Raise e, w')
    end.

(** A pure step that may raise. *)
Definition lift {A} (r : result A) : M A := fun w => (r, w).

(** [try: body except requests.exceptions.RequestException as e: handler] *)
Definition try_except {A} (body : M A) (handler : string -> M A) : M A :=
  fun w =>
    match body w with
    | (Raise (RequestException msg), w') => handler msg w'
    | other => other
    end.

(** [print(line)] *)
Definition print (line : string) : M unit :=
  fun w =>
    (Ok tt, mkWorld (remote w) (sent w) (stdout w ++ [line]) (files w)
                    (writable w)).

(** [requests.get(url, headers=headers, params=params)] *)
Definition requests_get (url : string) (headers params : dict) : M response :=
  fun w =>
    let req := mkRequest url headers params in
    let w' := mkWorld (remote w) (sent w ++ [req]) (stdout w) (files w)
                      (writable w) in
    match remote w (List.length (sent w)) req with
    | TransportError msg => (Raise (RequestException msg), w')
    | Reply r => (Ok r, w')
    end.

(** [response.raise_for_status()] *)
Definition raise_for_status (r : response) : M unit :=
  match http_error r with
  | Some msg => lift (Raise (RequestException msg))
  | None => ret tt
  end.

(** [with open(path, 'w', encoding='utf-8') as f: body], where [body] comes
    to an outcome and the text it has written by then.  [open] raises
    [OSError] on a path it cannot open, and nothing is written; on any other
    path the file is made or emptied and, when the block is left, holds what
    [body] wrote, also when [body] raised. *)
Definition write_file (path : string) (body : result unit * text) : M unit :=
  fun w =>
    if writable w path then
      (fst body,
       mkWorld (remote w) (sent w) (stdout w) ((path, snd body) :: files w)
               (writable w))
    else (Raise (OSError path), w).

End Effects.

Declare Scope world_scope.
Delimit Scope world_scope with world.
Notation "x <- m ;; k" := (bind m (fun x => k))
  (at level 61, m at next level, right associativity) : world_scope.
Notation "m ;; k" := (bind m (fun _ => k))
  (at level 61, right associativity) : world_scope.

(** The content of the file at [path]. *)
Fixpoint read_file {text} (path : string) (fs : list (string * text))
  : option text :=
  match fs with
  | [] => None
  | (p, c) :: fs' => if String.eqb p path then Some c else read_file path fs'
  end.

(** ** The [ShopifyAPI] client *)

Record ShopifyAPI : Type := mkShopifyAPI {
  shop_name : string;
  access_token : string;
  base_url : string;
  headers : dict
}.

Module Shopify.

(** [ShopifyAPI(shop_name, access_token)] *)
Definition init (shop_name access_token : string) : ShopifyAPI :=
  mkShopifyAPI shop_name access_token
    ("https://" ++ shop_name ++ ".myshopify.com")
    [("X-Shopify-Access-Token", JStr access_token);
     ("Content-Type", JStr "application/json")].

Definition products_url (self : ShopifyAPI) : string :=
  base_url self ++ "/admin/api/2023-10/products.json".

(** The marker [rel="next"]. *)
Definition rel_next : string :=
  "rel=" ++ PyStr.dquote ++ "next" ++ PyStr.dquote.

(** [link.split('page_info=')[1].split('&')[0].split('>')[0]] *)
Definition token_of_link (link : string) : result string :=
  (a <- Py.index (PyStr.split "page_info=" link) 1 ;;
   b <- Py.index (PyStr.split "&" a) 0 ;;
   Py.index (PyStr.split ">" b) 0)%result.

(** The [for link in ...] loop: [page_info] after it.  The loop leaves at
    the first link that holds the marker; when none does, [page_info]
    keeps its value. *)
Fixpoint scan_links (links : list string) (page_info : option string)
  : result (option string) :=
  match links with
  | [] => Ok page_info
  | link :: rest =>
      if PyStr.contains rel_next link
      then (tok <- token_of_link link ;; Ok (Some tok))%result
      else scan_links rest page_info
  end.

(** Truth value of the [page_info] variable ([None] or a string). *)
Definition token_truthy (page_info : option string) : bool :=
  match page_info with
  | Some s => negb (String.eqb s "")
  | None => false
  end.

(** Truth value of [link_header and 'rel="next"' in link_header]. *)
Definition has_next (link_header : option string) : bool :=
  match link_header with
  | Some h => negb (String.eqb h "") && PyStr.contains rel_next h
  | None => false
  end.

Section Operations.

Context {text : Type}.
Local Open Scope world_scope.

(** The [try] body shared by [get_products] and [search_products]. *)
Definition fetch_page (url : string) (hdrs params : dict)
  : M (text:=text) (list Product) :=
  response <- requests_get url hdrs params ;;
  raise_for_status response ;;
  let data := body response in
  products_data <- lift (Py.get_or data "products" (JList [])) ;;
  entries <- lift (Py.iterate products_data) ;;
  lift (Py.comprehension ProductM.from_dict entries).

(** [self.get_products(limit, status)] *)
Definition get_products (self : ShopifyAPI) (limit : Z) (status : string)
  : M (text:=text) (list Product) :=
  let url := products_url self in
  let params := [("limit", JInt (Z.min limit 250)); ("status", JStr status)] in
  try_except
    (fetch_page url (headers self) params)
    (fun e => print ("Error fetching products: " ++ e) ;; ret []).

(** [self.search_products(query, limit)] *)
Definition search_products (self : ShopifyAPI) (query : string) (limit : Z)
  : M (text:=text) (list Product) :=
  let url := products_url self in
  let params := [("limit", JInt (Z.min limit 250)); ("title", JStr query)] in
  try_except
    (fetch_page url (headers self) params)
    (fun e => print ("Error searching products: " ++ e) ;; ret []).

(** How one turn of the [while True] loop ends: with [break], or at the
    end of the body with the new [all_products] and [page_info]. *)
Inductive turn : Type :=
| Break (all_products : list Product)
| Again (all_products : list Product) (page_info : option string).

(** The parameters of one request of [get_all_products]. *)
Definition page_params (status : string) (page_info : option string) : dict :=
  let params := [("limit", JInt 250); ("status", JStr status)] in
  if token_truthy page_info
  then match page_info with
       | Some tok => Py.setitem params "page_info" (JStr tok)
       | None => params
       end
  else params.

(** One turn of the loop of [get_all_products]. *)
Definition loop_body (self : ShopifyAPI) (status : string)
           (all_products : list Product) (page_info : option string)
  : M (text:=text) turn :=
  let url := products_url self in
  let params := page_params status page_info in
  try_except
    (response <- requests_get url (headers self) params ;;
     raise_for_status response ;;
     let data := body response in
     products_data <- lift (Py.get_or data "products" (JList [])) ;;
     if negb (Py.truthy products_data) then ret (Break all_products)
     else
       entries <- lift (Py.iterate products_data) ;;
       products <- lift (Py.comprehension ProductM.from_dict entries) ;;
       let all_products := all_products ++ products in
       let link_header := link_header response in
       if has_next link_header then
         match link_header with
         | Some h =>
             page_info' <- lift (scan_links (PyStr.split "," h) page_info) ;;
             ret (Again all_products page_info')
         | None => ret (Break all_products)
         end
       else ret (Break all_products))
    (fun e =>
       print ("Error fetching products: " ++ e) ;; ret (Break all_products)).

(** The [while True] loop, for at most [fuel] turns; [None] when the
    turns are used up before the loop is left. *)
Fixpoint all_products_loop (fuel : nat) (self : ShopifyAPI) (status : string)
         (all_products : list Product) (page_info : option string)
         (w : world text)
  : option (result (list Product)) * world text :=
  match fuel with
  | O => (None, w)
  | S fuel' =>
      match loop_body self status all_products page_info w with
      | (Raise e, w') => (Some (Raise e), w')
      | (Ok (Break all_products'), w') => (Some (Ok all_products'), w')
      | (Ok (Again all_products' page_info'), w') =>
          all_products_loop fuel' self status all_products' page_info' w'
      end
  end.

(** [self.get_all_products(status)] *)
Definition get_all_products (fuel : nat) (self : ShopifyAPI) (status : string)
           (w : world text)
  : option (result (list Product)) * world text :=
  all_products_loop fuel self status [] None w.

End Operations.

End Shopify.

(** ** Export *)

(** The [json] module as far as [export_to_json] and a reader of its file use
    it: [dump] is [json.dump(value, f, indent=2, ensure_ascii=False)] seen as
    the text it writes, [load] is [json.load].  A value that holds text
    without a UTF-8 encoding (a lone surrogate) cannot be written to the
    end: [cut] gives the text that has been written when the write of the
    offending piece raises [UnicodeEncodeError], and [None] for a value that
    is written whole.  Values nested deeper than the interpreter's recursion
    limit are not considered. *)
Record json_codec (text : Type) : Type := mkCodec {
  dump : json -> text;
  load : text -> option json;
  cut : json -> option text
}.
Arguments dump {text}.
Arguments load {text}.
Arguments cut {text}.

Module Exporting.

(** The line feed character. *)
Definition newline : string := String (ascii_of_nat 10) "".

(** The dict [export_to_json] appends for one product. *)
Definition product_dict (product : Product) : json :=
  JObj [("id", id product);
        ("title", title product);
        ("handle", handle product);
        ("vendor", vendor product);
        ("product_type", product_type product);
        ("status", status product);
        ("price", price product);
        ("inventory_quantity", inventory_quantity product)].

(** The [for product in products] loop, from the list built so far. *)
Fixpoint collect (products_dict : list json) (products : list Product)
  : list json :=
  match products with
  | [] => products_dict
  | product :: rest => collect (products_dict ++ [product_dict product]) rest
  end.

(** [json.dump(value, f, indent=2, ensure_ascii=False)]: how it ends and
    what it has written to [f] by then. *)
Definition json_dump {text} (codec : json_codec text) (value : json)
  : result unit * text :=
  match cut codec value with
  | None => (Ok tt, dump codec value)
  | Some written => (Raise UnicodeEncodeError, written)
  end.

(** [export_to_json(products, filename)] *)
Definition export_to_json {text} (codec : json_codec text)
           (products : list Product) (filename : string) : M (text:=text) unit :=
  (let products_dict := collect [] products in
   write_file filename (json_dump codec (JList products_dict)) ;;
   print (newline ++ "Products exported to " ++ filename))%world.

(** The keys of every exported object, in the order they are written. *)
Definition keys : list string :=
  ["id"; "title"; "handle"; "vendor"; "product_type"; "status"; "price";
   "inventory_quantity"].

End Exporting.

(** ** JSON text *)

(** The persisted format: JSON as [json.dump] writes it with [indent=2] and
    [ensure_ascii=False], and a reader for JSON text.  A text is the bytes
    of its UTF-8 encoding; the reader takes a [\u] escape of an ASCII
    character only, the one kind the writer makes. *)
Module JsonText.

Definition backslash : ascii := ascii_of_nat 92.
Definition quote : ascii := ascii_of_nat 34.
Definition line_feed : ascii := ascii_of_nat 10.

Fixpoint spaces (n : nat) : string :=
  match n with
  | O => ""
  | S n' => String " " (spaces n')
  end.

(** A line break followed by the indentation of [level]. *)
Definition newline_indent (level : nat) : string :=
  String line_feed (spaces (2 * level)).

Definition hex_digit (n : nat) : ascii :=
  if Nat.ltb n 10 then ascii_of_nat (48 + n) else ascii_of_nat (87 + n).

(** How a character is written inside a string: the quote, the backslash and
    the control characters are escaped, all others stand for themselves. *)
Definition escape_char (c : ascii) : string :=
  let n := nat_of_ascii c in
  if Ascii.eqb c quote then String backslash (String quote "")
  else if Ascii.eqb c backslash then String backslash (String backslash "")
  else if Nat.eqb n 8 then String backslash "b"
  else if Nat.eqb n 9 then String backslash "t"
  else if Nat.eqb n 10 then String backslash "n"
  else if Nat.eqb n 12 then String backslash "f"
  else if Nat.eqb n 13 then String backslash "r"
  else if Nat.ltb n 32 then
    String backslash
      (String "u" (String "0" (String "0"
         (String (hex_digit (n / 16)) (String (hex_digit (n mod 16)) "")))))
  else String c "".

Fixpoint escape (s : string) : string :=
  match s with
  | "" => ""
  | String c s' => escape_char c ++ escape s'
  end.

Definition write_string (s : string) : string :=
  String quote (escape s ++ String quote "").

Definition write_int (z : Z) : string :=
  DecimalString.NilEmpty.string_of_int (Z.to_int z).

(** The text of a value that stands at nesting depth [level]: the items of
    a non-empty array or object stand one per line, indented, with a comma
    between them. *)
Fixpoint write (level : nat) (v : json) : string :=
  match v with
  | JNull => "null"
  | JBool true => "true"
  | JBool false => "false"
  | JInt z => write_int z
  | JStr s => write_string s
  | JList [] => "[]"
  | JList items =>
      "[" ++ newline_indent (S level) ++
      PyStr.join ("," ++ newline_indent (S level))
                 (map (write (S level)) items) ++
      newline_indent level ++ "]"
  | JObj [] => "{}"
  | JObj fields =>
      "{" ++ newline_indent (S level) ++
      PyStr.join ("," ++ newline_indent (S level))
                 (map (fun kv => (write_string (fst kv) ++ ": " ++
                                  write (S level) (snd kv))%string)
                      fields) ++
      newline_indent level ++ "}"
  end.

(** [json.dumps(value, indent=2, ensure_ascii=False)] *)
Definition dumps (value : json) : string := write 0 value.

Definition is_space (c : ascii) : bool :=
  let n := nat_of_ascii c in
  Nat.eqb n 32 || Nat.eqb n 10 || Nat.eqb n 13 || Nat.eqb n 9.

Definition is_digit (c : ascii) : bool :=
  let n := nat_of_ascii c in
  Nat.leb 48 n && Nat.leb n 57.

Fixpoint skip_space (s : string) : string :=
  match s with
  | "" => ""
  | String c s' => if is_space c then skip_space s' else s
  end.

(** The digits [s] starts with, and what follows them. *)
Fixpoint span_digits (s : string) : string * string :=
  match s with
  | "" => ("", "")
  | String c s' =>
      if is_digit c
      then let (digits, rest) := span_digits s' in (String c digits, rest)
      else ("", s)
  end.

(** An integer: an optional sign and one digit at least. *)
Definition read_int (s : string) : option (Z * string) :=
  let (sign, body) :=
    match s with
    | String c s' => if Ascii.eqb c "-" then ("-", s') else ("", s)
    | "" => ("", s)
    end in
  let (digits, rest) := span_digits body in
  match digits with
  | "" => None
  | _ =>
      match DecimalString.NilEmpty.int_of_string (sign ++ digits)%string with
      | Some d => Some (Z.of_int d, rest)
      | None => None
      end
  end.

Definition hex_value (c : ascii) : option nat :=
  let n := nat_of_ascii c in
  if Nat.leb 48 n && Nat.leb n 57 then Some (n - 48)
  else if Nat.leb 97 n && Nat.leb n 102 then Some (n - 87)
  else if Nat.leb 65 n && Nat.leb n 70 then Some (n - 55)
  else None.

(** The character a one-letter escape stands for. *)
Definition unescape (e : ascii) : option ascii :=
  if Ascii.eqb e quote then Some quote
  else if Ascii.eqb e backslash then Some backslash
  else if Ascii.eqb e "/" then Some "/"%char
  else if Ascii.eqb e "b" then Some (ascii_of_nat 8)
  else if Ascii.eqb e "t" then Some (ascii_of_nat 9)
  else if Ascii.eqb e "n" then Some (ascii_of_nat 10)
  else if Ascii.eqb e "f" then Some (ascii_of_nat 12)
  else if Ascii.eqb e "r" then Some (ascii_of_nat 13)
  else None.

(** The character of a [\u] escape with the four hexadecimal digits given,
    when it is an ASCII character, which is one byte of the text. *)
Definition unicode_escape (h1 h2 h3 h4 : ascii) : option ascii :=
  match hex_value h1, hex_value h2, hex_value h3, hex_value h4 with
  | Some 0, Some 0, Some a, Some b =>
      if Nat.ltb (16 * a + b) 128 then Some (ascii_of_nat (16 * a + b))
      else None
  | _, _, _, _ => None
  end.

(** The string that ends at the next quote that is not escaped, and what
    follows that quote; [s] starts after the opening quote. *)
Fixpoint read_string (s : string) : option (string * string) :=
  match s with
  | "" => None
  | String c s' =>
      if Ascii.eqb c quote then Some ("", s')
      else if Ascii.eqb c backslash then
        match s' with
        | "" => None
        | String e s'' =>
            if Ascii.eqb e "u" then
              match s'' with
              | String h1 (String h2 (String h3 (String h4 s3))) =>
                  match unicode_escape h1 h2 h3 h4, read_string s3 with
                  | Some ch, Some (text, rest) => Some (String ch text, rest)
                  | _, _ => None
                  end
              | _ => None
              end
            else
              match unescape e, read_string s'' with
              | Some ch, Some (text, rest) => Some (String ch text, rest)
              | _, _ => None
              end
        end
      else if Nat.ltb (nat_of_ascii c) 32 then None
      else
        match read_string s' with
        | Some (text, rest) => Some (String c text, rest)
        | None => None
        end
  end.

(** What is left of [s] after the word [word], when [s] starts with it. *)
Fixpoint after_word (word s : string) : option string :=
  match word with
  | "" => Some s
  | String a word' =>
      match s with
      | "" => None
      | String b s' => if Ascii.eqb a b then after_word word' s' else None
      end
  end.

(** The value [s] starts with, after blanks, and what follows it.  The
    elements of an array and the members of an object are read by the two
    companion functions, which start after the opening bracket. *)
Fixpoint read_value (fuel : nat) (s : string) : option (json * string) :=
  match fuel with
  | O => None
  | S fuel' =>
      match skip_space s with
      | "" => None
      | String c r =>
          if Ascii.eqb c "[" then
            match skip_space r with
            | "" => None
            | String c' r' =>
                if Ascii.eqb c' "]" then Some (JList [], r')
                else
                  match read_elements fuel' (String c' r') with
                  | Some (items, rest) => Some (JList items, rest)
                  | None => None
                  end
            end
          else if Ascii.eqb c "{" then
            match skip_space r with
            | "" => None
            | String c' r' =>
                if Ascii.eqb c' "}" then Some (JObj [], r')
                else
                  match read_members fuel' (String c' r') with
                  | Some (fields, rest) => Some (JObj fields, rest)
                  | None => None
                  end
            end
          else if Ascii.eqb c quote then
            match read_string r with
            | Some (text, rest) => Some (JStr text, rest)
            | None => None
            end
          else if Ascii.eqb c "n" then
            match after_word "ull" r with
            | Some rest => Some (JNull, rest)
            | None => None
            end
          else if Ascii.eqb c "t" then
            match after_word "rue" r with
            | Some rest => Some (JBool true, rest)
            | None => None
            end
          else if Ascii.eqb c "f" then
            match after_word "alse" r with
            | Some rest => Some (JBool false, rest)
            | None => None
            end
          else
            match read_int (String c r) with
            | Some (z, rest) => Some (JInt z, rest)
            | None => None
            end
      end
  end

with read_elements (fuel : nat) (s : string) : option (list json * string) :=
  match fuel with
  | O => None
  | S fuel' =>
      match read_value fuel' s with
      | None => None
      | Some (x, r) =>
          match skip_space r with
          | "" => None
          | String c r' =>
              if Ascii.eqb c "," then
                match read_elements fuel' r' with
                | Some (xs, rest) => Some (x :: xs, rest)
                | None => None
                end
              else if Ascii.eqb c "]" then Some ([x], r')
              else None
          end
      end
  end

with read_members (fuel : nat) (s : string)
  : option (list (string * json) * string) :=
  match fuel with
  | O => None
  | S fuel' =>
      match skip_space s with
      | "" => None
      | String q r0 =>
          if negb (Ascii.eqb q quote) then None
          else
            match read_string r0 with
            | None => None
            | Some (key, r1) =>
                match skip_space r1 with
                | "" => None
                | String colon r2 =>
                    if negb (Ascii.eqb colon ":") then None
                    else
                      match read_value fuel' r2 with
                      | None => None
                      | Some (x, r) =>
                          match skip_space r with
                          | "" => None
                          | String c r' =>
                              if Ascii.eqb c "," then
                                match read_members fuel' r' with
                                | Some (kxs, rest) => Some ((key, x) :: kxs, rest)
                                | None => None
                                end
                              else if Ascii.eqb c "}" then Some ([(key, x)], r')
                              else None
                          end
                      end
                end
            end
      end
  end.

(** [json.loads(text)]: one value, with nothing but blanks after it. *)
Definition loads (text : string) : option json :=
  match read_value (S (String.length text)) text with
  | Some (value, rest) =>
      match skip_space rest with
      | "" => Some value
      | _ => None
      end
  | None => None
  end.

(** The [json] module on text; [cut] tells the values that hold text
    without a UTF-8 encoding. *)
Definition codec (cut : json -> option string) : json_codec string :=
  mkCodec string dumps loads cut.

(** Every text has a UTF-8 encoding. *)
Definition whole (value : json) : option string := None.

(** The turns of the reader a value needs. *)
Fixpoint weight (v : json) : nat :=
  match v with
  | JList items => S (list_sum (map (fun x => S (weight x)) items))
  | JObj fields => S (list_sum (map (fun kv => S (weight (snd kv))) fields))
  | _ => 1
  end.

(** No digit stands at the head of [s]. *)
Definition no_digit_ahead (s : string) : bool :=
  match s with
  | "" => true
  | String c _ => negb (is_digit c)
  end.

End JsonText.

(** ** Pages and markers, as the properties below speak of them *)

Module Page.

(** The first comma-separated directive of a [Link] header that holds
    [rel="next"]. *)
Definition next_directive (h : string) : option string :=
  find (PyStr.contains Shopify.rel_next) (PyStr.split "," h).

(** The response carries a "next" marker: a directive of its [Link] header
    holds [rel="next"], and that directive has a [page_info=] parameter. *)
Definition carries_next (r : response) : bool :=
  match link_header r with
  | Some h =>
      match next_directive h with
      | Some link => PyStr.contains "page_info=" link
      | None => false
      end
  | None => false
  end.

(** No directive of the response's [Link] header holds [rel="next"]. *)
Definition no_marker (r : response) : bool :=
  match link_header r with
  | Some h =>
      match next_directive h with
      | Some _ => false
      | None => true
      end
  | None => true
  end.

(** The response is a successful page whose entries normalise to
    [products]: its status is accepted and its body holds the list
    [entries] under [products]. *)
Definition delivers (r : response) (products : list Product) : Prop :=
  http_error r = None /\
  exists fields entries,
    body r = JObj fields /\
    Py.lookup "products" fields = Some (JList entries) /\
    Py.comprehension ProductM.from_dict entries = Ok products.

(** The remote answers its [n]-th request with the page [r], whatever the
    request asks. *)
Definition answers (remote : nat -> request -> outcome) (n : nat) (r : response)
  : Prop :=
  forall req, remote n req = Reply r.

(** The remote fails its [n]-th request: the call raises, or the status is
    refused. *)
Definition fails (o : outcome) : bool :=
  match o with
  | TransportError _ => true
  | Reply r => match http_error r with Some _ => true | None => false end
  end.

(** The message of the failure. *)
Definition failure_message (o : outcome) : string :=
  match o with
  | TransportError msg => msg
  | Reply r => match http_error r with Some msg => msg | None => "" end
  end.

(** The world once [req] has been sent. *)
Definition after_request {text} (w : world text) (req : request) : world text :=
  mkWorld (remote w) (sent w ++ [req]) (stdout w) (files w) (writable w).

(** The world once [line] has been printed. *)
Definition after_print {text} (w : world text) (line : string) : world text :=
  mkWorld (remote w) (sent w) (stdout w ++ [line]) (files w) (writable w).

(** What the remote answers to [req] if it is sent next. *)
Definition next_outcome {text} (w : world text) (req : request) : outcome :=
  remote w (List.length (sent w)) req.

(** The records of a page body, as the single-page operations compute
    them. *)
Definition records (data : json) : result (list Product) :=
  (products_data <- Py.get_or data "products" (JList []) ;;
   entries <- Py.iterate products_data ;;
   Py.comprehension ProductM.from_dict entries)%result.

(** The request [get_products] sends. *)
Definition get_request (self : ShopifyAPI) (limit : Z) (status : string)
  : request :=
  mkRequest (Shopify.products_url self) (headers self)
            [("limit", JInt (Z.min limit 250)); ("status", JStr status)].

(** The request [search_products] sends. *)
Definition search_request (self : ShopifyAPI) (query : string) (limit : Z)
  : request :=
  mkRequest (Shopify.products_url self) (headers self)
            [("limit", JInt (Z.min limit 250)); ("title", JStr query)].

(** The request one turn of [get_all_products] sends. *)
Definition all_request (self : ShopifyAPI) (status : string)
           (page_info : option string) : request :=
  mkRequest (Shopify.products_url self) (headers self)
            (Shopify.page_params status page_info).

(** The [limit] parameter of a request. *)
Definition limit_of (req : request) : option json :=
  Py.lookup "limit" (req_params req).

(** What one turn of the loop of [get_all_products] makes of an accepted
    response. *)
Definition turn_of (r : response) (all_products : list Product)
           (page_info : option string) : result Shopify.turn :=
  (products_data <- Py.get_or (body r) "products" (JList []) ;;
   if negb (Py.truthy products_data) then Ok (Shopify.Break all_products)
   else
     entries <- Py.iterate products_data ;;
     products <- Py.comprehension ProductM.from_dict entries ;;
     if Shopify.has_next (link_header r) then
       match link_header r with
       | Some h =>
           page_info' <- Shopify.scan_links (PyStr.split "," h) page_info ;;
           Ok (Shopify.Again (all_products ++ products) page_info')
       | None => Ok (Shopify.Break (all_products ++ products))
       end
     else Ok (Shopify.Break (all_products ++ products)))%result.

(** The page holds no entry: the value under [products] is absent or counts
    as false. *)
Definition is_empty (r : response) : bool :=
  match Py.get_or (body r) "products" (JList []) with
  | Ok products_data => negb (Py.truthy products_data)
  | Raise _ => false
  end.

(** The answer ends the loop of [get_all_products]: a failure, an empty
    page, or a page without a "next" marker. *)
Definition ends_loop (o : outcome) : bool :=
  fails o ||
  match o with
  | TransportError _ => true
  | Reply r => is_empty r || no_marker r
  end.

(** From its [n]-th request on, the remote answers with [pages], one page
    per request, whatever the requests ask. *)
Fixpoint serves (remote : nat -> request -> outcome) (n : nat)
         (pages : list response) : Prop :=
  match pages with
  | [] => True
  | r :: rest => answers remote n r /\ serves remote (S n) rest
  end.

End Page.

(** ** The [Link] header, read by its grammar *)

(** A directive is a URL in angle brackets followed by attributes; the URL's
    query, after [?], is a list of [key=value] pairs separated by [&].  This
    reading follows the interface's description of the header, not the
    code; the properties below compare the two. *)
Module LinkSpec.

(** The text of [s] before its first [c] (all of [s] when there is none). *)
Fixpoint before_char (c : ascii) (s : string) : string :=
  match s with
  | "" => ""
  | String b s' => if Ascii.eqb c b then "" else String b (before_char c s')
  end.

(** The text of [s] after its first [c]. *)
Fixpoint after_char (c : ascii) (s : string) : option string :=
  match s with
  | "" => None
  | String b s' => if Ascii.eqb c b then Some s' else after_char c s'
  end.

(** The URL of a directive: what stands between [<] and the next [>]. *)
Definition url_of (directive : string) : option string :=
  match after_char "<" directive with
  | Some t => Some (before_char ">" t)
  | None => None
  end.

(** The query of a URL: what follows its first [?]. *)
Definition query_of (url : string) : string :=
  match after_char "?" url with
  | Some q => q
  | None => ""
  end.

(** A [key=value] pair, cut at its first [=]. *)
Definition pair_of (text : string) : string * string :=
  (before_char "=" text,
   match after_char "=" text with Some v => v | None => "" end).

(** The query parameters of a directive's URL, in order. *)
Definition params_of (directive : string) : list (string * string) :=
  match url_of directive with
  | Some url => map pair_of (PyStr.split "&" (query_of url))
  | None => []
  end.

(** The value of the query parameter [key] in the directive's URL. *)
Definition query_value (key directive : string) : option string :=
  match find (fun kv => String.eqb (fst kv) key) (params_of directive) with
  | Some kv => Some (snd kv)
  | None => None
  end.

(** A directive made of the text [a], the parameter [page_info=tok] and the
    text [rest]. *)
Definition directive (a tok rest : string) : string :=
  a ++ "page_info=" ++ tok ++ rest.

End LinkSpec.

(** ** A sample shop *)

Module Sample.

Definition shop : ShopifyAPI := Shopify.init "demo" "shpat_demo".

Definition entry_fields (n : Z) (name : string) (more : dict) : dict :=
  [("id", JInt n); ("title", JStr name); ("handle", JStr name);
   ("vendor", JStr "Acme"); ("product_type", JStr "Apparel");
   ("status", JStr "active")] ++ more.

Definition shirt_fields : dict :=
  entry_fields 1 "shirt"
    [("variants",
      JList [JObj [("price", JStr "9.99"); ("inventory_quantity", JInt 3)];
             JObj [("price", JStr "12.50"); ("inventory_quantity", JInt 0)]])].

Definition scarf_fields : dict :=
  entry_fields 2 "scarf" [("variants", JList [JObj [("price", JStr "5.00")]])].

Definition socks_fields : dict := entry_fields 3 "socks" [].

Definition shirt : json := JObj shirt_fields.
Definition scarf : json := JObj scarf_fields.
Definition socks : json := JObj socks_fields.

(** An entry without its [vendor]. *)
Definition broken_fields : dict :=
  [("id", JInt 4); ("title", JStr "hat"); ("handle", JStr "hat");
   ("product_type", JStr "Apparel"); ("status", JStr "active")].

Definition broken : json := JObj broken_fields.

(** The records [from_dict] makes of the three entries. *)
Definition shirt_record : Product :=
  mkProduct (JInt 1) (JStr "shirt") (JStr "shirt") (JStr "Acme")
            (JStr "Apparel") (JStr "active") (JStr "9.99") (JInt 3).

Definition scarf_record : Product :=
  mkProduct (JInt 2) (JStr "scarf") (JStr "scarf") (JStr "Acme")
            (JStr "Apparel") (JStr "active") (JStr "5.00") JNull.

Definition socks_record : Product :=
  mkProduct (JInt 3) (JStr "socks") (JStr "socks") (JStr "Acme")
            (JStr "Apparel") (JStr "active") JNull JNull.

(** A [Link] header whose single directive points to the next page. *)
Definition link_to (query : string) : string :=
  "<https://demo.myshopify.com/admin/api/2023-10/products.json?" ++ query
    ++ ">; " ++ Shopify.rel_next.

Definition page (entries : list json) (link : option string) : response :=
  mkResponse None (JObj [("products", JList entries)]) link.

Definition first_page : response :=
  page [shirt; scarf] (Some (link_to "limit=250&page_info=abc123")).

Definition last_page : response := page [socks] None.

(** An empty page that all the same points to a next one. *)
Definition hollow_page : response :=
  page [] (Some (link_to "limit=250&page_info=abc123")).

(** A page whose body maps [products] to [null]. *)
Definition null_page : response :=
  mkResponse None (JObj [("products", JNull)]) None.

(** A page whose body has no [products] key. *)
Definition bare_page : response :=
  mkResponse None (JObj [("errors", JStr "none")]) None.

Definition refused : response :=
  mkResponse (Some "503 Server Error") JNull None.

(** A remote that answers its requests with [answers], in turn, and fails
    every later one. *)
Definition scripted (answers : list outcome) : nat -> request -> outcome :=
  fun n _ => nth n answers (TransportError "connection refused").

(** A working directory without subdirectories: [open] refuses the empty
    path and a path with a slash. *)
Definition no_directory (path : string) : bool :=
  negb (String.eqb path "") && negb (PyStr.contains "/" path).

Definition world_of (answers : list outcome) : world string :=
  mkWorld (scripted answers) [] [] [] no_directory.

(** The remote of the two-page shop: the first page for a request without
    a token, the last page for the token [abc123]. *)
Definition two_page_shop : world string :=
  mkWorld (fun _ req =>
             match Py.lookup "page_info" (req_params req) with
             | None => Reply first_page
             | Some (JStr "abc123") => Reply last_page
             | Some _ => Reply refused
             end) [] [] [] no_directory.

(** A record whose texts are not ASCII, and its row as Python prints it:
    the vendor has 14 characters in 16 bytes and is not cut. *)
Definition dessert : Product :=
  mkProduct (JInt 7) (JStr "Crème brûlée à la vanille de Madagascar") (JStr "creme-brulee") (JStr "Pâtisserie Zoé")
            (JStr "Dessert") (JStr "active") (JStr "4.50") (JInt 12).

Definition dessert_row : string :=
  "7            Crème brûlée à la vanille d... Pâtisserie Zoé  Dessert         $4.50      active    ".

End Sample.

(** ** What goes on the wire *)

Module Wire.

(** The products endpoint of the shop [shop_name]. *)
Definition endpoint (shop_name : string) : string :=
  "https://" ++ shop_name ++ ".myshopify.com/admin/api/2023-10/products.json".

(** The request goes to the products endpoint of the shop and carries the
    access token and the content type as headers. *)
Definition to_shop (shop_name access_token : string) (req : request) : Prop :=
  req_url req = endpoint shop_name /\
  Py.lookup "X-Shopify-Access-Token" (req_headers req) = Some (JStr access_token) /\
  Py.lookup "Content-Type" (req_headers req) = Some (JStr "application/json").

(** The request filters on [status] and carries a [page_info] parameter only
    when it has a token to give. *)
Definition paged (status : string) (req : request) : Prop :=
  Py.lookup "status" (req_params req) = Some (JStr status) /\
  Py.lookup "page_info" (req_params req) <> Some (JStr "").

End Wire.

(** ** The table of products *)

Module Display.

(** A text is held as the bytes of its UTF-8 encoding, and Python counts
    and cuts by characters.  A byte from 128 to 191 continues the character
    begun before it; every other byte begins one. *)
Definition continues (c : ascii) : bool :=
  let n := nat_of_ascii c in
  Nat.leb 128 n && Nat.leb n 191.

(** [len(s)]: the number of characters. *)
Fixpoint characters (s : string) : nat :=
  match s with
  | String c s' => if continues c then characters s' else S (characters s')
  | EmptyString => 0
  end.

(** The bytes up to the character that begins when [n] are complete. *)
Fixpoint upto (n : nat) (s : string) : string :=
  match s with
  | String c s' =>
      if continues c then String c (upto n s')
      else match n with
           | S n' => String c (upto n' s')
           | O => ""
           end
  | EmptyString => ""
  end.

(** [s[:n]]: the first [n] characters. *)
Definition take (n : nat) (s : string) : string :=
  match n with
  | O => ""
  | S _ => upto n s
  end.

(** [len(x)], with the characters of a text. *)
Definition len (x : json) : result Z :=
  match x with
  | JStr s => Ok (Z.of_nat (characters s))
  | _ => Py.len x
  end.

(** [c * n] *)
Fixpoint times (c : ascii) (n : nat) : string :=
  match n with
  | O => ""
  | S n' => String c (times c n')
  end.

(** [format(s, '<width')] on a text: blanks are added on the right up to
    [width] characters; a longer text is left as it is. *)
Definition ljust (width : nat) (s : string) : string :=
  (s ++ times " " (width - characters s))%string.

(** [str(z)] *)
Definition decimal (z : Z) : string :=
  DecimalString.NilEmpty.string_of_int (Z.to_int z).

(** [format(x, '<width')]: a text, or a number by its decimal digits ([True]
    and [False] count as [1] and [0]); [None], lists and dicts have no such
    format. *)
Definition format_left (width : nat) (x : json) : result string :=
  match x with
  | JStr s => Ok (ljust width s)
  | JInt z => Ok (ljust width (decimal z))
  | JBool b => Ok (ljust width (if b then "1" else "0"))
  | _ => Raise TypeError
  end.

(** [x[:keep] + "..." if len(x) > limit else x].  Only a text can be cut: a
    list cannot be added to ["..."] and a dict cannot be sliced (the latter
    is a [KeyError] from Python 3.12 on). *)
Definition shorten (keep limit : nat) (x : json) : result json :=
  (n <- len x ;;
   if (n >? Z.of_nat limit)%Z then
     match x with
     | JStr s => Ok (JStr (take keep s ++ "...")%string)
     | _ => Raise TypeError
     end
   else Ok x)%result.

Section Rows.

(** [repr] of a list or a dict. *)
Variable repr : json -> string.

(** [str(x)] *)
Definition str (x : json) : string :=
  match x with
  | JStr s => s
  | JInt z => decimal z
  | JBool true => "True"
  | JBool false => "False"
  | JNull => "None"
  | _ => repr x
  end.

(** [f"${product.price}" if product.price else "N/A"] *)
Definition price_text (price : json) : string :=
  if Py.truthy price then ("$" ++ str price)%string else "N/A".

(** The line printed for one product. *)
Definition row_of (product : Product) : result string :=
  (title <- shorten 27 30 (title product) ;;
   vendor <- shorten 12 15 (vendor product) ;;
   product_type <- shorten 12 15 (product_type product) ;;
   let price := price_text (price product) in
   id_cell <- format_left 12 (id product) ;;
   title_cell <- format_left 30 title ;;
   vendor_cell <- format_left 15 vendor ;;
   type_cell <- format_left 15 product_type ;;
   let price_cell := ljust 10 price in
   status_cell <- format_left 10 (status product) ;;
   Ok (id_cell ++ " " ++ title_cell ++ " " ++ vendor_cell ++ " " ++
       type_cell ++ " " ++ price_cell ++ " " ++ status_cell)%string)%result.

(** The line of column titles. *)
Definition heading : string :=
  (ljust 12 "ID" ++ " " ++ ljust 30 "Title" ++ " " ++ ljust 15 "Vendor" ++ " " ++
   ljust 15 "Type" ++ " " ++ ljust 10 "Price" ++ " " ++ ljust 10 "Status")%string.

(** The lines printed before the rows. *)
Definition banner (count : nat) : list string :=
  [Exporting.newline ++ times "=" 100;
   "Found " ++ decimal (Z.of_nat count) ++ " products:";
   times "=" 100;
   heading;
   times "-" 100]%string.

Context {text : Type}.

(** The [for product in products] loop. *)
Fixpoint print_rows (products : list Product) : M (text:=text) unit :=
  match products with
  | [] => ret tt
  | product :: rest =>
      (row <- lift (row_of product) ;; print row ;; print_rows rest)%world
  end.

(** [display_products(products)] *)
Definition display_products (products : list Product) : M (text:=text) unit :=
  match products with
  | [] => print "No products found."
  | _ =>
      (print (Exporting.newline ++ times "=" 100)%string ;;
       print ("Found " ++ decimal (Z.of_nat (List.length products)) ++
              " products:")%string ;;
       print (times "=" 100) ;;
       print heading ;;
       print (times "-" 100) ;;
       print_rows products)%world
  end.

End Rows.

(** The value is a text. *)
Definition is_text (x : json) : bool :=
  match x with
  | JStr _ => true
  | _ => false
  end.

(** The value has a left-aligned format: a text or a number. *)
Definition has_format (x : json) : bool :=
  match x with
  | JStr _ | JInt _ | JBool _ => true
  | _ => false
  end.

(** The record can be shown: its title, vendor and type are texts, its id
    and status texts or numbers. *)
Definition presentable (product : Product) : bool :=
  is_text (title product) && is_text (vendor product) &&
  is_text (product_type product) && has_format (id product) &&
  has_format (status product).

(** The cell of a text in a column [width] wide: the text, cut to [keep]
    characters and three dots when it is longer than [width], then padded. *)
Definition column (keep width : nat) (s : string) : string :=
  ljust width (if Nat.ltb width (characters s) then (take keep s ++ "...")%string
               else s).

(** None of the three fields that are cut is a dict. *)
Definition flat (product : Product) : bool :=
  match title product, vendor product, product_type product with
  | JObj _, _, _ | _, JObj _, _ | _, _, JObj _ => false
  | _, _, _ => true
  end.

(** The world after [lines] have been printed. *)
Definition after_lines {text} (w : world text) (lines : list string) : world text :=
  mkWorld (remote w) (sent w) (stdout w ++ lines) (files w) (writable w).

End Display.


(** ** The menu *)

Module Console.

(** The lines and prompts of [main], byte for byte. *)
Definition title_line : string :=
  "ðŸ›ï¸  Shopify Products Fetcher".

Definition credentials_required : string :=
  "âŒ Shop name and access token are required!".

Definition options_line : string :=
  (Exporting.newline ++ "ðŸ“‹ Options:")%string.

Definition option_1 : string :=
  "1. Get first 50 products".

Definition option_2 : string :=
  "2. Get all products".

Definition option_3 : string :=
  "3. Search products".

Definition option_4 : string :=
  "4. Export products to JSON".

Definition option_5 : string :=
  "5. Exit".

Definition fetching_first : string :=
  (Exporting.newline ++ "â³ Fetching first 50 products...")%string.

Definition fetching_all : string :=
  (Exporting.newline ++ "â³ Fetching all products (this may take a while)...")%string.

Definition term_required : string :=
  "âŒ Please enter a search term!".

Definition fetching_export : string :=
  (Exporting.newline ++ "â³ Fetching all products for export...")%string.

Definition nothing_to_export : string :=
  "âŒ No products to export!".

Definition goodbye : string :=
  (Exporting.newline ++ "ðŸ‘‹ Goodbye!")%string.

Definition invalid_option : string :=
  "âŒ Invalid option! Please select 1-5.".

Definition shop_prompt : string :=
  "Enter your Shopify shop name (without .myshopify.com): ".

Definition token_prompt : string :=
  "Enter your Shopify access token: ".

Definition choice_prompt : string :=
  (Exporting.newline ++ "Select an option (1-5): ")%string.

Definition term_prompt : string :=
  "Enter search term: ".

Definition filename_prompt : string :=
  "Enter filename (default: shopify_products.json): ".

Definition searching (query : string) : string :=
  (Exporting.newline ++ "â³ Searching for products matching '" ++ query ++ "'...")%string.

(** What [main] works on: the world, the lines the user will type, and the
    prompts [input] has shown so far (they are written without a line end,
    and are kept apart from the printed lines). *)
Record session (text : Type) : Type := mkSession {
  world_of : world text;
  stdin : list string;
  prompts : list string
}.
Arguments mkSession {text}.
Arguments world_of {text}.
Arguments stdin {text}.
Arguments prompts {text}.

(** How a run can stop short of returning: an exception that nothing
    catches, the [EOFError] of [input] at the end of the input, or a loop
    that has not come to its end within the turns given. *)
Inductive halt : Type :=
| Raised (e : exn)
| EndOfInput
| Unfinished.

Inductive ending (A : Type) : Type :=
| Done (a : A)
| Halt (h : halt).
Arguments Done {A}.
Arguments Halt {A}.

Section Steps.

Context {text : Type}.

Definition C (A : Type) : Type := session text -> ending A * session text.

Definition ret {A} (a : A) : C A := fun s => (Done a, s).

Definition bind {A B} (m : C A) (k : A -> C B) : C B :=
  fun s =>
    match m s with
    | (Done a, s') => k a s'
    | (Halt h, s') => (Halt h, s')
    end.

(** The session after the world has become [w]. *)
Definition with_world (s : session text) (w : world text) : session text :=
  mkSession w (stdin s) (prompts s).

(** A step of the fetcher, inside the session. *)
Definition run {A} (m : M (text:=text) A) : C A :=
  fun s =>
    match m (world_of s) with
    | (Ok a, w) => (Done a, with_world s w)
    | (Raise e, w) => (Halt (Raised e), with_world s w)
    end.

(** A step that may still be running when its turns are used up. *)
Definition run_loop {A} (m : world text -> option (result A) * world text) : C A :=
  fun s =>
    match m (world_of s) with
    | (Some (Ok a), w) => (Done a, with_world s w)
    | (Some (Raise e), w) => (Halt (Raised e), with_world s w)
    | (None, w) => (Halt Unfinished, with_world s w)
    end.

(** [input(prompt)] *)
Definition input (prompt : string) : C string :=
  fun s =>
    match stdin s with
    | [] => (Halt EndOfInput, mkSession (world_of s) [] (prompts s ++ [prompt]))
    | line :: rest =>
        (Done line, mkSession (world_of s) rest (prompts s ++ [prompt]))
    end.

End Steps.

Declare Scope console_scope.
Delimit Scope console_scope with console.
Notation "x <- m ;; k" := (bind m (fun x => k))
  (at level 61, m at next level, right associativity) : console_scope.
Notation "m ;; k" := (bind m (fun _ => k))
  (at level 61, right associativity) : console_scope.

(** [not s] for a text that may be [None]. *)
Definition missing (value : option string) : bool :=
  match value with
  | Some s => String.eqb s ""
  | None => true
  end.

Section Main.

Context {text : Type}.

(** The library functions [main] and the functions it calls lean on:
    [repr] and [json.dump], [str.strip], and [os.getenv] on the environment
    left by [load_dotenv]. *)
Variable repr : json -> string.
Variable codec : json_codec text.
Variable strip : string -> string.
Variable getenv : string -> option string.

(** How many turns [get_all_products] is given. *)
Variable pages : nat.

(** [if not value: value = input(prompt).strip()] *)
Definition ask_if_missing (value : option string) (prompt : string)
  : C (text:=text) (option string) :=
  if missing value then (line <- input prompt ;; ret (Some (strip line)))%console
  else ret value.

(** The text of a value that is not missing. *)
Definition given (value : option string) : string :=
  match value with
  | Some s => s
  | None => ""
  end.

(** Where a credential comes from: the environment holds it and no line is
    read for it, or the environment holds none and it is the one line read
    for it, stripped. *)
Definition supplied (value : option string) (lines : list string)
           (credential : string) : Prop :=
  if missing value then exists line, lines = [line] /\ credential = strip line
  else lines = [] /\ value = Some credential.

(** The branch of the [if] ... [elif] chain taken for [choice]; the result
    tells whether the loop is left by [break]. *)
Definition dispatch (api : ShopifyAPI) (choice : string) : C (text:=text) bool :=
  (if String.eqb choice "1" then
     run (print fetching_first) ;;
     products <- run (Shopify.get_products api 50 "active") ;;
     run (Display.display_products repr products) ;;
     ret false
   else if String.eqb choice "2" then
     run (print fetching_all) ;;
     products <- run_loop (Shopify.get_all_products pages api "active") ;;
     run (Display.display_products repr products) ;;
     ret false
   else if String.eqb choice "3" then
     line <- input term_prompt ;;
     let query := strip line in
     if negb (String.eqb query "") then
       run (print (searching query)) ;;
       products <- run (Shopify.search_products api query 50) ;;
       run (Display.display_products repr products) ;;
       ret false
     else
       run (print term_required) ;;
       ret false
   else if String.eqb choice "4" then
     run (print fetching_export) ;;
     products <- run_loop (Shopify.get_all_products pages api "active") ;;
     match products with
     | _ :: _ =>
         line <- input filename_prompt ;;
         let filename := strip line in
         let filename :=
           if String.eqb filename "" then "shopify_products.json" else filename in
         run (Exporting.export_to_json codec products filename) ;;
         ret false
     | [] =>
         run (print nothing_to_export) ;;
         ret false
     end
   else if String.eqb choice "5" then
     run (print goodbye) ;;
     ret true
   else
     run (print invalid_option) ;;
     ret false)%console.

(** The lines of the menu. *)
Definition menu : list string :=
  [options_line; option_1; option_2; option_3; option_4; option_5].

(** One turn of the [while True] loop. *)
Definition menu_turn (api : ShopifyAPI) : C (text:=text) bool :=
  (run (print options_line) ;;
   run (print option_1) ;;
   run (print option_2) ;;
   run (print option_3) ;;
   run (print option_4) ;;
   run (print option_5) ;;
   line <- input choice_prompt ;;
   dispatch api (strip line))%console.

(** [while True: ...], for at most [turns] turns. *)
Fixpoint menu_loop (turns : nat) (api : ShopifyAPI) : C (text:=text) unit :=
  match turns with
  | O => fun s => (Halt Unfinished, s)
  | S turns' =>
      (left <- menu_turn api ;;
       if left then ret tt else menu_loop turns' api)%console
  end.

(** [main()] *)
Definition main (turns : nat) : C (text:=text) unit :=
  (run (print title_line) ;;
   run (print (Display.times "=" 50)) ;;
   let shop_name := getenv "SHOPIFY_SHOP_NAME" in
   let access_token := getenv "SHOPIFY_ACCESS_TOKEN" in
   shop_name <- ask_if_missing shop_name shop_prompt ;;
   access_token <- ask_if_missing access_token token_prompt ;;
   if missing shop_name || missing access_token then
     run (print credentials_required)
   else
     let api := Shopify.init (given shop_name) (given access_token) in
     menu_loop turns api)%console.

End Main.

(** [str.strip]: the blanks of Python are the characters 9 to 13, 28 to 32,
    U+0085, U+00A0, U+1680, U+2000 to U+200A, U+2028, U+2029, U+202F, U+205F
    and U+3000; a text being the bytes of its UTF-8 encoding, a blank is one,
    two or three bytes long. *)
Definition blank1 (c : ascii) : bool :=
  let n := nat_of_ascii c in
  (Nat.leb 9 n && Nat.leb n 13) || (Nat.leb 28 n && Nat.leb n 32).

Definition blank2 (c1 c2 : ascii) : bool :=
  Nat.eqb (nat_of_ascii c1) 194 &&
  (Nat.eqb (nat_of_ascii c2) 133 || Nat.eqb (nat_of_ascii c2) 160).

Definition blank3 (c1 c2 c3 : ascii) : bool :=
  let n1 := nat_of_ascii c1 in
  let n2 := nat_of_ascii c2 in
  let n3 := nat_of_ascii c3 in
  (Nat.eqb n1 225 && Nat.eqb n2 154 && Nat.eqb n3 128) ||
  (Nat.eqb n1 226 && Nat.eqb n2 128 &&
   ((Nat.leb 128 n3 && Nat.leb n3 138) ||
    Nat.eqb n3 168 || Nat.eqb n3 169 || Nat.eqb n3 175)) ||
  (Nat.eqb n1 226 && Nat.eqb n2 129 && Nat.eqb n3 159) ||
  (Nat.eqb n1 227 && Nat.eqb n2 128 && Nat.eqb n3 128).

(** [s.lstrip()] *)
Fixpoint lstrip (s : string) : string :=
  match s with
  | String c1 s1 =>
      if blank1 c1 then lstrip s1
      else match s1 with
           | String c2 s2 =>
               if blank2 c1 c2 then lstrip s2
               else match s2 with
                    | String c3 s3 => if blank3 c1 c2 c3 then lstrip s3 else s
                    | EmptyString => s
                    end
           | EmptyString => s
           end
  | EmptyString => ""
  end.

(** The text holds nothing but blanks. *)
Fixpoint all_blank (s : string) : bool :=
  match s with
  | String c1 s1 =>
      if blank1 c1 then all_blank s1
      else match s1 with
           | String c2 s2 =>
               if blank2 c1 c2 then all_blank s2
               else match s2 with
                    | String c3 s3 => blank3 c1 c2 c3 && all_blank s3
                    | EmptyString => false
                    end
           | EmptyString => false
           end
  | EmptyString => true
  end.

(** [s.rstrip()]: the text up to the blanks it ends with. *)
Fixpoint rstrip (s : string) : string :=
  match s with
  | String c s' => if all_blank s then "" else String c (rstrip s')
  | EmptyString => ""
  end.

(** [s.strip()] *)
Definition strip_text (s : string) : string := rstrip (lstrip s).

End Console.

(** ** What a run keeps *)

Module Frame.

Section Relations.

Context {text : Type}.

(** A relation between the world before and after, and what is known of
    the lines typed. *)
Variable related : world text -> world text -> Prop.
Variable typed : string -> Prop.

(** The worlds are related and the input left is a tail of the input. *)
Definition follows (s s' : Console.session text) : Prop :=
  related (Console.world_of s) (Console.world_of s') /\
  exists used, Console.stdin s = used ++ Console.stdin s'.

(** The step keeps the relation whatever it returns. *)
Definition keeps {A} (m : Console.C (text:=text) A) : Prop :=
  forall s, Forall typed (Console.stdin s) -> follows s (snd (m s)).

(** Nothing is written and the remote stays as it is. *)
Definition same_files (w w' : world text) : Prop :=
  files w' = files w /\ remote w' = remote w.

(** The requests sent in between all satisfy [P]. *)
Definition sends (P : request -> Prop) (w w' : world text) : Prop :=
  exists new, sent w' = sent w ++ new /\ Forall P new.

(** A step that lets no failure of a request out. *)
Definition calm {A} (m : Console.C (text:=text) A) : Prop :=
  forall s msg,
    fst (m s) <> Console.Halt (Console.Raised (RequestException msg)).

(** A step that does not leave the loop. *)
Definition stays (m : Console.C (text:=text) bool) : Prop :=
  forall s, fst (m s) <> Console.Done true.

End Relations.

(** The requests of a client. *)
Definition request_of (self : ShopifyAPI) (req : request) : Prop :=
  (exists limit status, req = Page.get_request self limit status) \/
  (exists query limit, req = Page.search_request self query limit) \/
  (exists status token, req = Page.all_request self status token).

(** The line does not ask for the export. *)
Definition no_export (strip : string -> string) (line : string) : Prop :=
  strip line <> "4".

End Frame.

(** ** Sample sessions *)

Module Desk.

Definition env_set (name : string) : option string :=
  if String.eqb name "SHOPIFY_SHOP_NAME" then Some "demo"
  else if String.eqb name "SHOPIFY_ACCESS_TOKEN" then Some "shpat_demo"
  else None.

Definition env_unset (name : string) : option string := None.

(** A stand-in for [repr]. *)
Definition no_repr (x : json) : string := "".

(** The session in which the remote gives [answers] and the user types
    [lines]. *)
Definition session_of (answers : list outcome) (lines : list string)
  : Console.session string :=
  Console.mkSession (Sample.world_of answers) lines [].

(** [main] at the desk, with [pages] turns for every fetch and [turns] turns
    of the menu. *)
Definition main (getenv : string -> option string) (pages turns : nat)
  : Console.C (text:=string) unit :=
  Console.main no_repr (JsonText.codec JsonText.whole) Console.strip_text getenv
               pages turns.

End Desk.

(** * Properties *)

(** ** Normalisation *)

Section Normalisation.

Import ProductM.

Lemma lookup_present fields key :
  present fields key = true ->
  Py.getitem fields key = Ok (Py.get_default fields key JNull).
Proof.
  unfold present, Py.getitem, Py.get_default.
  destruct (Py.lookup key fields); [reflexivity | discriminate].
Qed.

Lemma lookup_absent fields key :
  present fields key = false ->
  Py.getitem fields key = Raise (KeyError (JStr key)).
Proof.
  unfold present, Py.getitem.
  destruct (Py.lookup key fields); [discriminate | reflexivity].
Qed.

(** With every required key there, [from_dict] fails only where the
    variants block does. *)
Lemma from_dict_required fields :
  has_required fields = true ->
  from_dict (JObj fields) =
  (pq <- variant_fields (JObj fields) ;;
   Ok (mkProduct (Py.get_default fields "id" JNull)
                 (Py.get_default fields "title" JNull)
                 (Py.get_default fields "handle" JNull)
                 (Py.get_default fields "vendor" JNull)
                 (Py.get_default fields "product_type" JNull)
                 (Py.get_default fields "status" JNull)
                 (fst pq) (snd pq)))%result.
Proof.
  unfold has_required, required; cbn [forallb].
  rewrite !andb_true_iff.
  intros (Hid & Htitle & Hhandle & Hvendor & Htype & Hstatus & _).
  unfold from_dict.
  destruct (variant_fields (JObj fields)) as [pq | e]; [| reflexivity].
  cbn [rbind Py.subscript].
  rewrite (lookup_present _ _ Hid), (lookup_present _ _ Htitle),
    (lookup_present _ _ Hhandle), (lookup_present _ _ Hvendor),
    (lookup_present _ _ Htype), (lookup_present _ _ Hstatus).
  reflexivity.
Qed.

(** The variants block on a list whose first element is a dict. *)
Lemma variant_fields_first fields v rest :
  Py.lookup "variants" fields = Some (JList (JObj v :: rest)) ->
  variant_fields (JObj fields) =
  Ok (Py.get_default v "price" JNull,
      Py.get_default v "inventory_quantity" JNull).
Proof.
  intros H. unfold variant_fields, Py.get, Py.subscript, Py.getitem, Py.get_default.
  rewrite H. cbn. reflexivity.
Qed.

(** The variants block when the value under [variants] is absent or counts
    as false. *)
Lemma variant_fields_none fields :
  Py.truthy (Py.get_default fields "variants" JNull) = false ->
  variant_fields (JObj fields) = Ok (JNull, JNull).
Proof.
  intros H. unfold variant_fields, Py.get. cbn [rbind]. rewrite H. reflexivity.
Qed.

(** The variants block never raises a [RequestException] or an
    [IndexError]. *)
Lemma variant_fields_malformed data e :
  variant_fields data = Raise e -> MalformedRecord e = true.
Proof.
  unfold variant_fields.
  destruct data as [| b | z | s | l | fields]; cbn; try (intros [= <-]; reflexivity).
  unfold Py.getitem, Py.get_default.
  destruct (Py.lookup "variants" fields) as [v |]; cbn; [| discriminate].
  destruct (Py.truthy v) eqn:Ht; [| discriminate].
  destruct v as [| b | z | s | l | d]; cbn in *;
    try discriminate; try (intros [= <-]; reflexivity).
  - destruct s as [| c s']; cbn in *; [discriminate |].
    intros [= <-]; reflexivity.
  - destruct l as [| x l']; cbn in *; [discriminate |].
    destruct x; cbn; try discriminate; intros [= <-]; reflexivity.
  - destruct d as [| x d']; cbn in *; [discriminate |].
    intros [= <-]; reflexivity.
Qed.

Lemma from_dict_malformed data e :
  from_dict data = Raise e -> MalformedRecord e = true.
Proof.
  unfold from_dict.
  destruct (variant_fields data) as [pq | e0] eqn:Hv; cbn [rbind].
  - destruct data as [| b | z | s | l | fields]; cbn; try (intros [= <-]; reflexivity).
    unfold Py.getitem.
    repeat match goal with
           | |- context [Py.lookup ?k fields] =>
               destruct (Py.lookup k fields); cbn [rbind];
               [| intros [= <-]; reflexivity]
           end.
    discriminate.
  - intros [= <-]. eapply variant_fields_malformed; eauto.
Qed.

(** An entry that lacks a required key makes [from_dict] raise; when the
    variants block goes through, the exception is the [KeyError] of the
    first key that is missing. *)
Lemma from_dict_missing fields :
  has_required fields = false ->
  exists e,
    from_dict (JObj fields) = Raise e /\
    MalformedRecord e = true /\
    (forall pq, variant_fields (JObj fields) = Ok pq ->
                exists key, first_missing fields = Some key /\
                            e = KeyError (JStr key)).
Proof.
  intros Hreq.
  assert (Hraise : exists e, from_dict (JObj fields) = Raise e /\
            (forall pq, variant_fields (JObj fields) = Ok pq ->
                exists key, first_missing fields = Some key /\
                            e = KeyError (JStr key))).
  { unfold from_dict, first_missing, required.
    destruct (variant_fields (JObj fields)) as [pq | e0]; cbn [rbind].
    - unfold has_required, required in Hreq. cbn [forallb find] in *.
      cbn [Py.subscript].
      repeat match goal with
             | |- context [Py.getitem fields ?k] =>
                 destruct (present fields k) eqn:?;
                 [ rewrite (lookup_present fields k) by assumption;
                   cbn [rbind negb]
                 | rewrite (lookup_absent fields k) by assumption;
                   cbn [rbind negb];
                   eexists; split; [reflexivity |];
                   intros ? _; eexists; split; reflexivity ]
             end.
      cbn in Hreq. discriminate.
    - eexists; split; [reflexivity | intros ? [=]]. }
  destruct Hraise as (e & He & Hkey).
  exists e; repeat split; auto.
  eapply from_dict_malformed; eauto.
Qed.

End Normalisation.

(** ** Single-page operations *)

Section SinglePage.

Context {text : Type}.
Implicit Types (w : world text) (self : ShopifyAPI).

Import Shopify Page.

(** The shared [try] body: one request, then the records of the body, or
    the [RequestException] of the failure. *)
Lemma fetch_page_run url hdrs params w :
  let req := mkRequest url hdrs params in
  fetch_page url hdrs params w =
  (match next_outcome w req with
   | TransportError msg => Raise (RequestException msg)
   | Reply r =>
       match http_error r with
       | Some msg => Raise (RequestException msg)
       | None => records (body r)
       end
   end, after_request w req).
Proof.
  cbv zeta. unfold fetch_page, bind, requests_get, next_outcome, after_request.
  destruct (remote w (List.length (sent w)) (mkRequest url hdrs params))
    as [msg | r]; [reflexivity |].
  unfold raise_for_status, records, lift, ret.
  destruct (http_error r) as [msg |]; [reflexivity |].
  destruct (Py.get_or (body r) "products" (JList [])) as [pd | e];
    [| reflexivity].
  cbn [rbind].
  destruct (Py.iterate pd) as [entries | e]; reflexivity.
Qed.

Lemma records_malformed data e :
  records data = Raise e -> e <> IndexError /\ forall msg, e <> RequestException msg.
Proof.
  unfold records.
  destruct (Py.get_or data "products" (JList [])) as [pd | e0] eqn:Hg; cbn [rbind].
  - destruct (Py.iterate pd) as [entries | e1] eqn:Hi; cbn [rbind].
    + clear Hi Hg. induction entries as [| x l IH]; cbn; [discriminate |].
      destruct (ProductM.from_dict x) as [y | e2] eqn:Hx; cbn [rbind].
      * destruct (Py.comprehension ProductM.from_dict l); cbn [rbind];
          [discriminate | exact IH].
      * intros [= <-]. apply from_dict_malformed in Hx.
        destruct e2; cbn in Hx; try discriminate; split; intros; discriminate.
    + destruct pd; cbn in Hi; inversion Hi; subst; intros [= <-];
        split; intros; discriminate.
  - destruct data; cbn in Hg; inversion Hg; subst; intros [= <-];
      split; intros; discriminate.
Qed.

(** What [get_products] comes to, by the remote's answer. *)
Lemma get_products_run self limit status w :
  let req := get_request self limit status in
  get_products self limit status w =
  match next_outcome w req with
  | TransportError msg =>
      (Ok [], after_print (after_request w req) ("Error fetching products: " ++ msg))
  | Reply r =>
      match http_error r with
      | Some msg =>
          (Ok [], after_print (after_request w req)
                              ("Error fetching products: " ++ msg))
      | None => (records (body r), after_request w req)
      end
  end.
Proof.
  cbv zeta. unfold get_products, try_except.
  rewrite fetch_page_run. fold (get_request self limit status).
  destruct (next_outcome w (get_request self limit status)) as [msg | r];
    [reflexivity |].
  destruct (http_error r) as [msg |]; [reflexivity |].
  destruct (records (body r)) as [ps | e] eqn:Hr; [reflexivity |].
  apply records_malformed in Hr. destruct Hr as [_ Hr].
  destruct e; try reflexivity. exfalso; eapply Hr; reflexivity.
Qed.

(** What [search_products] comes to, by the remote's answer. *)
Lemma search_products_run self query limit w :
  let req := search_request self query limit in
  search_products self query limit w =
  match next_outcome w req with
  | TransportError msg =>
      (Ok [], after_print (after_request w req) ("Error searching products: " ++ msg))
  | Reply r =>
      match http_error r with
      | Some msg =>
          (Ok [], after_print (after_request w req)
                              ("Error searching products: " ++ msg))
      | None => (records (body r), after_request w req)
      end
  end.
Proof.
  cbv zeta. unfold search_products, try_except.
  rewrite fetch_page_run. fold (search_request self query limit).
  destruct (next_outcome w (search_request self query limit)) as [msg | r];
    [reflexivity |].
  destruct (http_error r) as [msg |]; [reflexivity |].
  destruct (records (body r)) as [ps | e] eqn:Hr; [reflexivity |].
  apply records_malformed in Hr. destruct Hr as [_ Hr].
  destruct e; try reflexivity. exfalso; eapply Hr; reflexivity.
Qed.

(** Both operations send one request, whatever the answer. *)
Lemma single_page_sends w self limit status query :
  sent (snd (get_products self limit status w)) =
  sent w ++ [get_request self limit status] /\
  sent (snd (search_products self query limit w)) =
  sent w ++ [search_request self query limit].
Proof.
  rewrite get_products_run, search_products_run. cbv zeta. split.
  - destruct (next_outcome w (get_request self limit status)) as [msg | r];
      [reflexivity |].
    destruct (http_error r); reflexivity.
  - destruct (next_outcome w (search_request self query limit)) as [msg | r];
      [reflexivity |].
    destruct (http_error r); reflexivity.
Qed.

End SinglePage.

(** ** Python strings: splitting and searching *)

Section Strings.

Import PyStr.

Lemma starts_with_empty s : starts_with "" s = true.
Proof. destruct s; reflexivity. Qed.

Lemma starts_with_nil p : starts_with p "" = true -> p = "".
Proof. destruct p; [reflexivity | discriminate]. Qed.

Lemma contains_empty s : contains "" s = true.
Proof. destruct s; reflexivity. Qed.

Lemma contains_nil x : contains x "" = true -> x = "".
Proof.
  cbn. rewrite orb_false_r. apply starts_with_nil.
Qed.

Lemma contains_cons x b s :
  contains x (String b s) = starts_with x (String b s) || contains x s.
Proof. reflexivity. Qed.

Lemma split_from_nonempty sep s : forall k, split_from sep k s <> [].
Proof.
  induction s as [| c s IH]; intros k; cbn [split_from]; [discriminate |].
  destruct k as [| k]; [| apply IH].
  destruct (starts_with sep (String c s)); [discriminate |].
  destruct (split_from sep 0 s); discriminate.
Qed.

Lemma split_nonempty sep s : split sep s <> [].
Proof. apply split_from_nonempty. Qed.

(** The first piece is always there. *)
Lemma split_index_0 sep s : Py.index (split sep s) 0 = Ok (hd "" (split sep s)).
Proof.
  unfold Py.index. destruct (split sep s) eqn:H; [| reflexivity].
  exfalso; eapply split_nonempty; eauto.
Qed.

(** Splitting at a one-character separator, one character at a time. *)
Lemma split_char_cons c b s :
  split (String c "") (String b s) =
  if (c =? b)%char then "" :: split (String c "") s
  else match split (String c "") s with
       | p :: ps => String b p :: ps
       | [] => [String b ""]
       end.
Proof.
  unfold split. cbn. rewrite andb_true_r. reflexivity.
Qed.

Lemma split_char_nil c : split (String c "") "" = [""].
Proof. reflexivity. Qed.

(** A text without the separator that starts [s] starts its first piece. *)
Lemma starts_with_first_piece c s :
  forall x, starts_with x s = true -> has_char c x = false ->
            starts_with x (hd "" (split (String c "") s)) = true.
Proof.
  induction s as [| b s IH]; intros x Hx Hc.
  - apply starts_with_nil in Hx; subst; reflexivity.
  - destruct x as [| a x]; [apply starts_with_empty |].
    cbn in Hx, Hc. apply andb_true_iff in Hx as [Hab Hx].
    apply orb_false_iff in Hc as [Hca Hc].
    apply Ascii.eqb_eq in Hab; subst b.
    rewrite split_char_cons, Hca.
    specialize (IH x Hx Hc).
    destruct (split (String c "") s) as [| p ps] eqn:Hs;
      [exfalso; eapply split_nonempty; eauto |].
    cbn in *. rewrite Ascii.eqb_refl. exact IH.
Qed.

(** The first piece starts [s]. *)
Lemma first_piece_prefix c s :
  forall x, starts_with x (hd "" (split (String c "") s)) = true ->
            starts_with x s = true.
Proof.
  induction s as [| b s IH]; intros x Hx.
  - exact Hx.
  - rewrite split_char_cons in Hx.
    destruct (c =? b)%char.
    + cbn in Hx. apply starts_with_nil in Hx; subst; reflexivity.
    + destruct (split (String c "") s) as [| p ps] eqn:Hs;
        [exfalso; eapply split_nonempty; eauto |].
      destruct x as [| a x]; [reflexivity |].
      cbn in *. apply andb_true_iff in Hx as [Hab Hx].
      rewrite Hab. cbn. apply IH. exact Hx.
Qed.

(** A text without the separator that occurs in [s] occurs in one of the
    pieces. *)
Lemma contains_some_piece c x s :
  has_char c x = false -> contains x s = true ->
  existsb (contains x) (split (String c "") s) = true.
Proof.
  intros Hc. induction s as [| b s IH]; intros Hx.
  - apply contains_nil in Hx; subst. reflexivity.
  - rewrite contains_cons in Hx. rewrite split_char_cons.
    destruct (c =? b)%char eqn:Hcb.
    + cbn [existsb]. apply orb_true_iff in Hx as [Hx | Hx].
      * destruct x as [| a x]; [reflexivity |].
        cbn in Hx, Hc. apply andb_true_iff in Hx as [Hab _].
        apply orb_false_iff in Hc as [Hca _].
        apply Ascii.eqb_eq in Hab; subst. congruence.
      * rewrite (IH Hx). apply orb_true_r.
    + pose proof (starts_with_first_piece c (String b s) x) as Hfirst.
      rewrite split_char_cons, Hcb in Hfirst.
      destruct (split (String c "") s) as [| p ps] eqn:Hs;
        [exfalso; eapply split_nonempty; eauto |].
      cbn [existsb hd] in *.
      apply orb_true_iff in Hx as [Hx | Hx].
      * rewrite contains_cons, (Hfirst Hx Hc). reflexivity.
      * specialize (IH Hx). apply orb_true_iff in IH as [IH | IH].
        -- rewrite contains_cons, IH, orb_true_r. reflexivity.
        -- rewrite IH. apply orb_true_r.
Qed.

(** What occurs in a piece occurs in [s]. *)
Lemma piece_contains c x s :
  existsb (contains x) (split (String c "") s) = true -> contains x s = true.
Proof.
  induction s as [| b s IH]; intros Hx.
  - cbn in Hx. rewrite !orb_false_r in Hx.
    apply starts_with_nil in Hx; subst; reflexivity.
  - rewrite contains_cons.
    pose proof (first_piece_prefix c (String b s) x) as Hfirst.
    rewrite split_char_cons in Hx, Hfirst.
    destruct (c =? b)%char eqn:Hcb.
    + cbn [existsb] in Hx. apply orb_true_iff in Hx as [Hx | Hx].
      * apply contains_nil in Hx; subst. reflexivity.
      * rewrite (IH Hx). apply orb_true_r.
    + destruct (split (String c "") s) as [| p ps] eqn:Hs;
        [exfalso; eapply split_nonempty; eauto |].
      cbn [existsb hd] in *.
      apply orb_true_iff in Hx as [Hx | Hx].
      * rewrite contains_cons in Hx. apply orb_true_iff in Hx as [Hx | Hx].
        -- rewrite (Hfirst Hx). reflexivity.
        -- rewrite IH; [apply orb_true_r |]. rewrite Hx. reflexivity.
      * rewrite IH; [apply orb_true_r |]. rewrite Hx. apply orb_true_r.
Qed.

Lemma existsb_find {A} (f : A -> bool) l :
  existsb f l = match find f l with Some _ => true | None => false end.
Proof.
  induction l as [| a l IH]; cbn; [reflexivity |].
  destruct (f a); [reflexivity | exact IH].
Qed.

(** A separator that occurs in [s] cuts it in two pieces at least. *)
Lemma split_two_pieces sep s :
  sep <> "" -> contains sep s = true ->
  exists p q rest, split sep s = p :: q :: rest.
Proof.
  intros Hsep. unfold split. induction s as [| b s IH]; intros Hc.
  - apply contains_nil in Hc. contradiction.
  - rewrite contains_cons in Hc. cbn [split_from].
    destruct (starts_with sep (String b s)) eqn:Hs.
    + destruct (split_from sep (String.length sep - 1) s) as [| q rest] eqn:Hq;
        [exfalso; eapply split_from_nonempty; eauto |].
      eauto.
    + cbn in Hc. destruct (IH Hc) as (p & q & rest & ->). eauto.
Qed.

End Strings.

(** ** Cutting at the first separator *)

Section Cutting.

Import PyStr.

Lemma append_nil_r s : (s ++ "")%string = s.
Proof. induction s as [| c s IH]; cbn; [reflexivity | now rewrite IH]. Qed.

Lemma starts_with_app p tail : starts_with p (p ++ tail) = true.
Proof.
  induction p as [| c p IH]; cbn; [reflexivity |].
  rewrite Ascii.eqb_refl. exact IH.
Qed.

(** A text that starts [t] followed by a character it does not hold starts
    [t] already. *)
Lemma starts_with_app_char p d r :
  has_char d p = false ->
  forall t, starts_with p (t ++ String d r) = true -> starts_with p t = true.
Proof.
  induction p as [| a p IH]; intros Hd t H; [apply starts_with_empty |].
  cbn in Hd. apply orb_false_iff in Hd as [Hda Hd].
  destruct t as [| b t]; cbn in H |- *.
  - apply andb_true_iff in H as [Hab _]. apply Ascii.eqb_eq in Hab; subst.
    rewrite Ascii.eqb_refl in Hda. discriminate.
  - apply andb_true_iff in H as [Hab H]. rewrite Hab. cbn. apply IH; assumption.
Qed.

(** Once a separator is matched, its remaining characters are skipped. *)
Lemma split_from_skip sep t tail :
  split_from sep (String.length t) (t ++ tail) = split_from sep 0 tail.
Proof.
  induction t as [| c t IH]; cbn [String.length append].
  - destruct tail; reflexivity.
  - cbn [split_from]. exact IH.
Qed.

(** The text before the first occurrence of the separator is the first
    piece. *)
Lemma split_at_first sep a b :
  sep <> "" -> no_start sep a (sep ++ b) = true ->
  split sep (a ++ sep ++ b) = a :: split sep b.
Proof.
  intros Hsep. unfold split. induction a as [| x a IH]; intros Hns.
  - destruct sep as [| c sep']; [contradiction |].
    cbn [append]. cbn [split_from].
    change (String c (sep' ++ b)) with (String c sep' ++ b)%string.
    rewrite starts_with_app.
    replace (String.length (String c sep') - 1) with (String.length sep')
      by (cbn [String.length]; lia).
    rewrite split_from_skip. reflexivity.
  - cbn [no_start] in Hns. apply andb_true_iff in Hns as [Hx Hns].
    apply negb_true_iff in Hx. cbn [append] in Hx |- *. cbn [split_from].
    rewrite Hx, (IH Hns). reflexivity.
Qed.

(** The first piece of [a ++ tail] when no separator starts inside [a]. *)
Lemma first_piece_app sep a tail :
  no_start sep a tail = true ->
  hd "" (split sep (a ++ tail)) = (a ++ hd "" (split sep tail))%string.
Proof.
  unfold split. induction a as [| x a IH]; intros Hns; [reflexivity |].
  cbn [no_start] in Hns. apply andb_true_iff in Hns as [Hx Hns].
  apply negb_true_iff in Hx. cbn [append] in Hx |- *. cbn [split_from].
  rewrite Hx. specialize (IH Hns).
  destruct (split_from sep 0 (a ++ tail)) as [| p ps] eqn:Hs;
    [exfalso; eapply split_from_nonempty; eauto |].
  cbn [hd] in *. rewrite IH. reflexivity.
Qed.

(** No separator starts inside a text that does not hold it, when what
    follows is empty or starts with a character foreign to the separator. *)
Lemma no_start_of_contains sep t tail :
  contains sep t = false ->
  tail = "" \/ (exists d r, tail = String d r /\ has_char d sep = false) ->
  no_start sep t tail = true.
Proof.
  intros Hc Htail. induction t as [| x t IH]; [reflexivity |].
  rewrite contains_cons in Hc. apply orb_false_iff in Hc as [Hs Hc].
  cbn [no_start]. rewrite (IH Hc), andb_true_r. apply negb_true_iff.
  destruct Htail as [-> | (d & r & -> & Hd)].
  - rewrite append_nil_r. exact Hs.
  - destruct (starts_with sep (String x t ++ String d r)) eqn:H; [| reflexivity].
    apply (starts_with_app_char sep d r Hd) in H. congruence.
Qed.

Lemma no_start_char c a tail :
  has_char c a = false -> no_start (String c "") a tail = true.
Proof.
  induction a as [| x a IH]; intros H; [reflexivity |].
  cbn in H. apply orb_false_iff in H as [Hx H].
  cbn [no_start append starts_with]. rewrite Hx, (IH H). reflexivity.
Qed.

(** Splitting at a character the text does not hold leaves it whole. *)
Lemma split_no_char c a :
  has_char c a = false -> split (String c "") a = [a].
Proof.
  induction a as [| x a IH]; intros H; [reflexivity |].
  cbn in H. apply orb_false_iff in H as [Hx H].
  rewrite split_char_cons, Hx, (IH H). reflexivity.
Qed.

Lemma split_app_char c a b :
  has_char c a = false ->
  split (String c "") (a ++ String c b) = a :: split (String c "") b.
Proof.
  intros H. apply (split_at_first (String c "") a b); [discriminate |].
  apply no_start_char. exact H.
Qed.

(** Joining pieces that do not hold the separator and splitting again gives
    the pieces back. *)
Lemma split_join c pieces :
  pieces <> [] -> Forall (fun p => has_char c p = false) pieces ->
  split (String c "") (join (String c "") pieces) = pieces.
Proof.
  induction pieces as [| p rest IH]; intros Hne Hall; [contradiction |].
  inversion Hall as [| ? ? Hp Hrest]; subst.
  destruct rest as [| q rest].
  - cbn [join]. apply split_no_char. exact Hp.
  - change (join (String c "") (p :: q :: rest))
      with (p ++ String c (join (String c "") (q :: rest)))%string.
    rewrite (split_app_char c p _ Hp), IH; [reflexivity | discriminate | exact Hrest].
Qed.

End Cutting.

(** ** The continuation token *)

Section Token.

Import PyStr Shopify.

Lemma first_piece_same c r : hd "" (split (String c "") (String c r)) = "".
Proof. rewrite split_char_cons, Ascii.eqb_refl. reflexivity. Qed.

(** A character other than the separator's first begins the first piece. *)
Lemma first_piece_foreign c sep' d r :
  (c =? d)%char = false ->
  hd "" (split (String c sep') (String d r)) =
  String d (hd "" (split (String c sep') r)).
Proof.
  intros H. unfold split. cbn [split_from starts_with]. rewrite H. cbn [andb].
  destruct (split_from (String c sep') 0 r) eqn:Hs; [| reflexivity].
  exfalso; eapply split_from_nonempty; eauto.
Qed.

Lemma index_second p l : Py.index (p :: l) 1 = Py.index l 0.
Proof. reflexivity. Qed.

(** What ends a parameter value inside a directive: nothing, [&] or [>]. *)
Lemma value_end_cases rest :
  rest = "" \/ starts_with "&" rest = true \/ starts_with ">" rest = true ->
  rest = "" \/ (exists r, rest = String "&" r) \/ (exists r, rest = String ">" r).
Proof.
  intros [H | [H | H]]; [left; exact H | right; left | right; right];
    (destruct rest as [| d r]; [discriminate |]);
    cbn [starts_with] in H; rewrite andb_true_r in H;
    apply Ascii.eqb_eq in H; subst; eauto.
Qed.

(** The token of a directive whose first [page_info=] is followed by a
    value free of [&], [>] and [page_info=], the value ending with the
    directive or at a [&] or a [>]: the value itself. *)
Lemma token_of_link_value a tok rest :
  no_start "page_info=" a ("page_info=" ++ tok ++ rest) = true ->
  contains "page_info=" tok = false ->
  has_char "&" tok = false ->
  has_char ">" tok = false ->
  rest = "" \/ starts_with "&" rest = true \/ starts_with ">" rest = true ->
  token_of_link (a ++ "page_info=" ++ tok ++ rest) = Ok tok.
Proof.
  intros Hfirst Hnone Hamp Hgt Hrest. apply value_end_cases in Hrest.
  unfold token_of_link.
  rewrite (split_at_first "page_info=" a (tok ++ rest)); [| discriminate | exact Hfirst].
  rewrite index_second, split_index_0. cbn [rbind].
  rewrite first_piece_app.
  2:{ apply no_start_of_contains; [exact Hnone |].
      destruct Hrest as [-> | [[r ->] | [r ->]]];
        [left; reflexivity | right; do 2 eexists; split; reflexivity ..]. }
  rewrite split_index_0. cbn [rbind].
  rewrite (first_piece_app "&" tok) by (apply no_start_char; exact Hamp).
  rewrite split_index_0.
  destruct Hrest as [-> | [[r ->] | [r ->]]].
  - cbn [split split_from hd]. rewrite !append_nil_r.
    rewrite (split_no_char ">" tok Hgt). reflexivity.
  - rewrite (first_piece_foreign "p" "age_info=" "&") by reflexivity.
    rewrite first_piece_same, append_nil_r.
    rewrite (split_no_char ">" tok Hgt). reflexivity.
  - rewrite (first_piece_foreign "p" "age_info=" ">") by reflexivity.
    rewrite (first_piece_foreign "&" "" ">") by reflexivity.
    rewrite (first_piece_app ">" tok) by (apply no_start_char; exact Hgt).
    rewrite first_piece_same, append_nil_r. reflexivity.
Qed.

End Token.

(** ** The pagination loop *)

Section Pagination.

Context {text : Type}.
Implicit Types (w : world text) (self : ShopifyAPI) (r : response).

Import Shopify Page.

Lemma scan_links_raises links page_info e :
  scan_links links page_info = Raise e -> e = IndexError.
Proof.
  induction links as [| link rest IH]; cbn [scan_links]; [discriminate |].
  destruct (PyStr.contains rel_next link); [| exact IH].
  unfold token_of_link, Py.index.
  repeat match goal with
         | |- context [nth_error ?l ?i] =>
             destruct (nth_error l i); cbn [rbind];
             [| intros [= <-]; reflexivity]
         end.
  discriminate.
Qed.

Lemma turn_of_not_request r all_products page_info msg :
  turn_of r all_products page_info <> Raise (RequestException msg).
Proof.
  unfold turn_of.
  destruct (Py.get_or (body r) "products" (JList [])) as [pd | e] eqn:Hg;
    cbn [rbind].
  - destruct (negb (Py.truthy pd)); [discriminate |].
    destruct (Py.iterate pd) as [entries | e] eqn:Hi; cbn [rbind].
    + destruct (Py.comprehension ProductM.from_dict entries) as [ps | e] eqn:Hc;
        cbn [rbind].
      * destruct (has_next (link_header r)); [| discriminate].
        destruct (link_header r) as [h |]; [| discriminate].
        destruct (scan_links (PyStr.split "," h) page_info) as [pi | e] eqn:Hs;
          cbn [rbind]; [discriminate |].
        apply scan_links_raises in Hs; subst; discriminate.
      * assert (Hr : records (body r) = Raise e).
        { unfold records. rewrite Hg; cbn [rbind]. rewrite Hi; cbn [rbind].
          exact Hc. }
        apply records_malformed in Hr. intros [= ->]. destruct Hr as [_ Hr].
        eapply Hr; reflexivity.
    + destruct pd; cbn in Hi; inversion Hi; discriminate.
  - destruct (body r); cbn in Hg; inversion Hg; discriminate.
Qed.

(** One turn of the loop, by the remote's answer. *)
Lemma loop_body_run self status all_products page_info w :
  let req := all_request self status page_info in
  loop_body self status all_products page_info w =
  match next_outcome w req with
  | TransportError msg =>
      (Ok (Break all_products),
       after_print (after_request w req) ("Error fetching products: " ++ msg))
  | Reply r =>
      match http_error r with
      | Some msg =>
          (Ok (Break all_products),
           after_print (after_request w req) ("Error fetching products: " ++ msg))
      | None => (turn_of r all_products page_info, after_request w req)
      end
  end.
Proof.
  cbv zeta. unfold loop_body, try_except, bind, requests_get, next_outcome.
  fold (products_url self).
  change (mkRequest (products_url self) (headers self)
                    (page_params status page_info))
    with (all_request self status page_info).
  destruct (remote w (List.length (sent w)) (all_request self status page_info))
    as [msg | r]; [reflexivity |].
  unfold raise_for_status.
  destruct (http_error r) as [msg |]; [reflexivity |].
  unfold ret, lift.
  pose proof (turn_of_not_request r all_products page_info) as Hnr.
  unfold turn_of in *.
  destruct (Py.get_or (body r) "products" (JList [])) as [pd | e];
    cbn [rbind] in *.
  - destruct (negb (Py.truthy pd)); [reflexivity |].
    destruct (Py.iterate pd) as [entries | e]; cbn [rbind] in *.
    + destruct (Py.comprehension ProductM.from_dict entries) as [ps | e];
        cbn [rbind] in *.
      * destruct (has_next (link_header r)); [| reflexivity].
        destruct (link_header r) as [h |]; [| reflexivity].
        destruct (scan_links (PyStr.split "," h) page_info) as [pi | e];
          cbn [rbind] in *; [reflexivity |].
        destruct e; try reflexivity. exfalso; eapply Hnr; reflexivity.
      * destruct e; try reflexivity. exfalso; eapply Hnr; reflexivity.
    + destruct e; try reflexivity. exfalso; eapply Hnr; reflexivity.
  - destruct e; try reflexivity. exfalso; eapply Hnr; reflexivity.
Qed.

(** Every turn sends exactly one request and leaves the remote and the
    files as they are. *)
Lemma loop_body_world self status all_products page_info w :
  let w' := snd (loop_body self status all_products page_info w) in
  remote w' = remote w /\
  sent w' = sent w ++ [all_request self status page_info] /\
  files w' = files w.
Proof.
  cbv zeta. rewrite loop_body_run.
  destruct (next_outcome w (all_request self status page_info)) as [msg | r].
  - cbn. auto.
  - destruct (http_error r); cbn; auto.
Qed.

Lemma rel_next_no_comma : PyStr.has_char "," rel_next = false.
Proof. reflexivity. Qed.

(** The test the code makes on the whole header agrees with the search for
    a directive that holds the marker. *)
Lemma has_next_directive h :
  has_next (Some h) =
  match next_directive h with Some _ => true | None => false end.
Proof.
  unfold has_next, next_directive. rewrite <- existsb_find.
  destruct (PyStr.contains rel_next h) eqn:Hc.
  - rewrite (contains_some_piece _ _ _ rel_next_no_comma Hc).
    destruct h as [| c h]; [discriminate Hc | reflexivity].
  - rewrite andb_false_r.
    destruct (existsb (PyStr.contains rel_next) (PyStr.split "," h)) eqn:He;
      [| reflexivity].
    apply piece_contains in He. congruence.
Qed.

Lemma scan_links_find links page_info :
  scan_links links page_info =
  match find (PyStr.contains rel_next) links with
  | Some link => (tok <- token_of_link link ;; Ok (Some tok))%result
  | None => Ok page_info
  end.
Proof.
  induction links as [| link rest IH]; cbn [scan_links find]; [reflexivity |].
  destruct (PyStr.contains rel_next link); [reflexivity | exact IH].
Qed.

(** A directive with a [page_info=] parameter yields a token. *)
Lemma token_of_link_defined link :
  PyStr.contains "page_info=" link = true -> exists tok, token_of_link link = Ok tok.
Proof.
  intros Hc. unfold token_of_link.
  destruct (split_two_pieces "page_info=" link) as (p & q & rest & ->);
    [discriminate | exact Hc |].
  cbn [Py.index nth_error rbind].
  rewrite split_index_0; cbn [rbind]. rewrite split_index_0. eauto.
Qed.

Lemma no_marker_has_next r :
  no_marker r = true -> has_next (link_header r) = false.
Proof.
  unfold no_marker. destruct (link_header r) as [h |]; [| reflexivity].
  rewrite has_next_directive.
  destruct (next_directive h); [discriminate | reflexivity].
Qed.

Lemma carries_next_token r :
  carries_next r = true ->
  exists h tok,
    link_header r = Some h /\ has_next (Some h) = true /\
    forall page_info,
      scan_links (PyStr.split "," h) page_info = Ok (Some tok).
Proof.
  unfold carries_next. destruct (link_header r) as [h |]; [| discriminate].
  destruct (next_directive h) as [link |] eqn:Hd; [| discriminate].
  intros Hp. destruct (token_of_link_defined link Hp) as [tok Htok].
  exists h, tok. split; [reflexivity |]. split.
  - rewrite has_next_directive, Hd. reflexivity.
  - intros pi. rewrite scan_links_find. unfold next_directive in Hd.
    rewrite Hd, Htok. reflexivity.
Qed.

Lemma delivers_records r products :
  delivers r products ->
  exists entries,
    Py.get_or (body r) "products" (JList []) = Ok (JList entries) /\
    Py.comprehension ProductM.from_dict entries = Ok products.
Proof.
  intros (_ & fields & entries & Hb & Hl & Hc).
  exists entries. split; [| exact Hc].
  rewrite Hb. unfold Py.get_or, Py.get_default. rewrite Hl. reflexivity.
Qed.

(** A non-empty page that carries a marker: the loop goes on, with the
    page's records appended and the marker's token. *)
Lemma turn_of_next r products :
  delivers r products -> is_empty r = false -> carries_next r = true ->
  exists tok, forall all_products page_info,
    turn_of r all_products page_info =
    Ok (Again (all_products ++ products) (Some tok)).
Proof.
  intros Hd He Hn.
  destruct (delivers_records r products Hd) as (entries & Hg & Hc).
  destruct (carries_next_token r Hn) as (h & tok & Hh & Hhas & Hscan).
  exists tok. intros acc pi. unfold turn_of, is_empty in *.
  rewrite Hg in *. cbn [rbind]. rewrite He. cbn [Py.iterate rbind].
  rewrite Hc. cbn [rbind]. rewrite Hh, Hhas, Hscan. reflexivity.
Qed.

(** A page without a marker: the loop is left, with the page's records
    appended. *)
Lemma turn_of_last r products all_products page_info :
  delivers r products -> no_marker r = true ->
  turn_of r all_products page_info = Ok (Break (all_products ++ products)).
Proof.
  intros Hd Hn.
  destruct (delivers_records r products Hd) as (entries & Hg & Hc).
  unfold turn_of. rewrite Hg. cbn [rbind].
  destruct entries as [| x l]; cbn [Py.truthy negb].
  - cbn in Hc. injection Hc as <-. rewrite app_nil_r. reflexivity.
  - cbn [Py.iterate rbind]. rewrite Hc. cbn [rbind].
    rewrite (no_marker_has_next r Hn). reflexivity.
Qed.

(** An empty page or a page without a marker never makes the loop go on. *)
Lemma turn_of_ends r all_products page_info :
  is_empty r || no_marker r = true ->
  forall acc pi, turn_of r all_products page_info <> Ok (Again acc pi).
Proof.
  intros H acc pi. unfold turn_of, is_empty in *.
  destruct (Py.get_or (body r) "products" (JList [])) as [pd | e];
    cbn [rbind]; [| discriminate].
  destruct (negb (Py.truthy pd)); [discriminate |].
  cbn [orb] in H. rewrite (no_marker_has_next r H).
  destruct (Py.iterate pd) as [entries | e]; cbn [rbind]; [| discriminate].
  destruct (Py.comprehension ProductM.from_dict entries); cbn [rbind];
    discriminate.
Qed.

End Pagination.

(** ** Sequences of pages *)

Section Sequences.

Context {text : Type}.
Implicit Types (w : world text) (self : ShopifyAPI) (r : response).

Import Shopify Page.

Lemma serves_app remote n pages1 pages2 :
  serves remote n (pages1 ++ pages2) <->
  serves remote n pages1 /\ serves remote (n + List.length pages1) pages2.
Proof.
  revert n. induction pages1 as [| r rest IH]; intros n; cbn [serves app List.length].
  - rewrite Nat.add_0_r. tauto.
  - rewrite IH. replace (n + S (List.length rest)) with (S n + List.length rest) by lia.
    tauto.
Qed.

(** The loop over pages that all deliver records, are not empty and carry a
    marker: one turn per page, the records appended page after page. *)
Lemma loop_advance self status pages :
  forall pss all_products page_info w,
    Forall2 delivers pages pss ->
    Forall (fun r => is_empty r = false) pages ->
    Forall (fun r => carries_next r = true) pages ->
    serves (remote w) (List.length (sent w)) pages ->
    exists page_info' w',
      (forall fuel,
          all_products_loop (List.length pages + fuel) self status
                            all_products page_info w =
          all_products_loop fuel self status
                            (all_products ++ concat pss) page_info' w') /\
      remote w' = remote w /\
      (exists new, sent w' = sent w ++ new /\
                   List.length new = List.length pages) /\
      stdout w' = stdout w /\
      files w' = files w.
Proof.
  induction pages as [| r rest IH]; intros pss acc pi w Hd He Hn Hs.
  - inversion Hd; subst. exists pi, w. cbn [concat List.length].
    rewrite app_nil_r. repeat split; auto.
    exists []. rewrite app_nil_r. auto.
  - inversion Hd as [| ? ps ? pss' Hd1 Hd2]; subst.
    inversion He as [| ? ? He1 He2]; subst.
    inversion Hn as [| ? ? Hn1 Hn2]; subst.
    destruct Hs as [Hr Hs].
    destruct (turn_of_next r ps Hd1 He1 Hn1) as [tok Hturn].
    set (req := all_request self status pi).
    destruct (IH pss' (acc ++ ps) (Some tok) (after_request w req) Hd2 He2 Hn2)
      as (pi' & w' & Hloop & Hrem & Hsent & Hout & Hfiles).
    { cbn [after_request remote sent]. rewrite length_app, Nat.add_1_r. exact Hs. }
    exists pi', w'. split; [| repeat split].
    + intros fuel. cbn [List.length plus all_products_loop].
      rewrite loop_body_run. fold req. unfold next_outcome. rewrite (Hr req).
      destruct Hd1 as [-> _]. rewrite Hturn, Hloop.
      cbn [concat]. rewrite app_assoc. reflexivity.
    + exact Hrem.
    + destruct Hsent as (new & Hnew & Hlen).
      exists (req :: new). cbn [List.length]. split; [| lia].
      rewrite Hnew. cbn [after_request sent]. rewrite <- app_assoc. reflexivity.
    + exact Hout.
    + exact Hfiles.
Qed.

(** The loop ends within [n + 1] turns when the remote's answer to the
    request after the next [n] ends it. *)
Lemma loop_terminates self status n :
  forall all_products page_info w fuel,
    (forall req, ends_loop (remote w (List.length (sent w) + n) req) = true) ->
    n < fuel ->
    exists res w',
      all_products_loop fuel self status all_products page_info w = (Some res, w') /\
      List.length (sent w) < List.length (sent w') /\
      List.length (sent w') <= List.length (sent w) + n + 1.
Proof.
  induction n as [| n IH]; intros acc pi w fuel Hend Hfuel;
    (destruct fuel as [| fuel]; [lia |]); cbn [all_products_loop];
    pose proof (loop_body_world self status acc pi w) as (Hrem & Hsent & _);
    pose proof (loop_body_run self status acc pi w) as Hrun; cbv zeta in Hrun;
    destruct (loop_body self status acc pi w) as [[[acc' | acc' pi'] | e] w1];
    cbn [snd] in Hrem, Hsent;
    try (do 2 eexists; split; [reflexivity |]; rewrite Hsent, length_app;
         cbn; lia).
  - exfalso. specialize (Hend (all_request self status pi)).
    rewrite Nat.add_0_r in Hend. unfold next_outcome in Hrun.
    unfold ends_loop, fails in Hend.
    destruct (remote w (List.length (sent w)) (all_request self status pi))
      as [msg | r]; [discriminate |].
    destruct (http_error r); [discriminate |].
    cbn [orb] in Hend. injection Hrun as Hturn _.
    symmetry in Hturn. eapply turn_of_ends; eauto.
  - destruct (IH acc' pi' w1 fuel) as (res & w' & Hloop & Hlt & Hle).
    + intros req. rewrite Hrem, Hsent, length_app. cbn [List.length].
      replace (List.length (sent w) + 1 + n) with (List.length (sent w) + S n)
        by lia.
      apply Hend.
    + lia.
    + exists res, w'. split; [exact Hloop |].
      rewrite Hsent, length_app in Hlt, Hle. cbn in Hlt, Hle. lia.
Qed.

Lemma limit_of_all_request self status page_info :
  limit_of (all_request self status page_info) = Some (JInt 250).
Proof.
  unfold limit_of, all_request, page_params. cbn [req_params].
  destruct (token_truthy page_info); [| reflexivity].
  destruct page_info; reflexivity.
Qed.

(** Every request the loop sends asks for 250 records. *)
Lemma loop_limits self status fuel :
  forall all_products page_info w,
  exists new,
    sent (snd (all_products_loop fuel self status all_products page_info w)) =
    sent w ++ new /\
    Forall (fun req => limit_of req = Some (JInt 250)) new.
Proof.
  induction fuel as [| fuel IH]; intros acc pi w; cbn [all_products_loop].
  - exists []. rewrite app_nil_r. auto.
  - pose proof (loop_body_world self status acc pi w) as (_ & Hsent & _).
    pose proof (limit_of_all_request self status pi) as Hlim.
    destruct (loop_body self status acc pi w) as [[[acc' | acc' pi'] | e] w1];
      cbn [snd] in *;
      try (exists [all_request self status pi]; split; [exact Hsent |];
           repeat constructor; exact Hlim).
    destruct (IH acc' pi' w1) as (new & Hnew & Hall).
    exists (all_request self status pi :: new). split.
    + rewrite Hnew, Hsent, <- app_assoc. reflexivity.
    + constructor; assumption.
Qed.

End Sequences.

(** ** JSON text: reading what was written *)

Section JsonReading.

Import JsonText.

Lemma string_app_assoc (a b c : string) : ((a ++ b) ++ c = a ++ b ++ c)%string.
Proof. induction a as [| x a IH]; cbn; [reflexivity | now rewrite IH]. Qed.

Lemma string_length_app (a b : string) :
  String.length (a ++ b) = String.length a + String.length b.
Proof. induction a as [| x a IH]; cbn; [reflexivity | now rewrite IH]. Qed.

(** Values are proved by induction on their nesting. *)
Lemma json_induction (P : json -> Prop) :
  P JNull ->
  (forall b, P (JBool b)) ->
  (forall z, P (JInt z)) ->
  (forall s, P (JStr s)) ->
  (forall items, Forall P items -> P (JList items)) ->
  (forall fields, Forall (fun kv => P (snd kv)) fields -> P (JObj fields)) ->
  forall v, P v.
Proof.
  intros Hnull Hbool Hint Hstr Hlist Hobj.
  fix IH 1. intros [| b | z | s | items | fields].
  - exact Hnull.
  - apply Hbool.
  - apply Hint.
  - apply Hstr.
  - apply Hlist. induction items as [| x items IHl]; constructor; [apply IH | exact IHl].
  - apply Hobj. induction fields as [| [k x] fields IHl]; constructor;
      [apply IH | exact IHl].
Qed.

(** *** Strings *)

Lemma read_string_char c t :
  read_string (escape_char c ++ t) =
  match read_string t with
  | Some (text, rest) => Some (String c text, rest)
  | None => None
  end.
Proof.
  destruct c as [[] [] [] [] [] [] [] []]; reflexivity.
Qed.

Lemma read_string_escape s rest :
  read_string (escape s ++ String quote rest) = Some (s, rest).
Proof.
  induction s as [| c s IH]; [reflexivity |].
  cbn [escape]. rewrite string_app_assoc, read_string_char, IH. reflexivity.
Qed.

Lemma write_string_app s rest :
  (write_string s ++ rest)%string = String quote (escape s ++ String quote rest).
Proof.
  unfold write_string. cbn [append]. rewrite string_app_assoc. reflexivity.
Qed.

(** *** Integers *)

Lemma span_digits_uint d rest :
  no_digit_ahead rest = true ->
  span_digits (NilEmpty.string_of_uint d ++ rest) =
  (NilEmpty.string_of_uint d, rest).
Proof.
  intros Hrest. induction d; cbn [NilEmpty.string_of_uint append span_digits];
    try (rewrite IHd; reflexivity).
  destruct rest as [| c r]; [reflexivity |].
  cbn in Hrest. cbn [span_digits]. apply negb_true_iff in Hrest.
  rewrite Hrest. reflexivity.
Qed.

Lemma uint_text_head d :
  d <> Decimal.Nil ->
  exists c t, NilEmpty.string_of_uint d = String c t /\
              is_digit c = true /\ (c =? "-")%char = false.
Proof.
  destruct d; [contradiction | ..]; intros _; do 2 eexists;
    (split; [reflexivity | split; reflexivity]).
Qed.

Lemma to_int_nonnil z :
  match Z.to_int z with
  | Decimal.Pos d | Decimal.Neg d => d <> Decimal.Nil
  end.
Proof.
  destruct z as [| p | p]; cbn; [discriminate | ..];
    apply Unsigned.to_uint_nonnil.
Qed.

Lemma read_int_write z rest :
  no_digit_ahead rest = true ->
  read_int (write_int z ++ rest) = Some (z, rest).
Proof.
  intros Hrest. unfold write_int.
  pose proof (DecimalZ.of_to z) as Hz. pose proof (to_int_nonnil z) as Hnil.
  pose proof (NilEmpty.isi (Z.to_int z)) as Hisi.
  destruct (Z.to_int z) as [d | d];
    destruct (uint_text_head d Hnil) as (c & t & Htext & Hdigit & Hsign);
    cbn [NilEmpty.string_of_int] in *.
  - pose proof (span_digits_uint d rest Hrest) as Hspan.
    rewrite Htext in Hspan, Hisi |- *. cbn [append] in Hspan |- *.
    unfold read_int. rewrite Hsign, Hspan. cbn [append].
    rewrite Hisi, Hz. reflexivity.
  - pose proof (span_digits_uint d rest Hrest) as Hspan.
    rewrite Htext in Hspan, Hisi |- *. cbn [append] in Hspan |- *.
    unfold read_int. rewrite Ascii.eqb_refl, Hspan. cbn [append].
    rewrite Hisi, Hz. reflexivity.
Qed.

Lemma write_int_head z :
  exists c t, write_int z = String c t /\
              (is_digit c || (c =? "-")%char) = true.
Proof.
  unfold write_int. pose proof (to_int_nonnil z) as Hnil.
  destruct (Z.to_int z) as [d | d]; cbn [NilEmpty.string_of_int].
  - destruct (uint_text_head d Hnil) as (c & t & Htext & Hdigit & _).
    exists c, t. rewrite Hdigit. split; [exact Htext | reflexivity].
  - do 2 eexists. split; reflexivity.
Qed.

(** *** Blanks *)

Lemma skip_space_spaces n t : skip_space (spaces n ++ t) = skip_space t.
Proof. induction n as [| n IH]; [reflexivity | exact IH]. Qed.

Lemma skip_space_indent level t :
  skip_space (newline_indent level ++ t) = skip_space t.
Proof. unfold newline_indent. cbn [append]. apply skip_space_spaces. Qed.

Lemma skip_space_head c t :
  is_space c = false -> skip_space (String c t) = String c t.
Proof. intros H. cbn [skip_space]. rewrite H. reflexivity. Qed.

Lemma skip_space_idem s : skip_space (skip_space s) = skip_space s.
Proof.
  induction s as [| c s IH]; [reflexivity |].
  cbn [skip_space]. destruct (is_space c) eqn:Hc; [exact IH |].
  apply skip_space_head. exact Hc.
Qed.

Lemma read_value_skip fuel s : read_value fuel (skip_space s) = read_value fuel s.
Proof.
  destruct fuel as [| fuel]; [reflexivity |].
  cbn [read_value]. rewrite skip_space_idem. reflexivity.
Qed.

Lemma read_elements_skip fuel s :
  read_elements fuel (skip_space s) = read_elements fuel s.
Proof.
  destruct fuel as [| fuel]; [reflexivity |].
  cbn [read_elements]. rewrite read_value_skip. reflexivity.
Qed.

Lemma read_members_skip fuel s :
  read_members fuel (skip_space s) = read_members fuel s.
Proof.
  destruct fuel as [| fuel]; [reflexivity |].
  cbn [read_members]. rewrite skip_space_idem. reflexivity.
Qed.

Lemma read_value_indent fuel level t :
  read_value fuel (newline_indent level ++ t) = read_value fuel t.
Proof.
  rewrite <- read_value_skip, skip_space_indent, read_value_skip. reflexivity.
Qed.

Lemma read_value_space fuel t : read_value fuel (String " " t) = read_value fuel t.
Proof.
  rewrite <- read_value_skip. cbn [skip_space]. change (is_space " ") with true.
  cbv iota. apply read_value_skip.
Qed.

Lemma read_elements_indent fuel level t :
  read_elements fuel (newline_indent level ++ t) = read_elements fuel t.
Proof.
  rewrite <- read_elements_skip, skip_space_indent, read_elements_skip.
  reflexivity.
Qed.

Lemma read_members_indent fuel level t :
  read_members fuel (newline_indent level ++ t) = read_members fuel t.
Proof.
  rewrite <- read_members_skip, skip_space_indent, read_members_skip.
  reflexivity.
Qed.

(** *** The first character decides what is read *)

Lemma number_head c :
  (is_digit c || (c =? "-")%char) = true ->
  is_space c = false /\ (c =? "]")%char = false /\ (c =? "}")%char = false.
Proof.
  destruct c as [[] [] [] [] [] [] [] []]; intros H; try discriminate H;
    repeat split.
Qed.

Lemma read_value_number fuel c s :
  (is_digit c || (c =? "-")%char) = true ->
  read_value (S fuel) (String c s) =
  match read_int (String c s) with
  | Some (z, rest) => Some (JInt z, rest)
  | None => None
  end.
Proof.
  destruct c as [[] [] [] [] [] [] [] []]; intros H; try discriminate H;
    reflexivity.
Qed.

(** What is written starts with a character that is no blank and closes
    nothing. *)
Lemma write_head level v :
  exists c t,
    write level v = String c t /\
    is_space c = false /\ (c =? "]")%char = false /\ (c =? "}")%char = false.
Proof.
  destruct v as [| [] | z | s | [| x items] | [| kx fields]];
    try (do 2 eexists; split; [reflexivity | repeat split]).
  destruct (write_int_head z) as (c & t & Htext & Hc).
  exists c, t. split; [exact Htext | apply number_head; exact Hc].
Qed.

Lemma join_head sep (f : json -> string) x items :
  exists t, forall c t0, f x = String c t0 ->
                         PyStr.join sep (map f (x :: items)) = String c (t0 ++ t).
Proof.
  destruct items as [| y items].
  - exists "". intros c t0 H. cbn [map PyStr.join]. rewrite H, append_nil_r.
    reflexivity.
  - exists (sep ++ PyStr.join sep (map f (y :: items)))%string. intros c t0 H.
    change (PyStr.join sep (map f (x :: y :: items)))
      with (f x ++ sep ++ PyStr.join sep (map f (y :: items)))%string.
    rewrite H. reflexivity.
Qed.

Lemma read_value_array fuel s c r :
  skip_space s = String c r -> (c =? "]")%char = false ->
  read_value (S fuel) (String "[" s) =
  match read_elements fuel (String c r) with
  | Some (items, rest) => Some (JList items, rest)
  | None => None
  end.
Proof.
  intros Hs Hc. cbn [read_value].
  change (skip_space (String "[" s)) with (String "[" s).
  change ("[" =? "[")%char with true. cbv iota. rewrite Hs, Hc. reflexivity.
Qed.

Lemma read_value_object fuel s c r :
  skip_space s = String c r -> (c =? "}")%char = false ->
  read_value (S fuel) (String "{" s) =
  match read_members fuel (String c r) with
  | Some (fields, rest) => Some (JObj fields, rest)
  | None => None
  end.
Proof.
  intros Hs Hc. cbn [read_value].
  change (skip_space (String "{" s)) with (String "{" s).
  change ("{" =? "[")%char with false. change ("{" =? "{")%char with true.
  cbv iota. rewrite Hs, Hc. reflexivity.
Qed.

Lemma read_value_string fuel s :
  read_value (S fuel) (String quote s) =
  match read_string s with
  | Some (text, rest) => Some (JStr text, rest)
  | None => None
  end.
Proof. reflexivity. Qed.

(** *** Values *)

Lemma list_sum_cons a l : list_sum (a :: l) = a + list_sum l.
Proof. reflexivity. Qed.

(** After one element: a comma and the next elements, or the closing
    bracket. *)
Lemma read_elements_write items :
  items <> [] ->
  Forall (fun x => forall level rest fuel,
              no_digit_ahead rest = true -> weight x <= fuel ->
              read_value fuel (write level x ++ rest) = Some (x, rest)) items ->
  forall level k rest fuel,
    list_sum (map (fun x => S (weight x)) items) <= fuel ->
    read_elements fuel
      (PyStr.join ("," ++ newline_indent level) (map (write level) items) ++
       newline_indent k ++ String "]" rest) = Some (items, rest).
Proof.
  induction items as [| x items IH]; [contradiction |].
  intros _ Hall level k rest fuel Hfuel.
  inversion Hall as [| ? ? Hx Hitems]; subst.
  rewrite map_cons, list_sum_cons in Hfuel.
  destruct fuel as [| fuel]; [lia |].
  destruct items as [| y items].
  - cbn [map PyStr.join read_elements].
    rewrite Hx; [| reflexivity | lia].
    rewrite skip_space_indent. reflexivity.
  - change (PyStr.join ("," ++ newline_indent level)
                       (map (write level) (x :: y :: items)))
      with (write level x ++ ("," ++ newline_indent level) ++
            PyStr.join ("," ++ newline_indent level)
                       (map (write level) (y :: items)))%string.
    rewrite !string_app_assoc. cbn [append read_elements].
    rewrite Hx; [| reflexivity | lia].
    cbn [skip_space]. change (is_space ",") with false.
    change ("," =? ",")%char with true. cbv iota.
    rewrite read_elements_indent.
    change (String "," (newline_indent level))
      with ("," ++ newline_indent level)%string.
    rewrite IH; [reflexivity | discriminate | exact Hitems | lia].
Qed.

(** After one member: a comma and the next members, or the closing brace. *)
Lemma read_members_write fields :
  fields <> [] ->
  Forall (fun kv => forall level rest fuel,
              no_digit_ahead rest = true -> weight (snd kv) <= fuel ->
              read_value fuel (write level (snd kv) ++ rest) =
              Some (snd kv, rest)) fields ->
  forall level k rest fuel,
    list_sum (map (fun kv => S (weight (snd kv))) fields) <= fuel ->
    read_members fuel
      (PyStr.join ("," ++ newline_indent level)
                  (map (fun kv => write_string (fst kv) ++ ": " ++
                                  write level (snd kv))%string fields) ++
       newline_indent k ++ String "}" rest) = Some (fields, rest).
Proof.
  induction fields as [| [key x] fields IH]; [contradiction |].
  intros _ Hall level k rest fuel Hfuel.
  inversion Hall as [| ? ? Hx Hfields]; subst.
  rewrite map_cons, list_sum_cons in Hfuel. cbn [snd fst] in Hfuel, Hx |- *.
  destruct fuel as [| fuel]; [lia |].
  destruct fields as [| kv fields].
  - cbn [map PyStr.join]. rewrite !string_app_assoc, write_string_app.
    cbn [read_members skip_space]. change (is_space quote) with false.
    cbv iota. rewrite Ascii.eqb_refl. cbn [negb].
    rewrite read_string_escape. cbn [append skip_space].
    change (is_space ":") with false. cbv iota.
    change (":" =? ":")%char with true. cbn [negb].
    cbn [fst snd]. rewrite read_value_space.
    rewrite Hx; [| reflexivity | lia].
    rewrite skip_space_indent. reflexivity.
  - change (PyStr.join ("," ++ newline_indent level)
              (map (fun kv0 => write_string (fst kv0) ++ ": " ++
                               write level (snd kv0))%string
                   ((key, x) :: kv :: fields)))
      with ((write_string key ++ ": " ++ write level x) ++
            ("," ++ newline_indent level) ++
            PyStr.join ("," ++ newline_indent level)
              (map (fun kv0 => write_string (fst kv0) ++ ": " ++
                               write level (snd kv0))%string
                   (kv :: fields)))%string.
    rewrite !string_app_assoc, write_string_app.
    cbn [read_members skip_space]. change (is_space quote) with false.
    cbv iota. rewrite Ascii.eqb_refl. cbn [negb].
    rewrite read_string_escape. cbn [append skip_space].
    change (is_space ":") with false. cbv iota.
    change (":" =? ":")%char with true. cbn [negb].
    cbn [fst snd]. rewrite read_value_space.
    rewrite Hx; [| reflexivity | lia].
    cbn [skip_space]. change (is_space ",") with false.
    change ("," =? ",")%char with true. cbv iota.
    rewrite read_members_indent.
    change (String "," (newline_indent level))
      with ("," ++ newline_indent level)%string.
    rewrite IH; [reflexivity | discriminate | exact Hfields | lia].
Qed.

(** Reading what [write] wrote gives the value back and stops right after
    it. *)
Lemma read_value_write v :
  forall level rest fuel,
    no_digit_ahead rest = true -> weight v <= fuel ->
    read_value fuel (write level v ++ rest) = Some (v, rest).
Proof.
  induction v as [| b | z | s | items IH | fields IH] using json_induction;
    intros level rest fuel Hrest Hfuel;
    (destruct fuel as [| fuel]; [cbn in Hfuel; lia |]).
  - reflexivity.
  - destruct b; reflexivity.
  - destruct (write_int_head z) as (c & t & Htext & Hc).
    cbn [write]. pose proof (read_int_write z rest Hrest) as Hread.
    rewrite Htext in Hread |- *. cbn [append] in Hread |- *.
    rewrite (read_value_number fuel c _ Hc), Hread. reflexivity.
  - cbn [write]. rewrite write_string_app, read_value_string, read_string_escape.
    reflexivity.
  - destruct items as [| x items]; [reflexivity |].
    destruct (write_head (S level) x) as (c & t & Hhead & Hsp & Hclose & _).
    destruct (join_head ("," ++ newline_indent (S level)) (write (S level)) x items)
      as (t' & Hjoin).
    specialize (Hjoin c t Hhead).
    cbn [weight] in Hfuel. cbn [write].
    set (J := PyStr.join ("," ++ newline_indent (S level))
                         (map (write (S level)) (x :: items))) in *.
    set (tail := (newline_indent level ++ String "]" rest)%string).
    assert (Htext : (("[" ++ newline_indent (S level) ++ J ++
                      newline_indent level ++ "]") ++ rest)%string =
                    String "[" (newline_indent (S level) ++ J ++ tail)).
    { rewrite !string_app_assoc. reflexivity. }
    assert (Hbody : (J ++ tail)%string = String c ((t ++ t') ++ tail)).
    { rewrite Hjoin. reflexivity. }
    rewrite Htext, (read_value_array fuel _ c ((t ++ t') ++ tail)).
    + rewrite <- Hbody. unfold J, tail.
      rewrite read_elements_write; [reflexivity | discriminate | exact IH | lia].
    + rewrite skip_space_indent, Hbody. apply skip_space_head. exact Hsp.
    + exact Hclose.
  - destruct fields as [| [key x] fields]; [reflexivity |].
    cbn [weight] in Hfuel. cbn [write].
    set (sep := ("," ++ newline_indent (S level))%string).
    set (member := fun kv : string * json =>
                     (write_string (fst kv) ++ ": " ++ write (S level) (snd kv))%string).
    set (J := PyStr.join sep (map member ((key, x) :: fields))).
    set (tail := (newline_indent level ++ String "}" rest)%string).
    assert (Hjoin : exists t, J = String quote t).
    { unfold J. destruct fields as [| kv fields].
      - cbn [map PyStr.join]. unfold member, write_string. cbn [fst append]. eauto.
      - change (PyStr.join sep (map member ((key, x) :: kv :: fields)))
          with (member (key, x) ++ sep ++
                PyStr.join sep (map member (kv :: fields)))%string.
        unfold member at 1, write_string. cbn [fst append]. eauto. }
    destruct Hjoin as (t & Hjoin).
    assert (Htext : (("{" ++ newline_indent (S level) ++ J ++
                      newline_indent level ++ "}") ++ rest)%string =
                    String "{" (newline_indent (S level) ++ J ++ tail)).
    { rewrite !string_app_assoc. reflexivity. }
    assert (Hbody : (J ++ tail)%string = String quote (t ++ tail)).
    { rewrite Hjoin. reflexivity. }
    rewrite Htext, (read_value_object fuel _ quote (t ++ tail)).
    + rewrite <- Hbody. unfold J, tail, sep, member.
      rewrite read_members_write; [reflexivity | discriminate | exact IH | lia].
    + rewrite skip_space_indent, Hbody. reflexivity.
    + reflexivity.
Qed.

(** *** Enough turns *)

Lemma join_length {A} (w : A -> nat) (f : A -> string) sep l :
  1 <= String.length sep ->
  Forall (fun a => w a <= String.length (f a)) l ->
  list_sum (map (fun a => S (w a)) l) <=
  String.length (PyStr.join sep (map f l)) + 1.
Proof.
  intros Hsep. induction l as [| a l IH]; intros Hall; [cbn; lia |].
  inversion Hall as [| ? ? Ha Hl]; subst. specialize (IH Hl).
  destruct l as [| b l].
  - rewrite map_cons, list_sum_cons. cbn [map PyStr.join].
    change (list_sum []) with 0. lia.
  - change (PyStr.join sep (map f (a :: b :: l)))
      with (f a ++ sep ++ PyStr.join sep (map f (b :: l)))%string.
    rewrite !string_length_app.
    rewrite (map_cons _ a), list_sum_cons. lia.
Qed.

Lemma weight_le_length v :
  forall level, weight v <= String.length (write level v).
Proof.
  induction v as [| b | z | s | items IH | fields IH] using json_induction;
    intros level.
  - cbn. lia.
  - destruct b; cbn; lia.
  - destruct (write_int_head z) as (c & t & Htext & _).
    cbn [write weight]. rewrite Htext. cbn. lia.
  - cbn. lia.
  - destruct items as [| x items]; [cbn; lia |].
    cbn [write weight]. rewrite !string_length_app.
    pose proof (join_length weight (write (S level))
                            ("," ++ newline_indent (S level))%string (x :: items))
      as Hjoin.
    cbn [String.length append newline_indent] in Hjoin |- *.
    specialize (Hjoin ltac:(lia)).
    assert (Hall : Forall (fun a => weight a <= String.length (write (S level) a))
                          (x :: items)).
    { eapply Forall_impl; [| exact IH]. cbn beta. intros a Ha. apply Ha. }
    specialize (Hjoin Hall). lia.
  - destruct fields as [| kx fields]; [cbn; lia |].
    cbn [write weight]. rewrite !string_length_app.
    pose proof (join_length (fun kv : string * json => weight (snd kv))
                  (fun kv => (write_string (fst kv) ++ ": " ++
                              write (S level) (snd kv))%string)
                  ("," ++ newline_indent (S level))%string (kx :: fields))
      as Hjoin.
    cbn [String.length append newline_indent] in Hjoin |- *.
    specialize (Hjoin ltac:(lia)).
    assert (Hall : Forall (fun kv : string * json =>
                             weight (snd kv) <=
                             String.length (write_string (fst kv) ++ ": " ++
                                            write (S level) (snd kv)))
                          (kx :: fields)).
    { eapply Forall_impl; [| exact IH]. cbn beta. intros kv Hkv.
      rewrite !string_length_app. specialize (Hkv (S level)). lia. }
    specialize (Hjoin Hall). lia.
Qed.

(** The reader undoes the writer. *)
Lemma loads_dumps value : loads (dumps value) = Some value.
Proof.
  unfold loads, dumps.
  pose proof (read_value_write value 0 "" (S (String.length (write 0 value)))
                               eq_refl) as Hread.
  rewrite append_nil_r in Hread. rewrite Hread; [reflexivity |].
  pose proof (weight_le_length value 0). lia.
Qed.

End JsonReading.

(** ** Directives, parameters and files *)

Import Shopify Page ProductM.

(** The first directive that holds the marker decides the token. *)
Lemma scan_links_directive before link after page_info :
  Forall (fun d => PyStr.contains rel_next d = false) before ->
  PyStr.contains rel_next link = true ->
  scan_links (before ++ link :: after) page_info =
  (tok <- token_of_link link ;; Ok (Some tok))%result.
Proof.
  intros Hbefore Hlink. induction before as [| d before IH]; cbn [app scan_links].
  - rewrite Hlink. reflexivity.
  - inversion Hbefore as [| ? ? Hd Hrest]; subst. rewrite Hd. apply IH. exact Hrest.
Qed.

(** A token that is not empty travels as the [page_info] parameter of the
    next request. *)
Lemma page_params_token status tok :
  tok <> "" ->
  Py.lookup "page_info" (page_params status (Some tok)) = Some (JStr tok).
Proof.
  intros Hne. unfold page_params, token_truthy.
  destruct (String.eqb_spec tok ""); [contradiction | reflexivity].
Qed.

(** The loop of [export_to_json] appends one dict per product, in order. *)
Lemma collect_map products :
  forall products_dict,
    Exporting.collect products_dict products =
    products_dict ++ map Exporting.product_dict products.
Proof.
  induction products as [| product rest IH]; intros acc; cbn [Exporting.collect map].
  - rewrite app_nil_r. reflexivity.
  - rewrite IH, <- app_assoc. reflexivity.
Qed.

Lemma read_file_written {text} path (content : text) fs :
  read_file path ((path, content) :: fs) = Some content.
Proof. cbn. rewrite String.eqb_refl. reflexivity. Qed.

(** * The claims *)

(** C1, as amended.  For a finite sequence of successful pages in which
    every page is non-empty, every page but the last carries a "next" marker
    (with its [page_info] parameter) and the last carries none,
    [get_all_products] returns the records of all pages, concatenated in page
    order and in the order of the entries within each page, and sends exactly
    one request per page. *)
Theorem get_all_products_concatenates {text} (w : world text) self status
        (init : list response) (last : response) (pss : list (list Product))
        (fuel : nat) :
  serves (remote w) (List.length (sent w)) (init ++ [last]) ->
  Forall2 delivers (init ++ [last]) pss ->
  Forall (fun r => is_empty r = false) (init ++ [last]) ->
  Forall (fun r => carries_next r = true) init ->
  no_marker last = true ->
  List.length (init ++ [last]) <= fuel ->
  exists w',
    get_all_products fuel self status w = (Some (Ok (concat pss)), w') /\
    (exists new, sent w' = sent w ++ new /\
                 List.length new = List.length (init ++ [last])) /\
    stdout w' = stdout w.
Proof.
  intros Hserves Hdel Hne Hnext Hlast Hfuel.
  apply serves_app in Hserves as [Hs1 [Hs2 _]].
  apply Forall2_app_inv_l in Hdel as (pss1 & pss2 & Hd1 & Hd2 & ->).
  inversion Hd2 as [| ? ps ? ? Hdl Hnil]; subst. inversion Hnil; subst.
  apply Forall_app in Hne as [Hne1 _].
  destruct (loop_advance self status init pss1 [] None w Hd1 Hne1 Hnext Hs1)
    as (pi' & w1 & Hloop & Hrem & (new & Hnew & Hlen) & Hout & _).
  rewrite length_app in Hfuel. cbn [List.length] in Hfuel.
  set (req := all_request self status pi').
  exists (after_request w1 req). unfold get_all_products.
  replace fuel with (List.length init + S (fuel - List.length init - 1)) by lia.
  rewrite Hloop. cbn [all_products_loop].
  rewrite loop_body_run. fold req. unfold next_outcome.
  rewrite Hrem, Hnew, length_app, Hlen, (Hs2 req).
  pose proof Hdl as [-> _]. rewrite (turn_of_last last ps _ _ Hdl Hlast).
  cbn [app]. rewrite concat_app. cbn [concat]. rewrite app_nil_r.
  split; [reflexivity |]. split; [| exact Hout].
  exists (new ++ [req]). cbn [after_request sent]. rewrite Hnew, <- app_assoc.
  split; [reflexivity |]. rewrite !length_app. cbn. lia.
Qed.

Lemma get_all_products_concatenates_witness :
  let w := Sample.world_of [Reply Sample.first_page; Reply Sample.last_page] in
  exists w',
    get_all_products 2 Sample.shop "active" w =
    (Some (Ok [Sample.shirt_record; Sample.scarf_record; Sample.socks_record]), w') /\
    (exists new, sent w' = sent w ++ new /\ List.length new = 2) /\
    stdout w' = stdout w.
Proof.
  apply (get_all_products_concatenates
           (Sample.world_of [Reply Sample.first_page; Reply Sample.last_page])
           Sample.shop "active" [Sample.first_page] Sample.last_page
           [[Sample.shirt_record; Sample.scarf_record]; [Sample.socks_record]] 2).
  - split; [intros req; reflexivity |]. split; [intros req; reflexivity | exact I].
  - repeat constructor; do 2 eexists; repeat split; reflexivity.
  - repeat constructor.
  - repeat constructor.
  - reflexivity.
  - cbn. lia.
Defined.

(** C1, as stated, fails on a first page that is empty and yet carries a
    "next" marker: the loop stops there, so the records of the last page,
    which is non-empty and has no marker, are not returned, and one request
    is sent for two pages. *)
Lemma get_all_products_stops_at_hollow_page :
  let w := Sample.world_of [Reply Sample.hollow_page; Reply Sample.last_page] in
  serves (remote w) (List.length (sent w)) [Sample.hollow_page; Sample.last_page] /\
  Forall2 delivers [Sample.hollow_page; Sample.last_page] [[]; [Sample.socks_record]] /\
  carries_next Sample.hollow_page = true /\
  no_marker Sample.last_page = true /\
  is_empty Sample.last_page = false /\
  fst (get_all_products 2 Sample.shop "active" w) = Some (Ok []) /\
  concat [[]; [Sample.socks_record]] <> [] /\
  List.length (sent (snd (get_all_products 2 Sample.shop "active" w))) = 1.
Proof.
  cbv zeta. split; [| split; [| repeat split]].
  - split; [intros req; reflexivity |]. split; [intros req; reflexivity | exact I].
  - repeat constructor; do 2 eexists; repeat split; reflexivity.
  - discriminate.
Qed.

(** Where the extraction of the token works.  On an accepted, non-empty page
    whose [Link] header is a comma-separated list of directives free of
    commas, the first of which to hold [rel="next"] carries a [page_info]
    parameter, [get_all_products] takes as the next token exactly that
    parameter's value, verbatim,
    whatever else the directive carries, provided [page_info=] occurs
    nowhere in the directive before that parameter and the value, free of
    [&], [>] and [page_info=], ends with the directive or at a [&] or a [>];
    a token that is not empty is the [page_info] parameter of the next
    request.  When no directive of the header holds [rel="next"], the loop
    is left with the records gathered. *)
Theorem next_page_token {text} (w : world text) self status
        (r : response) (products all_products : list Product)
        (page_info : option string) (fuel : nat) :
  next_outcome w (all_request self status page_info) = Reply r ->
  delivers r products ->
  is_empty r = false ->
  (forall before after a tok rest,
      let link := LinkSpec.directive a tok rest in
      link_header r = Some (PyStr.join "," (before ++ link :: after)) ->
      Forall (fun d => PyStr.has_char "," d = false) (before ++ link :: after) ->
      Forall (fun d => PyStr.contains rel_next d = false) before ->
      PyStr.contains rel_next link = true ->
      PyStr.no_start "page_info=" a ("page_info=" ++ tok ++ rest) = true ->
      PyStr.contains "page_info=" tok = false ->
      PyStr.has_char "&" tok = false ->
      PyStr.has_char ">" tok = false ->
      rest = "" \/ PyStr.starts_with "&" rest = true \/
      PyStr.starts_with ">" rest = true ->
      all_products_loop (S fuel) self status all_products page_info w =
      all_products_loop fuel self status (all_products ++ products) (Some tok)
                        (after_request w (all_request self status page_info)) /\
      (tok <> "" ->
       Py.lookup "page_info" (req_params (all_request self status (Some tok))) =
       Some (JStr tok))) /\
  (no_marker r = true ->
   all_products_loop (S fuel) self status all_products page_info w =
   (Some (Ok (all_products ++ products)),
    after_request w (all_request self status page_info))).
Proof.
  intros Hr Hdel Hne.
  assert (Herr : http_error r = None) by (destruct Hdel as [H _]; exact H).
  split.
  - intros before after a tok rest link Hh Hcomma Hbefore Hnext Hfirst Hval Hamp Hgt
           Hrest.
    split; [| apply page_params_token].
    assert (Hscan : scan_links
                      (PyStr.split "," (PyStr.join "," (before ++ link :: after)))
                      page_info = Ok (Some tok)).
    { rewrite split_join; [| destruct before; discriminate | exact Hcomma].
      rewrite (scan_links_directive before link after page_info Hbefore Hnext).
      unfold link, LinkSpec.directive.
      rewrite (token_of_link_value a tok rest Hfirst Hval Hamp Hgt Hrest).
      reflexivity. }
    assert (Hhas : has_next (link_header r) = true).
    { rewrite Hh, has_next_directive. unfold next_directive.
      rewrite split_join; [| destruct before; discriminate | exact Hcomma].
      rewrite <- existsb_find, existsb_app. cbn [existsb].
      rewrite Hnext, orb_true_r. reflexivity. }
    destruct (delivers_records r products Hdel) as (entries & Hg & Hc).
    cbn [all_products_loop]. rewrite loop_body_run. cbv zeta.
    rewrite Hr, Herr. unfold turn_of. unfold is_empty in Hne.
    rewrite Hg in *. cbn [rbind]. rewrite Hne. cbn [Py.iterate rbind].
    rewrite Hc. cbn [rbind]. rewrite Hhas, Hh, Hscan. reflexivity.
  - intros Hlast. cbn [all_products_loop]. rewrite loop_body_run. cbv zeta.
    rewrite Hr, Herr, (turn_of_last r products _ _ Hdel Hlast). reflexivity.
Qed.

Lemma next_page_token_witness :
  let w := Sample.world_of [Reply Sample.first_page; Reply Sample.last_page] in
  let link :=
    LinkSpec.directive
      "<https://demo.myshopify.com/admin/api/2023-10/products.json?limit=250&"
      "abc123" (">; " ++ rel_next) in
  LinkSpec.query_value "page_info" link = Some "abc123" /\
  all_products_loop 2 Sample.shop "active" [] None w =
  all_products_loop 1 Sample.shop "active"
                    [Sample.shirt_record; Sample.scarf_record] (Some "abc123")
                    (after_request w (all_request Sample.shop "active" None)) /\
  Py.lookup "page_info"
            (req_params (all_request Sample.shop "active" (Some "abc123"))) =
  Some (JStr "abc123").
Proof.
  cbv zeta. split; [reflexivity |].
  destruct (next_page_token
              (Sample.world_of [Reply Sample.first_page; Reply Sample.last_page])
              Sample.shop "active" Sample.first_page
              [Sample.shirt_record; Sample.scarf_record] [] None 1)
    as [Hnext _].
  - reflexivity.
  - split; [reflexivity |]. do 2 eexists. repeat split; reflexivity.
  - reflexivity.
  - destruct (Hnext [] []
                "<https://demo.myshopify.com/admin/api/2023-10/products.json?limit=250&"
                "abc123" (">; " ++ rel_next)%string) as [Hloop Hparam];
      try reflexivity.
    + repeat constructor.
    + constructor.
    + right; right; reflexivity.
    + split; [exact Hloop | apply Hparam; discriminate].
Defined.

(** C2.  The token is to be the value of the [page_info] parameter of the
    directive that holds [rel="next"], whatever other parameters the
    directive carries; the code, which means to extract it, cuts at the
    first [page_info=] it finds.  On a directive whose URL carries, before
    its [page_info] parameter, a parameter whose name ends in [page_info],
    the value of [page_info] is [abc123], and the token the code extracts,
    and sends with the next request, is the other parameter's value. *)
Lemma token_of_earlier_parameter :
  let h := Sample.link_to "prev_page_info=zzz&page_info=abc123" in
  let w := Sample.world_of [Reply (Sample.page [Sample.shirt] (Some h));
                            Reply Sample.last_page] in
  PyStr.contains rel_next h = true /\
  next_directive h = Some h /\
  LinkSpec.params_of h = [("prev_page_info", "zzz"); ("page_info", "abc123")] /\
  LinkSpec.query_value "page_info" h = Some "abc123" /\
  scan_links (PyStr.split "," h) None = Ok (Some "zzz") /\
  map (fun req => Py.lookup "page_info" (req_params req))
      (sent (snd (get_all_products 2 Sample.shop "active" w))) =
  [None; Some (JStr "zzz")].
Proof.
  cbv zeta. repeat split; reflexivity.
Qed.

(** C3.  For a raw entry that holds every required field: when its
    [variants] list is not empty and starts with a variant object, the
    record's [price] and [inventory_quantity] are the first variant's
    [price] and [inventory_quantity], each read on its own and [None] when
    the variant lacks it; when [variants] is absent or empty, both are
    [None]. *)
Theorem from_dict_variant_fields (fields : dict) :
  has_required fields = true ->
  (forall v rest,
      Py.lookup "variants" fields = Some (JList (JObj v :: rest)) ->
      exists record,
        from_dict (JObj fields) = Ok record /\
        price record = Py.get_default v "price" JNull /\
        inventory_quantity record = Py.get_default v "inventory_quantity" JNull) /\
  (Py.lookup "variants" fields = None \/
   Py.lookup "variants" fields = Some (JList []) ->
   exists record,
     from_dict (JObj fields) = Ok record /\
     price record = JNull /\ inventory_quantity record = JNull).
Proof.
  intros Hreq. split.
  - intros v rest Hv. rewrite (from_dict_required fields Hreq).
    rewrite (variant_fields_first fields v rest Hv). cbn [rbind fst snd].
    eexists. split; [reflexivity |]. split; reflexivity.
  - intros Hv. rewrite (from_dict_required fields Hreq).
    rewrite variant_fields_none.
    + cbn [rbind fst snd]. eexists. split; [reflexivity |]. split; reflexivity.
    + unfold Py.get_default. destruct Hv as [-> | ->]; reflexivity.
Qed.

Lemma from_dict_variant_fields_witness :
  has_required Sample.scarf_fields = true /\
  exists record,
    from_dict (JObj Sample.scarf_fields) = Ok record /\
    price record = JStr "5.00" /\ inventory_quantity record = JNull.
Proof.
  split; [reflexivity |].
  destruct (from_dict_variant_fields Sample.scarf_fields eq_refl) as [Hfirst _].
  apply (Hfirst [("price", JStr "5.00")] []). reflexivity.
Defined.

(** C4.  A raw entry that lacks a required field makes [from_dict] raise a
    malformed-record exception, the [KeyError] of the first missing field
    when the variants block goes through; and when such an entry arrives in
    an accepted page, no fetch operation catches the exception: each of
    [get_products], [search_products] and a turn of [get_all_products]
    ends with a malformed-record exception instead of a result. *)
Theorem malformed_record_propagates {text} (w : world text) self
        (r : response) (fields : dict) (entries : list json) (bad : dict) :
  has_required bad = false ->
  http_error r = None ->
  body r = JObj fields ->
  Py.lookup "products" fields = Some (JList entries) ->
  In (JObj bad) entries ->
  (exists e,
      from_dict (JObj bad) = Raise e /\ MalformedRecord e = true /\
      (forall pq, variant_fields (JObj bad) = Ok pq ->
                  exists key, first_missing bad = Some key /\
                              e = KeyError (JStr key))) /\
  (forall limit status,
      next_outcome w (get_request self limit status) = Reply r ->
      exists e w',
        get_products self limit status w = (Raise e, w') /\
        MalformedRecord e = true) /\
  (forall query limit,
      next_outcome w (search_request self query limit) = Reply r ->
      exists e w',
        search_products self query limit w = (Raise e, w') /\
        MalformedRecord e = true) /\
  (forall fuel status all_products page_info,
      next_outcome w (all_request self status page_info) = Reply r ->
      exists e w',
        all_products_loop (S fuel) self status all_products page_info w =
        (Some (Raise e), w') /\
        MalformedRecord e = true).
Proof.
  intros Hbad Herr Hbody Hprod Hin.
  destruct (from_dict_missing bad Hbad) as (e0 & He0 & Hm0 & Hkey).
  assert (Hcomp : exists e, Py.comprehension from_dict entries = Raise e /\
                            MalformedRecord e = true).
  { clear Hprod. induction entries as [| x l IH]; [contradiction |].
    cbn [Py.comprehension].
    destruct (from_dict x) as [y | e] eqn:Hx; cbn [rbind].
    - destruct Hin as [-> | Hin]; [congruence |].
      destruct (IH Hin) as (e & -> & Hm). cbn [rbind]. eauto.
    - exists e. split; [reflexivity |]. eapply from_dict_malformed; eauto. }
  destruct Hcomp as (e & Hcomp & Hm).
  assert (Hne : entries <> []) by (intros ->; contradiction).
  assert (Hrec : records (body r) = Raise e).
  { unfold records. rewrite Hbody. unfold Py.get_or, Py.get_default.
    rewrite Hprod. cbn [rbind Py.iterate]. exact Hcomp. }
  assert (Hturn : forall acc pi, turn_of r acc pi = Raise e).
  { intros acc pi. unfold turn_of. rewrite Hbody.
    unfold Py.get_or, Py.get_default. rewrite Hprod. cbn [rbind].
    destruct entries; [contradiction |]. cbn [Py.truthy negb Py.iterate rbind].
    rewrite Hcomp. reflexivity. }
  split; [eauto |]. split; [| split].
  - intros limit status Hr. rewrite get_products_run. cbv zeta.
    rewrite Hr, Herr, Hrec. eauto.
  - intros query limit Hr. rewrite search_products_run. cbv zeta.
    rewrite Hr, Herr, Hrec. eauto.
  - intros fuel status acc pi Hr. cbn [all_products_loop].
    rewrite loop_body_run. cbv zeta. rewrite Hr, Herr, Hturn. eauto.
Qed.

Lemma malformed_record_propagates_witness :
  let w := Sample.world_of [Reply (Sample.page [Sample.shirt; Sample.broken] None)] in
  has_required Sample.broken_fields = false /\
  (exists e,
      from_dict Sample.broken = Raise e /\ MalformedRecord e = true /\
      exists key, first_missing Sample.broken_fields = Some key /\
                  e = KeyError (JStr key)) /\
  (exists e w',
      get_products Sample.shop 50 "active" w = (Raise e, w') /\
      MalformedRecord e = true) /\
  (exists e w',
      search_products Sample.shop "hat" 50 w = (Raise e, w') /\
      MalformedRecord e = true) /\
  (exists e w',
      get_all_products 1 Sample.shop "active" w = (Some (Raise e), w') /\
      MalformedRecord e = true).
Proof.
  cbv zeta. split; [reflexivity |].
  destruct (malformed_record_propagates
              (Sample.world_of [Reply (Sample.page [Sample.shirt; Sample.broken] None)])
              Sample.shop (Sample.page [Sample.shirt; Sample.broken] None)
              [("products", JList [Sample.shirt; Sample.broken])]
              [Sample.shirt; Sample.broken] Sample.broken_fields)
    as (Hnorm & Hget & Hsearch & Hall).
  - reflexivity.
  - reflexivity.
  - reflexivity.
  - reflexivity.
  - right; left; reflexivity.
  - split; [| split; [| split]].
    + destruct Hnorm as (e & Hraise & Hm & Hkey).
      exists e. split; [exact Hraise |]. split; [exact Hm |].
      apply (Hkey (JNull, JNull)). reflexivity.
    + apply Hget. reflexivity.
    + apply Hsearch. reflexivity.
    + apply (Hall 0 "active" [] None). reflexivity.
Defined.

(** C5.  When the request that follows [k - 1] successful pages fails, by
    transport or by a refused status, [get_all_products] prints the failure,
    stops without another request and returns the records of those [k - 1]
    pages, raising nothing; with no page before the failure the result is the
    empty list. *)
Theorem get_all_products_partial_on_failure {text} (w : world text) self status
        (pages : list response) (pss : list (list Product)) (o : outcome)
        (fuel : nat) :
  serves (remote w) (List.length (sent w)) pages ->
  Forall2 delivers pages pss ->
  Forall (fun r => is_empty r = false) pages ->
  Forall (fun r => carries_next r = true) pages ->
  (forall req, remote w (List.length (sent w) + List.length pages) req = o) ->
  fails o = true ->
  List.length pages < fuel ->
  exists w',
    get_all_products fuel self status w = (Some (Ok (concat pss)), w') /\
    (exists new, sent w' = sent w ++ new /\
                 List.length new = List.length pages + 1) /\
    stdout w' = stdout w ++ [("Error fetching products: " ++ failure_message o)%string] /\
    (pages = [] -> concat pss = []).
Proof.
  intros Hserves Hdel Hne Hnext Hfail Hfails Hfuel.
  destruct (loop_advance self status pages pss [] None w Hdel Hne Hnext Hserves)
    as (pi' & w1 & Hloop & Hrem & (new & Hnew & Hlen) & Hout & _).
  set (req := all_request self status pi').
  exists (after_print (after_request w1 req)
                      ("Error fetching products: " ++ failure_message o)).
  unfold get_all_products.
  replace fuel with (List.length pages + S (fuel - List.length pages - 1)) by lia.
  rewrite Hloop. cbn [all_products_loop app].
  rewrite loop_body_run. fold req. unfold next_outcome.
  rewrite Hrem, Hnew, length_app, Hlen, (Hfail req).
  split; [| split; [| split]].
  - unfold fails, failure_message in *. destruct o as [msg | r]; [reflexivity |].
    destruct (http_error r); [reflexivity | discriminate].
  - exists (new ++ [req]). cbn [after_print after_request sent].
    rewrite Hnew, <- app_assoc. split; [reflexivity |].
    rewrite !length_app. cbn. lia.
  - cbn [after_print after_request stdout]. rewrite Hout. reflexivity.
  - intros ->. inversion Hdel. reflexivity.
Qed.

Lemma get_all_products_partial_on_failure_witness :
  let w := Sample.world_of [Reply Sample.first_page; Reply Sample.refused;
                            Reply Sample.last_page] in
  exists w',
    get_all_products 2 Sample.shop "active" w =
    (Some (Ok [Sample.shirt_record; Sample.scarf_record]), w') /\
    (exists new, sent w' = sent w ++ new /\ List.length new = 2) /\
    stdout w' = stdout w ++ ["Error fetching products: 503 Server Error"] /\
    ([Sample.first_page] = [] ->
     [Sample.shirt_record; Sample.scarf_record] = []).
Proof.
  apply (get_all_products_partial_on_failure
           (Sample.world_of [Reply Sample.first_page; Reply Sample.refused;
                             Reply Sample.last_page])
           Sample.shop "active" [Sample.first_page]
           [[Sample.shirt_record; Sample.scarf_record]] (Reply Sample.refused) 2).
  - split; [intros req; reflexivity | exact I].
  - repeat constructor; do 2 eexists; repeat split; reflexivity.
  - repeat constructor.
  - repeat constructor.
  - intros req; reflexivity.
  - reflexivity.
  - cbn. lia.
Defined.

(** A transport failure on the first request: no record, one request, the
    failure printed. *)
Example first_page_failure :
  let run := get_all_products 1 Sample.shop "active"
               (Sample.world_of [TransportError "timed out"]) in
  fst run = Some (Ok []) /\
  List.length (sent (snd run)) = 1 /\
  stdout (snd run) = ["Error fetching products: timed out"].
Proof. cbv zeta. repeat split; reflexivity. Qed.

(** C6.  [get_products] and [search_products] each send exactly one request,
    whatever their arguments and whatever the remote answers; when that
    request fails, by transport or by a refused status, they print the
    failure and return the empty list: nothing is sent again and nothing is
    raised. *)
Theorem single_page_single_attempt {text} (w : world text) self
        (limit : Z) (status query : string) :
  (sent (snd (get_products self limit status w)) =
   sent w ++ [get_request self limit status] /\
   (fails (next_outcome w (get_request self limit status)) = true ->
    get_products self limit status w =
    (Ok [],
     after_print (after_request w (get_request self limit status))
       ("Error fetching products: " ++
        failure_message (next_outcome w (get_request self limit status)))))) /\
  (sent (snd (search_products self query limit w)) =
   sent w ++ [search_request self query limit] /\
   (fails (next_outcome w (search_request self query limit)) = true ->
    search_products self query limit w =
    (Ok [],
     after_print (after_request w (search_request self query limit))
       ("Error searching products: " ++
        failure_message (next_outcome w (search_request self query limit)))))).
Proof.
  split.
  - rewrite get_products_run. cbv zeta. unfold fails, failure_message.
    destruct (next_outcome w (get_request self limit status)) as [msg | r].
    + split; reflexivity.
    + destruct (http_error r); split; try reflexivity; discriminate.
  - rewrite search_products_run. cbv zeta. unfold fails, failure_message.
    destruct (next_outcome w (search_request self query limit)) as [msg | r].
    + split; reflexivity.
    + destruct (http_error r); split; try reflexivity; discriminate.
Qed.

Lemma single_page_single_attempt_witness :
  let w := Sample.world_of [Reply Sample.refused] in
  get_products Sample.shop 50 "active" w =
  (Ok [],
   after_print (after_request w (get_request Sample.shop 50 "active"))
               "Error fetching products: 503 Server Error") /\
  search_products Sample.shop "shirt" 50 w =
  (Ok [],
   after_print (after_request w (search_request Sample.shop "shirt" 50))
               "Error searching products: 503 Server Error").
Proof.
  cbv zeta.
  destruct (single_page_single_attempt
              (Sample.world_of [Reply Sample.refused]) Sample.shop 50
              "active" "shirt") as [[_ Hget] [_ Hsearch]].
  split; [apply Hget; reflexivity | apply Hsearch; reflexivity].
Defined.

(** The single-page operations on a remote that refuses the request. *)
Example single_page_refused :
  let w := Sample.world_of [Reply Sample.refused] in
  fst (get_products Sample.shop 50 "active" w) = Ok [] /\
  stdout (snd (get_products Sample.shop 50 "active" w)) =
  ["Error fetching products: 503 Server Error"] /\
  fst (search_products Sample.shop "shirt" 50 w) = Ok [] /\
  stdout (snd (search_products Sample.shop "shirt" 50 w)) =
  ["Error searching products: 503 Server Error"].
Proof. cbv zeta. repeat split; reflexivity. Qed.

(** C7.  [get_all_products] terminates on every finite sequence of answers:
    when the answer to some request ends the loop, being a transport failure
    or a refused status, an empty page, or a page whose [Link] header carries
    no "next" marker, the call returns, and it has sent no request past that
    one. *)
Theorem get_all_products_terminates {text} (w : world text) self status
        (n fuel : nat) :
  (forall req, ends_loop (remote w (List.length (sent w) + n) req) = true) ->
  n < fuel ->
  exists res w',
    get_all_products fuel self status w = (Some res, w') /\
    List.length (sent w') <= List.length (sent w) + n + 1.
Proof.
  intros Hend Hfuel.
  destruct (loop_terminates self status n [] None w fuel Hend Hfuel)
    as (res & w' & Hrun & _ & Hle).
  exists res, w'. split; [exact Hrun | exact Hle].
Qed.

Lemma get_all_products_terminates_witness :
  let w := Sample.world_of [Reply Sample.first_page; Reply Sample.last_page] in
  exists res w',
    get_all_products 2 Sample.shop "active" w = (Some res, w') /\
    List.length (sent w') <= List.length (sent w) + 1 + 1.
Proof.
  apply (get_all_products_terminates
           (Sample.world_of [Reply Sample.first_page; Reply Sample.last_page])
           Sample.shop "active" 1 2).
  - intros req; reflexivity.
  - lia.
Defined.

(** C8.  Exporting [N] records to a file that can be opened, all their text
    having a UTF-8 encoding, and parsing the file again yields [N] objects
    in the order of the records, each with the keys [id], [title],
    [handle], [vendor], [product_type], [status], [price] and
    [inventory_quantity] holding the record's values; a [price] or an
    [inventory_quantity] that is not set reads back as [null]. *)
Theorem export_round_trip (cut_of : json -> option string) (w : world string)
        (products : list Product) (filename : string) :
  writable w filename = true ->
  cut_of (JList (map Exporting.product_dict products)) = None ->
  exists content w',
    Exporting.export_to_json (JsonText.codec cut_of) products filename w = (Ok tt, w') /\
    read_file filename (files w') = Some content /\
    exists objects,
      JsonText.loads content = Some (JList objects) /\
      List.length objects = List.length products /\
      forall i product,
        nth_error products i = Some product ->
        exists fields,
          nth_error objects i = Some (JObj fields) /\
          map fst fields = Exporting.keys /\
          map snd fields =
          [id product; title product; handle product; vendor product;
           product_type product; status product; price product;
           inventory_quantity product] /\
          (price product = JNull -> Py.lookup "price" fields = Some JNull) /\
          (inventory_quantity product = JNull ->
           Py.lookup "inventory_quantity" fields = Some JNull).
Proof.
  intros Hopen Hwhole.
  exists (JsonText.dumps (JList (map Exporting.product_dict products))).
  eexists. split; [| split].
  - unfold Exporting.export_to_json, bind, write_file, print,
      Exporting.json_dump.
    rewrite collect_map. cbn [app cut dump JsonText.codec].
    rewrite Hopen, Hwhole. cbn [fst snd]. reflexivity.
  - cbn [files]. apply read_file_written.
  - exists (map Exporting.product_dict products).
    split; [apply loads_dumps |]. split; [apply length_map |].
    intros i product Hi.
    eexists. split; [| split; [| split; [| split]]].
    + rewrite nth_error_map, Hi. reflexivity.
    + reflexivity.
    + reflexivity.
    + intros <-. reflexivity.
    + intros <-. reflexivity.
Qed.

Lemma export_round_trip_witness :
  let products := [Sample.shirt_record; Sample.socks_record] in
  exists content w',
    Exporting.export_to_json (JsonText.codec JsonText.whole) products
                             "shopify_products.json" (Sample.world_of []) =
    (Ok tt, w') /\
    read_file "shopify_products.json" (files w') = Some content /\
    exists objects,
      JsonText.loads content = Some (JList objects) /\
      List.length objects = 2 /\
      forall i product,
        nth_error products i = Some product ->
        exists fields,
          nth_error objects i = Some (JObj fields) /\
          map fst fields = Exporting.keys /\
          map snd fields =
          [id product; title product; handle product; vendor product;
           product_type product; status product; price product;
           inventory_quantity product] /\
          (price product = JNull -> Py.lookup "price" fields = Some JNull) /\
          (inventory_quantity product = JNull ->
           Py.lookup "inventory_quantity" fields = Some JNull).
Proof.
  cbv zeta.
  apply (export_round_trip JsonText.whole (Sample.world_of [])
                           [Sample.shirt_record; Sample.socks_record]
                           "shopify_products.json").
  - reflexivity.
  - reflexivity.
Defined.

(** The file written for two records, read again. *)
Example export_sample :
  let run := Exporting.export_to_json (JsonText.codec JsonText.whole)
               [Sample.shirt_record; Sample.socks_record] "out.json"
               (Sample.world_of []) in
  option_map (fun content => (String.length content, JsonText.loads content))
             (read_file "out.json" (files (snd run))) =
  Some (389,
        Some (JList [Exporting.product_dict Sample.shirt_record;
                     Exporting.product_dict Sample.socks_record])).
Proof. vm_compute. reflexivity. Qed.

(** C9.  Every request of a fetch operation carries a [limit] parameter of at
    most 250: [get_products] and [search_products] send [min(limit, 250)]
    for every [limit] given, and every request of [get_all_products]
    carries exactly 250. *)
Theorem requests_limit_at_most_250 {text} (w : world text) self
        (limit : Z) (status query : string) (fuel : nat) :
  (sent (snd (get_products self limit status w)) =
   sent w ++ [get_request self limit status] /\
   limit_of (get_request self limit status) = Some (JInt (Z.min limit 250))) /\
  (sent (snd (search_products self query limit w)) =
   sent w ++ [search_request self query limit] /\
   limit_of (search_request self query limit) = Some (JInt (Z.min limit 250))) /\
  (Z.min limit 250 <= 250)%Z /\
  (exists new,
      sent (snd (get_all_products fuel self status w)) = sent w ++ new /\
      Forall (fun req => limit_of req = Some (JInt 250)) new).
Proof.
  destruct (single_page_sends w self limit status query) as [Hget Hsearch].
  split; [split; [exact Hget | reflexivity] |].
  split; [split; [exact Hsearch | reflexivity] |].
  split; [apply Z.le_min_r |].
  apply loop_limits.
Qed.

(** C10, as amended.  On an accepted response whose body has no [products]
    key, [get_products] and [search_products] return the empty list and
    raise nothing, and [get_all_products] leaves its loop with what it has
    gathered; on a body that maps [products] to [null], [get_all_products]
    leaves its loop in the same way. *)
Theorem missing_products_is_empty_page {text} (w : world text) self
        (r : response) (fields : dict) :
  http_error r = None ->
  body r = JObj fields ->
  (Py.lookup "products" fields = None ->
   (forall limit status,
       next_outcome w (get_request self limit status) = Reply r ->
       get_products self limit status w =
       (Ok [], after_request w (get_request self limit status))) /\
   (forall query limit,
       next_outcome w (search_request self query limit) = Reply r ->
       search_products self query limit w =
       (Ok [], after_request w (search_request self query limit)))) /\
  (Py.lookup "products" fields = None \/
   Py.lookup "products" fields = Some JNull ->
   forall fuel status all_products page_info,
     next_outcome w (all_request self status page_info) = Reply r ->
     all_products_loop (S fuel) self status all_products page_info w =
     (Some (Ok all_products),
      after_request w (all_request self status page_info))).
Proof.
  intros Herr Hbody. split.
  - intros Hnone.
    assert (Hrec : records (body r) = Ok []).
    { unfold records. rewrite Hbody. unfold Py.get_or, Py.get_default.
      rewrite Hnone. reflexivity. }
    split.
    + intros limit status Hr. rewrite get_products_run. cbv zeta.
      rewrite Hr, Herr, Hrec. reflexivity.
    + intros query limit Hr. rewrite search_products_run. cbv zeta.
      rewrite Hr, Herr, Hrec. reflexivity.
  - intros Hfalsy fuel status acc pi Hr. cbn [all_products_loop].
    rewrite loop_body_run. cbv zeta. rewrite Hr, Herr.
    assert (Hturn : turn_of r acc pi = Ok (Break acc)).
    { unfold turn_of. rewrite Hbody. unfold Py.get_or, Py.get_default.
      destruct Hfalsy as [-> | ->]; reflexivity. }
    rewrite Hturn. reflexivity.
Qed.

Lemma missing_products_is_empty_page_witness :
  let w := Sample.world_of [Reply Sample.bare_page] in
  get_products Sample.shop 50 "active" w =
  (Ok [], after_request w (get_request Sample.shop 50 "active")) /\
  search_products Sample.shop "shirt" 50 w =
  (Ok [], after_request w (search_request Sample.shop "shirt" 50)) /\
  get_all_products 1 Sample.shop "active" w =
  (Some (Ok []), after_request w (all_request Sample.shop "active" None)).
Proof.
  cbv zeta.
  destruct (missing_products_is_empty_page
              (Sample.world_of [Reply Sample.bare_page]) Sample.shop
              Sample.bare_page [("errors", JStr "none")] eq_refl eq_refl)
    as [Hsingle Hall].
  destruct (Hsingle eq_refl) as [Hget Hsearch].
  split; [apply Hget; reflexivity |].
  split; [apply Hsearch; reflexivity |].
  apply (Hall (or_introl eq_refl) 0 "active" [] None). reflexivity.
Defined.

(** C10, as stated, fails on a body that maps [products] to [null]:
    [get_products] and [search_products] raise a [TypeError] where the claim
    has them return the empty list. *)
Lemma null_products_raises :
  let w := Sample.world_of [Reply Sample.null_page] in
  http_error Sample.null_page = None /\
  body Sample.null_page = JObj [("products", JNull)] /\
  fst (get_products Sample.shop 50 "active" w) = Raise TypeError /\
  fst (search_products Sample.shop "shirt" 50 w) = Raise TypeError /\
  fst (get_products Sample.shop 50 "active" w) <> Ok [].
Proof.
  cbv zeta. repeat split. discriminate.
Qed.

(** The spec's example: two entries and a marker with [page_info=abc123] on
    the first page, one entry and no [Link] header on the page requested with
    that token: three records, two requests, the second with the token. *)
Example two_page_example :
  let run := get_all_products 3 Sample.shop "active" Sample.two_page_shop in
  fst run =
  Some (Ok [Sample.shirt_record; Sample.scarf_record; Sample.socks_record]) /\
  map req_params (sent (snd run)) =
  [[("limit", JInt 250); ("status", JStr "active")];
   [("limit", JInt 250); ("status", JStr "active"); ("page_info", JStr "abc123")]].
Proof. cbv zeta. split; reflexivity. Qed.

(** * Further properties of the fetcher *)

(** ** Helper lemmas *)

(** A text that does not hold the separator is its own single piece. *)
Lemma split_without_separator sep s :
  sep <> "" -> PyStr.contains sep s = false -> PyStr.split sep s = [s].
Proof.
  intros Hsep. unfold PyStr.split. induction s as [| c s IH]; intros Hc.
  - reflexivity.
  - rewrite contains_cons in Hc. apply orb_false_iff in Hc as [Hs Hc].
    cbn [PyStr.split_from]. rewrite Hs, (IH Hc). reflexivity.
Qed.

(** Every request of the pagination loop is built from the client, the
    status and some token. *)
Lemma loop_requests {text} self status fuel :
  forall all_products page_info (w : world text),
  exists new,
    sent (snd (all_products_loop fuel self status all_products page_info w)) =
    sent w ++ new /\
    Forall (fun req => exists token, req = all_request self status token) new /\
    (fuel <> 0 -> exists rest, new = all_request self status page_info :: rest).
Proof.
  induction fuel as [| fuel IH]; intros acc pi w; cbn [all_products_loop].
  - exists []. rewrite app_nil_r. repeat split; [constructor | contradiction].
  - pose proof (loop_body_world self status acc pi w) as (_ & Hsent & _).
    destruct (loop_body self status acc pi w) as [[[acc' | acc' pi'] | e] w1];
      cbn [snd] in *;
      try (exists [all_request self status pi]; split; [exact Hsent |];
           split; [repeat constructor; eauto | eauto]).
    destruct (IH acc' pi' w1) as (new & Hnew & Hall & _).
    exists (all_request self status pi :: new). split; [| split].
    + rewrite Hnew, Hsent, <- app_assoc. reflexivity.
    + constructor; [eauto | exact Hall].
    + eauto.
Qed.

(** The loop leaves the files and the remote as they are. *)
Lemma loop_frame {text} self status fuel :
  forall all_products page_info (w : world text),
    let w' := snd (all_products_loop fuel self status all_products page_info w) in
    files w' = files w /\ remote w' = remote w.
Proof.
  induction fuel as [| fuel IH]; intros acc pi w; cbn [all_products_loop];
    [split; reflexivity |].
  pose proof (loop_body_world self status acc pi w) as (Hrem & _ & Hfiles).
  destruct (loop_body self status acc pi w) as [[[acc' | acc' pi'] | e] w1];
    cbn [snd] in *; try (split; assumption).
  destruct (IH acc' pi' w1) as [Hf Hr]. cbv zeta in Hf, Hr.
  split; congruence.
Qed.

(** One turn on a non-empty page whose marker is found in [link]. *)
Lemma turn_of_directive r products h link all_products page_info :
  delivers r products -> is_empty r = false ->
  link_header r = Some h -> next_directive h = Some link ->
  turn_of r all_products page_info =
  (tok <- token_of_link link ;;
   Ok (Again (all_products ++ products) (Some tok)))%result.
Proof.
  intros Hdel Hne Hh Hlink.
  destruct (delivers_records r products Hdel) as (entries & Hg & Hc).
  unfold turn_of, is_empty in *. rewrite Hg in *. cbn [rbind].
  rewrite Hne. cbn [Py.iterate rbind]. rewrite Hc. cbn [rbind].
  rewrite Hh, has_next_directive, Hlink, scan_links_find.
  unfold next_directive in Hlink. rewrite Hlink.
  destruct (token_of_link link); reflexivity.
Qed.

(** ** Normalisation, beyond the price *)

(** X1.  When [from_dict] succeeds, the six required attributes of the
    record are the entry's values under [id], [title], [handle], [vendor],
    [product_type] and [status], whatever kind of value they are: nothing is
    converted or checked. *)
Theorem from_dict_keeps_values (fields : dict) (record : Product) :
  from_dict (JObj fields) = Ok record ->
  Py.lookup "id" fields = Some (id record) /\
  Py.lookup "title" fields = Some (title record) /\
  Py.lookup "handle" fields = Some (handle record) /\
  Py.lookup "vendor" fields = Some (vendor record) /\
  Py.lookup "product_type" fields = Some (product_type record) /\
  Py.lookup "status" fields = Some (status record).
Proof.
  unfold from_dict.
  destruct (variant_fields (JObj fields)) as [pq | e]; cbn [rbind];
    [| discriminate].
  cbn [Py.subscript]. unfold Py.getitem.
  repeat match goal with
         | |- context [Py.lookup ?k fields] =>
             destruct (Py.lookup k fields); cbn [rbind]; [| discriminate]
         end.
  intros [= <-]. cbn. repeat split; reflexivity.
Qed.

Lemma from_dict_keeps_values_witness :
  from_dict (JObj Sample.scarf_fields) = Ok Sample.scarf_record /\
  Py.lookup "id" Sample.scarf_fields = Some (JInt 2) /\
  Py.lookup "status" Sample.scarf_fields = Some (JStr "active").
Proof.
  split; [reflexivity |].
  destruct (from_dict_keeps_values Sample.scarf_fields Sample.scarf_record eq_refl)
    as (Hid & _ & _ & _ & _ & Hstatus).
  split; [exact Hid | exact Hstatus].
Defined.

(** X2.  [from_dict] reads nothing of an entry but the six required keys and
    [variants]: two entries that agree on these seven keys give the same
    record, or the same exception. *)
Theorem from_dict_reads_seven_keys (fields fields' : dict) :
  (forall key, In key ("variants" :: required) ->
               Py.lookup key fields = Py.lookup key fields') ->
  from_dict (JObj fields) = from_dict (JObj fields').
Proof.
  intros Hsame. unfold from_dict, variant_fields, Py.get, Py.subscript,
    Py.getitem, Py.get_default.
  rewrite !(Hsame "variants"), !(Hsame "id"), !(Hsame "title"),
    !(Hsame "handle"), !(Hsame "vendor"), !(Hsame "product_type"),
    !(Hsame "status") by (cbn; tauto).
  reflexivity.
Qed.

Lemma from_dict_reads_seven_keys_witness :
  from_dict (JObj Sample.socks_fields) =
  from_dict (JObj (("tags", JStr "wool") :: Sample.socks_fields ++
                   [("body_html", JNull)])).
Proof.
  apply (from_dict_reads_seven_keys Sample.socks_fields
           (("tags", JStr "wool") :: Sample.socks_fields ++ [("body_html", JNull)])).
  intros key Hin. cbn in Hin.
  repeat (destruct Hin as [<- | Hin]; [reflexivity |]). contradiction.
Defined.

(** X3.  All required fields do not save an entry whose [variants] value is
    ill-formed: a number other than zero or [true] raises [TypeError], a
    non-empty string or a list whose first element is not an object raises
    [AttributeError], and a non-empty object raises [KeyError] for the
    index [0]. *)
Theorem from_dict_ill_formed_variants (fields : dict) (v : json) :
  has_required fields = true ->
  Py.lookup "variants" fields = Some v ->
  Py.truthy v = true ->
  match v with
  | JList (JObj _ :: _) => True
  | JList _ | JStr _ => from_dict (JObj fields) = Raise AttributeError
  | JObj _ => from_dict (JObj fields) = Raise (KeyError (JInt 0))
  | JInt _ | JBool _ | JNull => from_dict (JObj fields) = Raise TypeError
  end.
Proof.
  intros Hreq Hv Ht. rewrite (from_dict_required fields Hreq).
  unfold variant_fields, Py.get, Py.subscript, Py.getitem, Py.get_default.
  rewrite Hv. cbn [rbind]. rewrite Ht.
  destruct v as [| b | z | s | [| x l] | [| kv d]]; cbn in Ht |- *;
    try discriminate; try reflexivity.
  - destruct s as [| c s]; [cbn in Ht; discriminate | reflexivity].
  - destruct x; first [exact I | reflexivity].
Qed.

Lemma from_dict_ill_formed_variants_witness :
  from_dict (JObj (Sample.entry_fields 5 "cap" [("variants", JInt 2)])) =
  Raise TypeError /\
  from_dict (JObj (Sample.entry_fields 5 "cap" [("variants", JList [JStr "S"])])) =
  Raise AttributeError.
Proof.
  split.
  - apply (from_dict_ill_formed_variants
             (Sample.entry_fields 5 "cap" [("variants", JInt 2)]) (JInt 2));
      reflexivity.
  - apply (from_dict_ill_formed_variants
             (Sample.entry_fields 5 "cap" [("variants", JList [JStr "S"])])
             (JList [JStr "S"]));
      reflexivity.
Defined.

(** ** Single pages *)

(** X4.  On an accepted response whose [products] list normalises,
    [get_products] and [search_products] return the records of all its
    entries, in the order of the entries; they print nothing and send no
    second request, even when the response carries a "next" marker. *)
Theorem single_page_returns_records {text} (w : world text) self
        (r : response) (products : list Product) :
  delivers r products ->
  (forall limit status,
      next_outcome w (get_request self limit status) = Reply r ->
      get_products self limit status w =
      (Ok products, after_request w (get_request self limit status))) /\
  (forall query limit,
      next_outcome w (search_request self query limit) = Reply r ->
      search_products self query limit w =
      (Ok products, after_request w (search_request self query limit))).
Proof.
  intros Hdel. pose proof Hdel as [Herr _].
  destruct (delivers_records r products Hdel) as (entries & Hg & Hc).
  assert (Hrec : records (body r) = Ok products).
  { unfold records. rewrite Hg. cbn [rbind Py.iterate]. exact Hc. }
  split.
  - intros limit status Hr. rewrite get_products_run. cbv zeta.
    rewrite Hr, Herr, Hrec. reflexivity.
  - intros query limit Hr. rewrite search_products_run. cbv zeta.
    rewrite Hr, Herr, Hrec. reflexivity.
Qed.

Lemma single_page_returns_records_witness :
  let w := Sample.world_of [Reply Sample.first_page; Reply Sample.last_page] in
  get_products Sample.shop 50 "active" w =
  (Ok [Sample.shirt_record; Sample.scarf_record],
   after_request w (get_request Sample.shop 50 "active")) /\
  search_products Sample.shop "s" 50 w =
  (Ok [Sample.shirt_record; Sample.scarf_record],
   after_request w (search_request Sample.shop "s" 50)).
Proof.
  cbv zeta.
  destruct (single_page_returns_records
              (Sample.world_of [Reply Sample.first_page; Reply Sample.last_page])
              Sample.shop Sample.first_page
              [Sample.shirt_record; Sample.scarf_record])
    as [Hget Hsearch].
  - split; [reflexivity |]. do 2 eexists. repeat split; reflexivity.
  - split; [apply Hget | apply Hsearch]; reflexivity.
Defined.

(** ** The pagination loop, at its edges *)

(** X5.  A directive that holds [rel="next"] but no [page_info=] makes
    [get_all_products] raise [IndexError]: the exception is not caught, and
    the records gathered so far, those of this page included, are lost. *)
Theorem marker_without_token_raises {text} (w : world text) self status
        (r : response) (products all_products : list Product)
        (page_info : option string) (h link : string) (fuel : nat) :
  next_outcome w (all_request self status page_info) = Reply r ->
  delivers r products ->
  is_empty r = false ->
  link_header r = Some h ->
  next_directive h = Some link ->
  PyStr.contains "page_info=" link = false ->
  all_products_loop (S fuel) self status all_products page_info w =
  (Some (Raise IndexError), after_request w (all_request self status page_info)).
Proof.
  intros Hr Hdel Hne Hh Hlink Hnone.
  pose proof Hdel as [Herr _].
  cbn [all_products_loop]. rewrite loop_body_run. cbv zeta. rewrite Hr, Herr.
  rewrite (turn_of_directive r products h link _ _ Hdel Hne Hh Hlink).
  unfold token_of_link.
  rewrite (split_without_separator "page_info=" link) by (discriminate || exact Hnone).
  reflexivity.
Qed.

Lemma marker_without_token_raises_witness :
  let r := Sample.page [Sample.shirt] (Some (Sample.link_to "limit=250")) in
  let w := Sample.world_of [Reply r; Reply Sample.last_page] in
  get_all_products 2 Sample.shop "active" w =
  (Some (Raise IndexError), after_request w (all_request Sample.shop "active" None)).
Proof.
  cbv zeta.
  apply (marker_without_token_raises
           (Sample.world_of [Reply (Sample.page [Sample.shirt]
                                      (Some (Sample.link_to "limit=250")));
                             Reply Sample.last_page])
           Sample.shop "active"
           (Sample.page [Sample.shirt] (Some (Sample.link_to "limit=250")))
           [Sample.shirt_record] [] None
           (Sample.link_to "limit=250") (Sample.link_to "limit=250") 1).
  - reflexivity.
  - split; [reflexivity |]. do 2 eexists. repeat split; reflexivity.
  - reflexivity.
  - reflexivity.
  - reflexivity.
  - reflexivity.
Defined.

(** X6.  The token of an earlier page is never used again: when the header
    test of the loop passes, the [for] loop over the directives finds one
    that holds the marker, so the token it leaves, or the exception it
    raises, is that directive's and does not depend on the token the turn
    started with. *)
Theorem token_never_stale (h : string) :
  has_next (Some h) = true ->
  exists link,
    In link (PyStr.split "," h) /\
    PyStr.contains rel_next link = true /\
    forall page_info,
      scan_links (PyStr.split "," h) page_info =
      (tok <- token_of_link link ;; Ok (Some tok))%result.
Proof.
  intros Hhas. rewrite has_next_directive in Hhas. unfold next_directive in Hhas.
  destruct (find (PyStr.contains rel_next) (PyStr.split "," h)) as [link |] eqn:Hfind;
    [| discriminate].
  exists link. destruct (find_some _ _ Hfind) as [Hin Hc].
  split; [exact Hin |]. split; [exact Hc |].
  intros pi. rewrite scan_links_find, Hfind. reflexivity.
Qed.

Lemma token_never_stale_witness :
  exists link,
    In link (PyStr.split "," (Sample.link_to "limit=250&page_info=abc123")) /\
    PyStr.contains rel_next link = true /\
    forall page_info,
      scan_links (PyStr.split "," (Sample.link_to "limit=250&page_info=abc123"))
                 page_info =
      (tok <- token_of_link link ;; Ok (Some tok))%result.
Proof.
  apply (token_never_stale (Sample.link_to "limit=250&page_info=abc123")).
  reflexivity.
Defined.

(** X7.  An empty token is dropped: when the marker's [page_info] parameter
    has an empty value, the loop goes on and its next request carries no
    [page_info] at all, so it is the request of the first page again. *)
Theorem empty_token_restarts {text} (w : world text) self status
        (r : response) (products all_products : list Product)
        (page_info : option string) (h a rest : string) (fuel : nat) :
  next_outcome w (all_request self status page_info) = Reply r ->
  delivers r products ->
  is_empty r = false ->
  link_header r = Some h ->
  next_directive h = Some (LinkSpec.directive a "" rest) ->
  PyStr.no_start "page_info=" a ("page_info=" ++ rest) = true ->
  rest = "" \/ PyStr.starts_with "&" rest = true \/
  PyStr.starts_with ">" rest = true ->
  all_products_loop (S fuel) self status all_products page_info w =
  all_products_loop fuel self status (all_products ++ products) (Some "")
                    (after_request w (all_request self status page_info)) /\
  all_request self status (Some "") = all_request self status None.
Proof.
  intros Hr Hdel Hne Hh Hlink Hfirst Hrest.
  pose proof Hdel as [Herr _]. split; [| reflexivity].
  cbn [all_products_loop]. rewrite loop_body_run. cbv zeta. rewrite Hr, Herr.
  rewrite (turn_of_directive r products h _ _ _ Hdel Hne Hh Hlink).
  unfold LinkSpec.directive.
  rewrite (token_of_link_value a "" rest Hfirst eq_refl eq_refl eq_refl Hrest).
  reflexivity.
Qed.

Lemma empty_token_restarts_witness :
  let r := Sample.page [Sample.shirt] (Some (Sample.link_to "page_info=&limit=250")) in
  let w := Sample.world_of [Reply r; Reply Sample.last_page] in
  all_products_loop 2 Sample.shop "active" [] None w =
  all_products_loop 1 Sample.shop "active" [Sample.shirt_record] (Some "")
                    (after_request w (all_request Sample.shop "active" None)) /\
  all_request Sample.shop "active" (Some "") = all_request Sample.shop "active" None.
Proof.
  cbv zeta.
  apply (empty_token_restarts
           (Sample.world_of
              [Reply (Sample.page [Sample.shirt]
                        (Some (Sample.link_to "page_info=&limit=250")));
               Reply Sample.last_page])
           Sample.shop "active"
           (Sample.page [Sample.shirt] (Some (Sample.link_to "page_info=&limit=250")))
           [Sample.shirt_record] [] None
           (Sample.link_to "page_info=&limit=250")
           "<https://demo.myshopify.com/admin/api/2023-10/products.json?"
           ("&limit=250>; " ++ rel_next)%string 1).
  - reflexivity.
  - split; [reflexivity |]. do 2 eexists. repeat split; reflexivity.
  - reflexivity.
  - reflexivity.
  - reflexivity.
  - reflexivity.
  - right; left; reflexivity.
Defined.

(** X8.  The loop has no bound of its own: as long as every answer of the
    remote is a non-empty page with a well-formed "next" marker,
    [get_all_products] neither returns nor raises, and each turn sends one
    more request. *)
Theorem get_all_products_unbounded {text} (w : world text) self status
        (r : response) (products : list Product) (fuel : nat) :
  (forall n req, remote w n req = Reply r) ->
  delivers r products ->
  is_empty r = false ->
  carries_next r = true ->
  exists w',
    get_all_products fuel self status w = (None, w') /\
    List.length (sent w') = List.length (sent w) + fuel.
Proof.
  intros Hremote Hdel Hne Hnext. unfold get_all_products.
  pose proof Hdel as [Herr _].
  destruct (turn_of_next r products Hdel Hne Hnext) as [tok Hturn].
  generalize (@nil Product) as acc. generalize (@None string) as pi.
  revert w Hremote. induction fuel as [| fuel IH]; intros w Hremote pi acc.
  - exists w. cbn. split; [reflexivity | lia].
  - cbn [all_products_loop]. rewrite loop_body_run. cbv zeta.
    unfold next_outcome. rewrite Hremote, Herr, Hturn.
    destruct (IH (after_request w (all_request self status pi)) Hremote
                 (Some tok) (acc ++ products)) as (w' & Hloop & Hlen).
    exists w'. split; [exact Hloop |].
    rewrite Hlen. cbn [after_request sent]. rewrite length_app. cbn. lia.
Qed.

Lemma get_all_products_unbounded_witness :
  let w := mkWorld (fun _ _ => Reply Sample.first_page) [] []
                   ([] : list (string * string)) Sample.no_directory in
  exists w',
    get_all_products 7 Sample.shop "active" w = (None, w') /\
    List.length (sent w') = List.length (sent w) + 7.
Proof.
  cbv zeta.
  apply (get_all_products_unbounded
           (mkWorld (fun _ _ => Reply Sample.first_page) [] []
                    ([] : list (string * string)) Sample.no_directory)
           Sample.shop "active" Sample.first_page
           [Sample.shirt_record; Sample.scarf_record] 7).
  - intros n req. reflexivity.
  - split; [reflexivity |]. do 2 eexists. repeat split; reflexivity.
  - reflexivity.
  - reflexivity.
Defined.

(** ** What the operations leave alone *)

(** X9.  No fetch operation writes a file: after [get_products],
    [search_products] or [get_all_products], with any outcome and after any
    number of requests, every file is as it was. *)
Theorem fetch_leaves_files {text} (w : world text) self
        (limit : Z) (status query : string) (fuel : nat) :
  files (snd (get_products self limit status w)) = files w /\
  files (snd (search_products self query limit w)) = files w /\
  files (snd (get_all_products fuel self status w)) = files w.
Proof.
  split; [| split].
  - rewrite get_products_run. cbv zeta.
    destruct (next_outcome w (get_request self limit status)) as [msg | r];
      [reflexivity |].
    destruct (http_error r); reflexivity.
  - rewrite search_products_run. cbv zeta.
    destruct (next_outcome w (search_request self query limit)) as [msg | r];
      [reflexivity |].
    destruct (http_error r); reflexivity.
  - apply (loop_frame self status fuel [] None w).
Qed.


(** ** Where requests go *)

(** X11.  A client made by [ShopifyAPI(shop_name, access_token)] sends every
    request of its three fetch operations to the products endpoint of
    [https://{shop_name}.myshopify.com], with the access token in the
    [X-Shopify-Access-Token] header. *)
Theorem requests_go_to_shop {text} (w : world text) (shop_name access_token : string)
        (limit : Z) (status query : string) (fuel : nat) :
  let self := Shopify.init shop_name access_token in
  (exists req,
      sent (snd (get_products self limit status w)) = sent w ++ [req] /\
      Wire.to_shop shop_name access_token req) /\
  (exists req,
      sent (snd (search_products self query limit w)) = sent w ++ [req] /\
      Wire.to_shop shop_name access_token req) /\
  (exists new,
      sent (snd (get_all_products fuel self status w)) = sent w ++ new /\
      Forall (Wire.to_shop shop_name access_token) new).
Proof.
  cbv zeta.
  assert (Hurl : products_url (Shopify.init shop_name access_token) =
                 Wire.endpoint shop_name).
  { unfold products_url, Shopify.init, Wire.endpoint. cbn [base_url].
    rewrite !string_app_assoc. reflexivity. }
  destruct (single_page_sends w (Shopify.init shop_name access_token)
                              limit status query) as [Hget Hsearch].
  split; [| split].
  - eexists. split; [exact Hget |].
    unfold Wire.to_shop, get_request. cbn [req_url req_headers].
    rewrite Hurl. repeat split.
  - eexists. split; [exact Hsearch |].
    unfold Wire.to_shop, search_request. cbn [req_url req_headers].
    rewrite Hurl. repeat split.
  - destruct (loop_requests (Shopify.init shop_name access_token) status fuel
                            [] None w) as (new & Hnew & Hall & _).
    exists new. split; [exact Hnew |].
    eapply Forall_impl; [| exact Hall]. cbn beta. intros req [token ->].
    unfold Wire.to_shop, all_request. cbn [req_url req_headers].
    rewrite Hurl. repeat split.
Qed.

(** X12.  Every request of [get_all_products] filters on the status given;
    the first carries no [page_info], and none ever carries an empty one. *)
Theorem paged_requests {text} (w : world text) self (status : string) (fuel : nat) :
  exists new,
    sent (snd (get_all_products fuel self status w)) = sent w ++ new /\
    Forall (Wire.paged status) new /\
    (fuel <> 0 ->
     exists first rest,
       new = first :: rest /\ Py.lookup "page_info" (req_params first) = None).
Proof.
  destruct (loop_requests self status fuel [] None w) as (new & Hnew & Hall & Hfirst).
  exists new. split; [exact Hnew |]. split.
  - eapply Forall_impl; [| exact Hall]. cbn beta. intros req [token ->].
    unfold Wire.paged, all_request, page_params, token_truthy. cbn [req_params].
    destruct token as [tok |]; [| split; [reflexivity | discriminate]].
    destruct (String.eqb_spec tok "") as [-> | Hne]; cbn [negb].
    + split; [reflexivity | discriminate].
    + split; [reflexivity |]. cbn. intros [= Heq]. contradiction.
  - intros Hfuel. destruct (Hfirst Hfuel) as [rest ->]. eauto.
Qed.

(** * Properties of the table *)

Section Table.

Import Display.

Variable repr : json -> string.

Lemma characters_app a b :
  characters (a ++ b) = characters a + characters b.
Proof.
  induction a as [| c a IH]; cbn [append characters]; [reflexivity |].
  destruct (continues c); rewrite IH; reflexivity.
Qed.

Lemma characters_blanks n : characters (times " " n) = n.
Proof. induction n as [| n IH]; cbn; [reflexivity | now rewrite IH]. Qed.

Lemma characters_upto : forall s n,
  characters (upto n s) = Nat.min n (characters s).
Proof.
  induction s as [| c s IH]; intros n; cbn [upto characters]; [lia |].
  destruct (continues c) eqn:Hc; cbn [characters]; rewrite ?Hc.
  - apply IH.
  - destruct n as [| n]; cbn [characters]; rewrite ?Hc, ?IH; lia.
Qed.

Lemma characters_take n s :
  characters (take n s) = Nat.min n (characters s).
Proof. destruct n as [| n]; [reflexivity | apply characters_upto]. Qed.

Lemma characters_ljust width s :
  characters (ljust width s) = Nat.max width (characters s).
Proof. unfold ljust. rewrite characters_app, characters_blanks. lia. Qed.

(** A text goes into its column as [column] says. *)
Lemma column_cell keep width s :
  (x <- shorten keep width (JStr s) ;; format_left width x)%result =
  Ok (column keep width s).
Proof.
  unfold shorten, column, len. cbn [rbind].
  destruct (Nat.ltb_spec width (characters s)) as [Hlt | Hge].
  - replace (Z.of_nat (characters s) >? Z.of_nat width)%Z with true
      by (symmetry; rewrite Z.gtb_ltb; apply Z.ltb_lt; lia).
    reflexivity.
  - replace (Z.of_nat (characters s) >? Z.of_nat width)%Z with false
      by (symmetry; rewrite Z.gtb_ltb; apply Z.ltb_ge; lia).
    reflexivity.
Qed.

(** A column that keeps at most [width - 3] characters is [width] wide. *)
Lemma characters_column keep width s :
  keep + 3 <= width -> characters (column keep width s) = width.
Proof.
  intros Hk. unfold column. rewrite characters_ljust.
  destruct (Nat.ltb_spec width (characters s)) as [Hlt | Hge].
  - rewrite characters_app, characters_take.
    change (characters "...") with 3. lia.
  - lia.
Qed.

(** Only a text passes both the cut and the format. *)
Lemma column_text keep width x cell :
  (y <- shorten keep width x ;; format_left width y)%result = Ok cell ->
  exists s, x = JStr s.
Proof.
  destruct x as [| b | z | s | l | d]; cbn; try discriminate; eauto.
  - unfold shorten, len. cbn [Py.len rbind].
    destruct (_ >? _)%Z; cbn; discriminate.
  - unfold shorten, len. cbn [Py.len rbind].
    destruct (_ >? _)%Z; cbn; discriminate.
Qed.

(** Printing in two goes is printing at once. *)
Lemma after_lines_app {text} (w : world text) (first second : list string) :
  after_lines (after_lines w first) second = after_lines w (first ++ second).
Proof. unfold after_lines. cbn. now rewrite app_assoc. Qed.

Lemma after_lines_nil {text} (w : world text) : after_lines w [] = w.
Proof. destruct w. unfold after_lines. cbn. now rewrite app_nil_r. Qed.

(** The rows of records that can all be shown are printed in order. *)
Lemma print_rows_ok {text} products : forall rows (w : world text),
  Forall2 (fun product row => row_of repr product = Ok row) products rows ->
  print_rows repr products w = (Ok tt, after_lines w rows).
Proof.
  induction products as [| product products IH]; intros rows w Hrows;
    inversion Hrows as [| ? row ? rows' Hrow Hrest]; subst.
  - cbn. now rewrite after_lines_nil.
  - cbn [print_rows]. unfold bind at 1, lift. rewrite Hrow.
    unfold bind at 1, print.
    change (mkWorld (remote w) (sent w) (stdout w ++ [row]) (files w) (writable w))
      with (after_lines w [row]).
    rewrite (IH rows' _ Hrest), after_lines_app. reflexivity.
Qed.

(** The loop stops at the first record whose row cannot be made. *)
Lemma print_rows_stops {text} shown product rest e : forall rows (w : world text),
  Forall2 (fun product row => row_of repr product = Ok row) shown rows ->
  row_of repr product = Raise e ->
  print_rows repr (shown ++ product :: rest) w = (Raise e, after_lines w rows).
Proof.
  induction shown as [| first shown IH]; intros rows w Hrows Hraise;
    inversion Hrows as [| ? row ? rows' Hrow Hrest]; subst.
  - cbn [app print_rows]. unfold bind at 1, lift. rewrite Hraise.
    now rewrite after_lines_nil.
  - cbn [app print_rows]. unfold bind at 1, lift. rewrite Hrow.
    unfold bind at 1, print.
    change (mkWorld (remote w) (sent w) (stdout w ++ [row]) (files w) (writable w))
      with (after_lines w [row]).
    rewrite (IH rows' _ Hrest Hraise), after_lines_app. reflexivity.
Qed.

(** What [display_products] does on a list that is not empty. *)
Lemma display_products_run {text} products (w : world text) :
  products <> [] ->
  display_products repr products w =
  print_rows repr products (after_lines w (banner (List.length products))).
Proof.
  destruct products as [| product products]; [contradiction |]. intros _.
  unfold display_products, bind at 1 2 3 4 5, print.
  cbn [remote sent stdout files]. unfold after_lines, banner.
  rewrite <- !app_assoc. reflexivity.
Qed.

(** The row of a record that can be shown. *)
Lemma row_of_presentable product :
  presentable product = true -> exists row, row_of repr product = Ok row.
Proof.
  unfold presentable, row_of. intros H.
  repeat (apply andb_prop in H as [H ?]).
  destruct (title product) as [| | | s1 | |]; try discriminate.
  destruct (vendor product) as [| | | s2 | |]; try discriminate.
  destruct (product_type product) as [| | | s3 | |]; try discriminate.
  pose proof (column_cell 27 30 s1) as Hc1.
  pose proof (column_cell 12 15 s2) as Hc2.
  pose proof (column_cell 12 15 s3) as Hc3.
  destruct (shorten 27 30 (JStr s1)) as [x1 | e1]; [| discriminate].
  destruct (shorten 12 15 (JStr s2)) as [x2 | e2]; [| discriminate].
  destruct (shorten 12 15 (JStr s3)) as [x3 | e3]; [| discriminate].
  cbn [rbind] in *.
  destruct (id product); try discriminate;
    destruct (status product); try discriminate;
    cbn [format_left rbind]; rewrite Hc1, Hc2, Hc3; cbn [rbind]; eauto.
Qed.

Lemma rows_of_presentable products :
  Forall (fun product => presentable product = true) products ->
  exists rows, Forall2 (fun product row => row_of repr product = Ok row) products rows.
Proof.
  induction 1 as [| product products Hp _ [rows IH]]; [exists []; constructor |].
  destruct (row_of_presentable product Hp) as [row Hrow].
  exists (row :: rows). now constructor.
Qed.

(** A cell that was cut and formatted is the column of a text. *)
Lemma column_inv keep width x y cell :
  shorten keep width x = Ok y -> format_left width y = Ok cell ->
  exists s, x = JStr s /\ cell = column keep width s.
Proof.
  intros Hcut Hcell.
  assert (Hboth : (y <- shorten keep width x ;; format_left width y)%result = Ok cell)
    by (rewrite Hcut; exact Hcell).
  destruct (column_text keep width x cell Hboth) as [s ->].
  rewrite column_cell in Hboth. injection Hboth as <-. eauto.
Qed.

Lemma format_left_wide width x cell :
  format_left width x = Ok cell -> width <= characters cell.
Proof.
  destruct x; cbn; try discriminate; intros [= <-]; rewrite characters_ljust; lia.
Qed.

Lemma format_left_has_format width x cell :
  format_left width x = Ok cell -> has_format x = true.
Proof. destruct x; cbn; try discriminate; reflexivity. Qed.

(** The parts of a row that could be made. *)
Lemma row_of_ok product row :
  row_of repr product = Ok row ->
  exists id_cell s1 s2 s3 status_cell,
    title product = JStr s1 /\ vendor product = JStr s2 /\
    product_type product = JStr s3 /\
    format_left 12 (id product) = Ok id_cell /\
    format_left 10 (status product) = Ok status_cell /\
    row = (id_cell ++ " " ++ column 27 30 s1 ++ " " ++ column 12 15 s2 ++ " " ++
           column 12 15 s3 ++ " " ++
           ljust 10 (price_text repr (price product)) ++ " " ++ status_cell)%string.
Proof.
  unfold row_of.
  destruct (shorten 27 30 (title product)) as [x1 |] eqn:E1; [| discriminate].
  destruct (shorten 12 15 (vendor product)) as [x2 |] eqn:E2; [| discriminate].
  destruct (shorten 12 15 (product_type product)) as [x3 |] eqn:E3; [| discriminate].
  cbn [rbind].
  destruct (format_left 12 (id product)) as [id_cell |] eqn:Fid; [| discriminate].
  destruct (format_left 30 x1) as [c1 |] eqn:F1; [| discriminate].
  destruct (format_left 15 x2) as [c2 |] eqn:F2; [| discriminate].
  destruct (format_left 15 x3) as [c3 |] eqn:F3; [| discriminate].
  cbn [rbind].
  destruct (format_left 10 (status product)) as [status_cell |] eqn:Fst;
    [| discriminate].
  cbn [rbind]. intros [= <-].
  destruct (column_inv _ _ _ _ _ E1 F1) as (s1 & Ht & ->).
  destruct (column_inv _ _ _ _ _ E2 F2) as (s2 & Hv & ->).
  destruct (column_inv _ _ _ _ _ E3 F3) as (s3 & Hp & ->).
  exists id_cell, s1, s2, s3, status_cell. repeat split; assumption.
Qed.

(** In the embedding every failure of a row is a [TypeError]. *)
Lemma row_of_raises product e : row_of repr product = Raise e -> e = TypeError.
Proof.
  assert (Hcut : forall keep width x e', shorten keep width x = Raise e' ->
                                         e' = TypeError).
  { intros keep width x e'. unfold shorten, len.
    destruct x; cbn [Py.len rbind]; try (intros [= <-]; reflexivity);
      destruct (_ >? _)%Z; intros [= <-]; reflexivity. }
  assert (Hfmt : forall width x e', format_left width x = Raise e' ->
                                    e' = TypeError).
  { intros width x e'. destruct x; cbn; intros [= <-]; reflexivity. }
  unfold row_of.
  destruct (shorten 27 30 (title product)) as [x1 | e1] eqn:E1;
    [| intros [= <-]; eauto].
  destruct (shorten 12 15 (vendor product)) as [x2 | e2] eqn:E2;
    [| intros [= <-]; eauto].
  destruct (shorten 12 15 (product_type product)) as [x3 | e3] eqn:E3;
    [| intros [= <-]; eauto].
  cbn [rbind].
  destruct (format_left 12 (id product)) as [? | ?] eqn:Fid;
    [| intros [= <-]; eauto].
  destruct (format_left 30 x1) as [? | ?] eqn:F1; [| intros [= <-]; eauto].
  destruct (format_left 15 x2) as [? | ?] eqn:F2; [| intros [= <-]; eauto].
  destruct (format_left 15 x3) as [? | ?] eqn:F3; [| intros [= <-]; eauto].
  cbn [rbind].
  destruct (format_left 10 (status product)) as [? | ?] eqn:Fst;
    [discriminate | intros [= <-]; eauto].
Qed.

(** A record that cannot be shown has no row. *)
Lemma row_of_unpresentable product :
  presentable product = false -> row_of repr product = Raise TypeError.
Proof.
  intros Hno. destruct (row_of repr product) as [row | e] eqn:Hrow.
  - destruct (row_of_ok product row Hrow)
      as (id_cell & s1 & s2 & s3 & status_cell & Ht & Hv & Hp & Hid & Hst & _).
    unfold presentable in Hno.
    rewrite Ht, Hv, Hp, (format_left_has_format _ _ _ Hid),
      (format_left_has_format _ _ _ Hst) in Hno.
    discriminate.
  - now rewrite (row_of_raises product e Hrow).
Qed.

End Table.

(** X13.  [display_products] never raises on records whose title, vendor and
    type are texts and whose id and status are texts or numbers: for a list
    that is not empty it prints the five lines of the banner, with the
    number of records in the second, then one row for each record, in the
    order of the list; it sends no request and writes no file. *)
Theorem display_prints_table {text} (repr : json -> string) (w : world text)
        (products : list Product) :
  products <> [] ->
  Forall (fun product => Display.presentable product = true) products ->
  exists rows,
    Forall2 (fun product row => Display.row_of repr product = Ok row) products rows /\
    Display.display_products repr products w =
    (Ok tt, Display.after_lines w (Display.banner (List.length products) ++ rows)).
Proof.
  intros Hne Hall. destruct (rows_of_presentable repr products Hall) as [rows Hrows].
  exists rows. split; [exact Hrows |].
  rewrite (display_products_run repr products w Hne).
  rewrite (print_rows_ok repr products rows _ Hrows), after_lines_app.
  reflexivity.
Qed.

Lemma display_prints_table_witness :
  exists rows,
    Forall2 (fun product row => Display.row_of (fun _ => "") product = Ok row)
            [Sample.shirt_record; Sample.socks_record] rows /\
    Display.display_products (fun _ => "") [Sample.shirt_record; Sample.socks_record]
                             (Sample.world_of []) =
    (Ok tt, Display.after_lines (Sample.world_of [])
                                (Display.banner 2 ++ rows)).
Proof.
  apply (display_prints_table (fun _ => "") (Sample.world_of [])
           [Sample.shirt_record; Sample.socks_record]).
  - discriminate.
  - repeat constructor.
Defined.

(** X14.  A row is printed only for a record whose title, vendor and type
    are texts, and the table stays aligned whatever their lengths: counted
    in characters, as Python counts them, the title takes 30, vendor and
    type 15 each (a longer text is cut to 27 or 12 characters and three
    dots), so the row is at least 97 characters long and longer only when
    the id, the price or the status overflows its column. *)
Theorem row_keeps_columns (repr : json -> string) (product : Product) (row : string) :
  Display.row_of repr product = Ok row ->
  exists id_cell title_text vendor_text type_text status_cell,
    title product = JStr title_text /\
    vendor product = JStr vendor_text /\
    product_type product = JStr type_text /\
    row = (id_cell ++ " " ++ Display.column 27 30 title_text ++ " " ++
           Display.column 12 15 vendor_text ++ " " ++
           Display.column 12 15 type_text ++ " " ++
           Display.ljust 10 (Display.price_text repr (price product)) ++ " " ++
           status_cell)%string /\
    Display.characters (Display.column 27 30 title_text) = 30 /\
    Display.characters (Display.column 12 15 vendor_text) = 15 /\
    Display.characters (Display.column 12 15 type_text) = 15 /\
    12 <= Display.characters id_cell /\
    10 <= Display.characters status_cell /\
    97 <= Display.characters row /\
    (Display.characters id_cell = 12 ->
     Display.characters (Display.price_text repr (price product)) <= 10 ->
     Display.characters status_cell = 10 ->
     Display.characters row = 97).
Proof.
  intros Hrow.
  destruct (row_of_ok repr product row Hrow)
    as (id_cell & s1 & s2 & s3 & status_cell & Ht & Hv & Hp & Hid & Hst & ->).
  exists id_cell, s1, s2, s3, status_cell.
  pose proof (characters_column 27 30 s1 ltac:(lia)) as L1.
  pose proof (characters_column 12 15 s2 ltac:(lia)) as L2.
  pose proof (characters_column 12 15 s3 ltac:(lia)) as L3.
  pose proof (format_left_wide _ _ _ Hid) as Lid.
  pose proof (format_left_wide _ _ _ Hst) as Lst.
  pose proof (characters_ljust 10 (Display.price_text repr (price product))) as Lpr.
  change (Display.characters " ") with 1 in *.
  repeat split; try assumption;
    rewrite !characters_app, L1, L2, L3, Lpr;
    change (Display.characters " ") with 1; lia.
Qed.

Lemma row_keeps_columns_witness :
  let product := Sample.dessert in
  let row := Sample.dessert_row in
  exists id_cell title_text vendor_text type_text status_cell,
    title product = JStr title_text /\
    vendor product = JStr vendor_text /\
    product_type product = JStr type_text /\
    row = (id_cell ++ " " ++ Display.column 27 30 title_text ++ " " ++
           Display.column 12 15 vendor_text ++ " " ++
           Display.column 12 15 type_text ++ " " ++
           Display.ljust 10 (Display.price_text Desk.no_repr (price product)) ++
           " " ++ status_cell)%string /\
    Display.characters (Display.column 27 30 title_text) = 30 /\
    Display.characters (Display.column 12 15 vendor_text) = 15 /\
    Display.characters (Display.column 12 15 type_text) = 15 /\
    12 <= Display.characters id_cell /\
    10 <= Display.characters status_cell /\
    97 <= Display.characters row /\
    (Display.characters id_cell = 12 ->
     Display.characters (Display.price_text Desk.no_repr (price product)) <= 10 ->
     Display.characters status_cell = 10 ->
     Display.characters row = 97).
Proof.
  cbv zeta.
  apply (row_keeps_columns Desk.no_repr Sample.dessert Sample.dessert_row).
  vm_compute. reflexivity.
Defined.

(** X15.  [from_dict] lets a null pass that [display_products] cannot show:
    at the first record whose title, vendor or type is not a text, or whose
    id or status is neither a text nor a number, [display_products] raises
    [TypeError] (none of the three cut fields being a dict, whose slicing
    raises an exception of its own).  The banner, which counts this record
    and those after it, and the rows of the records before it have been
    printed by then. *)
Theorem display_stops_at_unpresentable {text} (repr : json -> string)
        (w : world text) (shown rest : list Product) (product : Product) :
  Forall (fun product => Display.presentable product = true) shown ->
  Display.presentable product = false ->
  Display.flat product = true ->
  exists rows,
    Forall2 (fun product row => Display.row_of repr product = Ok row) shown rows /\
    Display.display_products repr (shown ++ product :: rest) w =
    (Raise TypeError,
     Display.after_lines
       w (Display.banner (List.length shown + 1 + List.length rest) ++ rows)).
Proof.
  intros Hall Hno _. destruct (rows_of_presentable repr shown Hall) as [rows Hrows].
  exists rows. split; [exact Hrows |].
  rewrite display_products_run by (destruct shown; discriminate).
  rewrite (print_rows_stops repr shown product rest TypeError rows _ Hrows
             (row_of_unpresentable repr product Hno)).
  rewrite after_lines_app, length_app. cbn [List.length].
  replace (List.length shown + S (List.length rest))
    with (List.length shown + 1 + List.length rest) by lia.
  reflexivity.
Qed.

Lemma display_stops_at_unpresentable_witness :
  let entry := [("id", JInt 4); ("title", JStr "cap"); ("handle", JStr "cap");
                ("vendor", JNull); ("product_type", JStr "Apparel");
                ("status", JStr "active")] in
  let cap := mkProduct (JInt 4) (JStr "cap") (JStr "cap") JNull (JStr "Apparel")
                       (JStr "active") JNull JNull in
  from_dict (JObj entry) = Ok cap /\
  exists rows,
    Forall2 (fun product row => Display.row_of (fun _ => "") product = Ok row)
            [Sample.shirt_record] rows /\
    Display.display_products (fun _ => "") ([Sample.shirt_record] ++ cap :: [Sample.socks_record])
                             (Sample.world_of []) =
    (Raise TypeError,
     Display.after_lines (Sample.world_of []) (Display.banner (1 + 1 + 1) ++ rows)).
Proof.
  cbv zeta. split; [reflexivity |].
  apply (display_stops_at_unpresentable (fun _ => "") (Sample.world_of [])
           [Sample.shirt_record] [Sample.socks_record]
           (mkProduct (JInt 4) (JStr "cap") (JStr "cap") JNull (JStr "Apparel")
                      (JStr "active") JNull JNull)).
  - repeat constructor.
  - reflexivity.
  - reflexivity.
Defined.

(** * Properties of the menu *)

Section Menu.

Import Frame.

Context {text : Type}.
Variable repr : json -> string.
Variable codec : json_codec text.
Variable strip : string -> string.
Variable getenv : string -> option string.
Variable pages : nat.

(** ** Relations that every step keeps *)

Section Keeping.

(** A relation between the world before and after, that holds when nothing
    happens and from step to step; and what is known of the lines typed. *)
Variable related : world text -> world text -> Prop.
Variable typed : string -> Prop.
Hypothesis related_refl : forall w, related w w.
Hypothesis related_trans : forall w1 w2 w3,
    related w1 w2 -> related w2 w3 -> related w1 w3.


Lemma follows_refl s : Frame.follows related s s.
Proof. split; [apply related_refl | now exists []]. Qed.

Lemma follows_trans s1 s2 s3 : Frame.follows related s1 s2 -> Frame.follows related s2 s3 -> Frame.follows related s1 s3.
Proof.
  intros [H12 [u12 E12]] [H23 [u23 E23]]. split; [eauto |].
  exists (u12 ++ u23). now rewrite E12, E23, app_assoc.
Qed.

Lemma follows_typed s s' :
  Frame.follows related s s' -> Forall typed (Console.stdin s) -> Forall typed (Console.stdin s').
Proof. intros [_ [used E]] H. rewrite E in H. now apply Forall_app in H. Qed.

Lemma keeps_ret {A} (a : A) : Frame.keeps related typed (Console.ret a).
Proof. intros s _. apply follows_refl. Qed.

Lemma keeps_bind {A B} (m : Console.C A) (k : A -> Console.C B) :
  Frame.keeps related typed m -> (forall a, Frame.keeps related typed (k a)) -> Frame.keeps related typed (Console.bind m k).
Proof.
  intros Hm Hk s Hs. unfold Console.bind. specialize (Hm s Hs).
  destruct (m s) as [[a | h] s1]; cbn [snd] in *; [| exact Hm].
  eapply follows_trans; [exact Hm |]. apply Hk. eapply follows_typed; eauto.
Qed.

Lemma keeps_input prompt : Frame.keeps related typed (Console.input prompt).
Proof.
  intros s _. unfold Console.input.
  destruct (Console.stdin s) as [| line rest] eqn:E; split; cbn;
    try apply related_refl.
  - now exists [].
  - now exists [line].
Qed.

(** What Frame.follows related an [input] may rely on what is known of the line. *)
Lemma keeps_input_bind {B} prompt (k : string -> Console.C B) :
  (forall line, typed line -> Frame.keeps related typed (k line)) ->
  Frame.keeps related typed (Console.bind (Console.input prompt) k).
Proof.
  intros Hk s Hs. unfold Console.bind, Console.input.
  destruct (Console.stdin s) as [| line rest] eqn:E.
  - split; cbn; [apply related_refl | now exists []].
  - inversion Hs as [| ? ? Hline Hrest]; subst.
    eapply follows_trans; [| apply (Hk line Hline); exact Hrest].
    split; cbn; [apply related_refl | exists [line]; now rewrite E].
Qed.

Lemma keeps_run {A} (m : M (text:=text) A) :
  (forall w, related w (snd (m w))) -> Frame.keeps related typed (Console.run m).
Proof.
  intros Hm s _. unfold Console.run. specialize (Hm (Console.world_of s)).
  destruct (m (Console.world_of s)) as [[a | e] w]; split; cbn in *; try exact Hm;
    now exists [].
Qed.

Lemma keeps_run_loop {A} (m : world text -> option (result A) * world text) :
  (forall w, related w (snd (m w))) -> Frame.keeps related typed (Console.run_loop m).
Proof.
  intros Hm s _. unfold Console.run_loop. specialize (Hm (Console.world_of s)).
  destruct (m (Console.world_of s)) as [[[a | e] |] w]; split; cbn in *;
    try exact Hm; now exists [].
Qed.

End Keeping.

(** ** What the steps of the fetcher keep *)


Lemma same_files_refl (w : world text) : same_files w w.
Proof. split; reflexivity. Qed.

Lemma same_files_trans (w1 w2 w3 : world text) :
  same_files w1 w2 -> same_files w2 w3 -> same_files w1 w3.
Proof. intros [] []. split; congruence. Qed.

Lemma sends_refl P (w : world text) : sends P w w.
Proof. exists []. now rewrite app_nil_r. Qed.

Lemma sends_trans P (w1 w2 w3 : world text) : sends P w1 w2 -> sends P w2 w3 -> sends P w1 w3.
Proof.
  intros (n1 & E1 & F1) (n2 & E2 & F2). exists (n1 ++ n2). split.
  - now rewrite E2, E1, app_assoc.
  - apply Forall_app. now split.
Qed.

(** [display_products] only prints. *)
Lemma print_rows_lines products : forall w : world text,
  exists lines, snd (Display.print_rows repr products w) = Display.after_lines w lines.
Proof.
  induction products as [| product products IH]; intros w.
  - exists []. cbn. now rewrite after_lines_nil.
  - cbn [Display.print_rows]. unfold bind at 1, lift.
    destruct (Display.row_of repr product) as [row | e].
    + unfold bind at 1, print.
      destruct (IH (Display.after_lines w [row])) as [lines Hl].
      exists (row :: lines).
      change (mkWorld (remote w) (sent w) (stdout w ++ [row]) (files w) (writable w))
        with (Display.after_lines w [row]).
      rewrite Hl, after_lines_app. reflexivity.
    + exists []. cbn. now rewrite after_lines_nil.
Qed.

Lemma display_lines products (w : world text) :
  exists lines,
    snd (Display.display_products repr products w) = Display.after_lines w lines.
Proof.
  destruct products as [| product products].
  - exists ["No products found."]. reflexivity.
  - rewrite (display_products_run repr (product :: products) w) by discriminate.
    destruct (print_rows_lines (product :: products)
                (Display.after_lines w (Display.banner (List.length (product :: products)))))
      as [lines Hl].
    rewrite Hl, after_lines_app. eauto.
Qed.

(** The steps of the fetcher write no file. *)
Lemma print_same_files line (w : world text) : same_files w (snd (print line w)).
Proof. split; reflexivity. Qed.

Lemma display_same_files products (w : world text) :
  same_files w (snd (Display.display_products repr products w)).
Proof. destruct (display_lines products w) as [lines ->]. split; reflexivity. Qed.

Lemma get_products_same_files self limit status (w : world text) :
  same_files w (snd (get_products self limit status w)).
Proof.
  rewrite get_products_run. cbv zeta.
  destruct (next_outcome w (get_request self limit status)) as [msg | r];
    [split; reflexivity |].
  destruct (http_error r); split; reflexivity.
Qed.

Lemma search_products_same_files self query limit (w : world text) :
  same_files w (snd (search_products self query limit w)).
Proof.
  rewrite search_products_run. cbv zeta.
  destruct (next_outcome w (search_request self query limit)) as [msg | r];
    [split; reflexivity |].
  destruct (http_error r); split; reflexivity.
Qed.

Lemma get_all_products_same_files self status fuel (w : world text) :
  same_files w (snd (get_all_products fuel self status w)).
Proof. apply (loop_frame self status fuel [] None w). Qed.


Lemma print_sends P line (w : world text) : sends P w (snd (print line w)).
Proof. exists []. cbn. now rewrite app_nil_r. Qed.

Lemma display_sends P products (w : world text) :
  sends P w (snd (Display.display_products repr products w)).
Proof.
  destruct (display_lines products w) as [lines ->]. exists []. cbn.
  now rewrite app_nil_r.
Qed.

(** What [export_to_json] comes to, by the path and the text. *)
Lemma export_to_json_run products filename (w : world text) :
  Exporting.export_to_json codec products filename w =
  let value := JList (map Exporting.product_dict products) in
  if writable w filename then
    match cut codec value with
    | None =>
        (Ok tt,
         mkWorld (remote w) (sent w)
                 (stdout w ++
                  [(Exporting.newline ++ "Products exported to " ++ filename)%string])
                 ((filename, dump codec value) :: files w) (writable w))
    | Some written =>
        (Raise UnicodeEncodeError,
         mkWorld (remote w) (sent w) (stdout w) ((filename, written) :: files w)
                 (writable w))
    end
  else (Raise (OSError filename), w).
Proof.
  cbv zeta. unfold Exporting.export_to_json, bind, write_file, print,
    Exporting.json_dump.
  rewrite collect_map. cbn [app].
  destruct (writable w filename); [| reflexivity].
  destruct (cut codec (JList (map Exporting.product_dict products)));
    reflexivity.
Qed.

Lemma export_sends P products filename (w : world text) :
  sends P w (snd (Exporting.export_to_json codec products filename w)).
Proof.
  rewrite export_to_json_run. cbv zeta. exists [].
  destruct (writable w filename);
    [destruct (cut codec (JList (map Exporting.product_dict products))) |];
    cbn; now rewrite app_nil_r.
Qed.

Lemma get_products_sends self limit status (w : world text) :
  sends (request_of self) w (snd (get_products self limit status w)).
Proof.
  destruct (single_page_sends w self limit status "") as [Hget _].
  eexists. split; [exact Hget |]. constructor; [| constructor]. left. eauto.
Qed.

Lemma search_products_sends self query limit (w : world text) :
  sends (request_of self) w (snd (search_products self query limit w)).
Proof.
  destruct (single_page_sends w self limit "" query) as [_ Hsearch].
  eexists. split; [exact Hsearch |]. constructor; [| constructor]. right. left. eauto.
Qed.

Lemma get_all_products_sends self status fuel (w : world text) :
  sends (request_of self) w (snd (get_all_products fuel self status w)).
Proof.
  destruct (loop_requests self status fuel [] None w) as (new & Hnew & Hall & _).
  exists new. split; [exact Hnew |].
  eapply Forall_impl; [| exact Hall]. cbn beta. intros req [token ->].
  right. right. eauto.
Qed.

(** ** The menu, turn by turn *)

Ltac keep_with related typed related_refl related_trans :=
  repeat first
    [ apply (keeps_bind related typed related_trans); [| intros ?]
    | apply (keeps_ret related typed related_refl)
    | apply (keeps_input related typed related_refl)
    | apply (keeps_run related typed); intros ?
    | apply (keeps_run_loop related typed); intros ?
    | apply print_same_files
    | apply display_same_files
    | apply get_products_same_files
    | apply search_products_same_files
    | apply get_all_products_same_files
    | apply print_sends
    | apply display_sends
    | apply export_sends
    | apply get_products_sends
    | apply search_products_sends
    | apply get_all_products_sends ].


Ltac keep_files :=
  keep_with (@same_files text) (no_export strip) same_files_refl same_files_trans.

Ltac keep_sends self typed :=
  keep_with (@sends text (request_of self)) typed
            (sends_refl (request_of self)) (sends_trans (request_of self)).

(** Only the fourth option writes a file. *)
Lemma dispatch_same_files api choice :
  choice <> "4" ->
  keeps same_files (no_export strip) (Console.dispatch repr codec strip pages api choice).
Proof.
  intros Hchoice. unfold Console.dispatch.
  destruct (String.eqb choice "1"); [keep_files |].
  destruct (String.eqb choice "2"); [keep_files |].
  destruct (String.eqb choice "3").
  { keep_files. destruct (negb _); keep_files. }
  destruct (String.eqb_spec choice "4"); [contradiction |].
  destruct (String.eqb choice "5"); keep_files.
Qed.

(** Every request of a turn is one of the client's. *)
Lemma dispatch_sends typed api choice :
  keeps (sends (request_of api)) typed
        (Console.dispatch repr codec strip pages api choice).
Proof.
  unfold Console.dispatch.
  destruct (String.eqb choice "1"); [keep_sends api typed |].
  destruct (String.eqb choice "2"); [keep_sends api typed |].
  destruct (String.eqb choice "3").
  { keep_sends api typed. destruct (negb _); keep_sends api typed. }
  destruct (String.eqb choice "4").
  { keep_sends api typed.
    match goal with
    | |- context [match ?p with _ => _ end] => destruct p
    end; keep_sends api typed. }
  destruct (String.eqb choice "5"); keep_sends api typed.
Qed.

Lemma menu_turn_same_files api :
  keeps same_files (no_export strip) (Console.menu_turn repr codec strip pages api).
Proof.
  unfold Console.menu_turn.
  do 6 (apply (keeps_bind same_files (no_export strip) same_files_trans);
        [keep_files | intros ?]).
  apply (keeps_input_bind same_files (no_export strip) same_files_refl same_files_trans).
  intros line Hline. apply dispatch_same_files. exact Hline.
Qed.

Lemma menu_turn_sends typed api :
  keeps (sends (request_of api)) typed
        (Console.menu_turn repr codec strip pages api).
Proof.
  unfold Console.menu_turn.
  do 6 (apply (keeps_bind _ typed (sends_trans _));
        [keep_sends api typed | intros ?]).
  apply (keeps_input_bind _ typed (sends_refl _) (sends_trans _)).
  intros line _. apply dispatch_sends.
Qed.

Lemma menu_loop_same_files api turns :
  keeps same_files (no_export strip) (Console.menu_loop repr codec strip pages turns api).
Proof.
  induction turns as [| turns IH]; cbn [Console.menu_loop].
  - intros s _. apply (follows_refl same_files same_files_refl).
  - apply (keeps_bind same_files (no_export strip) same_files_trans);
      [apply menu_turn_same_files |].
    intros [|]; [apply (keeps_ret same_files (no_export strip) same_files_refl) | exact IH].
Qed.

Lemma menu_loop_sends typed api turns :
  keeps (sends (request_of api)) typed
        (Console.menu_loop repr codec strip pages turns api).
Proof.
  induction turns as [| turns IH]; cbn [Console.menu_loop].
  - intros s _. apply (follows_refl _ (sends_refl _)).
  - apply (keeps_bind _ typed (sends_trans _)); [apply menu_turn_sends |].
    intros [|]; [apply (keeps_ret _ typed (sends_refl _)) | exact IH].
Qed.

(** ** The whole of [main] *)

Lemma ask_if_missing_keeps related typed
      (related_refl : forall w : world text, related w w)
      (related_trans : forall w1 w2 w3 : world text,
          related w1 w2 -> related w2 w3 -> related w1 w3) value prompt :
  keeps related typed (Console.ask_if_missing strip value prompt).
Proof.
  unfold Console.ask_if_missing. destruct (Console.missing value).
  - apply (keeps_bind related typed related_trans);
      [apply (keeps_input related typed related_refl) | intros line].
    apply (keeps_ret related typed related_refl).
  - apply (keeps_ret related typed related_refl).
Qed.

Lemma main_same_files turns :
  keeps same_files (no_export strip) (Console.main repr codec strip getenv pages turns).
Proof.
  unfold Console.main.
  do 2 (apply (keeps_bind same_files (no_export strip) same_files_trans);
        [keep_files | intros ?]).
  do 2 (apply (keeps_bind same_files (no_export strip) same_files_trans);
        [apply (ask_if_missing_keeps _ _ same_files_refl same_files_trans)
        | intros ?]).
  destruct (_ || _); [keep_files | apply menu_loop_same_files].
Qed.

(** What asking for a credential comes to: the world is left alone, and a
    value of the environment is kept. *)
Lemma ask_if_missing_result value prompt (s : Console.session text) :
  let s' := snd (Console.ask_if_missing strip value prompt s) in
  Console.world_of s' = Console.world_of s /\
  (exists used, Console.stdin s = used ++ Console.stdin s') /\
  (fst (Console.ask_if_missing strip value prompt s) = Console.Halt Console.EndOfInput \/
   exists v, fst (Console.ask_if_missing strip value prompt s) = Console.Done v /\
             (Console.missing value = false -> v = value)).
Proof.
  cbv zeta. unfold Console.ask_if_missing.
  destruct (Console.missing value) eqn:Hm.
  - unfold Console.bind, Console.input.
    destruct (Console.stdin s) as [| line rest] eqn:E; cbn.
    + split; [reflexivity |]. split; [now exists [] | now left].
    + split; [reflexivity |]. split; [now exists [line] |].
      right. eexists. split; [reflexivity | discriminate].
  - cbn. split; [reflexivity |]. split; [now exists [] |].
    right. eexists. split; [reflexivity | reflexivity].
Qed.

(** A request of the client made for a shop goes to that shop. *)
Lemma request_of_to_shop shop_name access_token req :
  request_of (Shopify.init shop_name access_token) req ->
  Wire.to_shop shop_name access_token req.
Proof.
  assert (Hurl : products_url (Shopify.init shop_name access_token) =
                 Wire.endpoint shop_name).
  { unfold products_url, Shopify.init, Wire.endpoint. cbn [base_url].
    rewrite !string_app_assoc. reflexivity. }
  intros [(limit & status & ->) | [(query & limit & ->) | (status & token & ->)]];
    unfold Wire.to_shop, get_request, search_request, all_request;
    cbn [req_url req_headers]; rewrite Hurl; repeat split.
Qed.

Lemma missing_given value :
  Console.missing value = false -> value = Some (Console.given value) /\
                                   Console.given value <> "".
Proof.
  destruct value as [v |]; cbn; [| discriminate].
  destruct (String.eqb_spec v ""); [discriminate | auto].
Qed.

(** The ways [main] can go: it stops before the menu, having left the world
    alone but for what it printed, or it runs the menu for a client whose
    credentials are complete. *)
Lemma main_cases turns (s s' : Console.session text) r :
  Console.main repr codec strip getenv pages turns s = (r, s') ->
  (exists lines,
      Console.world_of s' = Display.after_lines (Console.world_of s) lines /\
      (r = Console.Done tt -> last lines "" = Console.credentials_required)) \/
  (exists shop_name access_token s1 lines,
      shop_name <> "" /\ access_token <> "" /\
      (Console.missing (getenv "SHOPIFY_SHOP_NAME") = false ->
       getenv "SHOPIFY_SHOP_NAME" = Some shop_name) /\
      (Console.missing (getenv "SHOPIFY_ACCESS_TOKEN") = false ->
       getenv "SHOPIFY_ACCESS_TOKEN" = Some access_token) /\
      Console.world_of s1 = Display.after_lines (Console.world_of s) lines /\
      (exists used, Console.stdin s = used ++ Console.stdin s1) /\
      Console.menu_loop repr codec strip pages turns
                        (Shopify.init shop_name access_token) s1 = (r, s')).
Proof.
  unfold Console.main.
  unfold Console.bind at 1, Console.run at 1, print at 1. cbn [Console.world_of].
  unfold Console.bind at 1, Console.run at 1, print at 1.
  cbn [Console.world_of Console.with_world remote sent stdout files].
  match goal with
  | |- context [Console.bind (Console.ask_if_missing strip ?v ?p) ?k ?s0] =>
      set (s2 := s0);
      assert (Hs2 : Console.world_of s2 =
                    Display.after_lines (Console.world_of s)
                                        [Console.title_line; Display.times "=" 50])
        by (unfold s2, Display.after_lines; cbn; now rewrite <- app_assoc);
      assert (Hin2 : Console.stdin s2 = Console.stdin s) by reflexivity;
      clearbody s2
  end.
  unfold Console.bind at 1.
  pose proof (ask_if_missing_result (getenv "SHOPIFY_SHOP_NAME")
                                    Console.shop_prompt s2) as Hname.
  cbv zeta in Hname.
  destruct (Console.ask_if_missing strip (getenv "SHOPIFY_SHOP_NAME")
                                   Console.shop_prompt s2) as [[name | h] s3].
  2:{ intros [= <- <-]. left. cbn [fst snd] in *. destruct Hname as (Hw & _ & _).
      exists [Console.title_line; Display.times "=" 50].
      split; [rewrite Hw; exact Hs2 | intros Hd; discriminate Hd]. }
  cbn [fst snd] in Hname. destruct Hname as (Hw3 & [used3 Hin3] & Hname).
  destruct Hname as [Hbad | (v & [= <-] & Hname)]; [discriminate |].
  unfold Console.bind at 1.
  pose proof (ask_if_missing_result (getenv "SHOPIFY_ACCESS_TOKEN")
                                    Console.token_prompt s3) as Htoken.
  cbv zeta in Htoken.
  destruct (Console.ask_if_missing strip (getenv "SHOPIFY_ACCESS_TOKEN")
                                   Console.token_prompt s3) as [[token | h] s4].
  2:{ intros [= <- <-]. left. cbn [fst snd] in *. destruct Htoken as (Hw & _ & _).
      exists [Console.title_line; Display.times "=" 50].
      split; [rewrite Hw, Hw3; exact Hs2 | intros Hd; discriminate Hd]. }
  cbn [fst snd] in Htoken. destruct Htoken as (Hw4 & [used4 Hin4] & Htoken).
  destruct Htoken as [Hbad | (v & [= <-] & Htoken)]; [discriminate |].
  destruct (Console.missing name) eqn:Mname; cbn [orb].
  { intros [= <- <-]. left.
    exists [Console.title_line; Display.times "=" 50;
            Console.credentials_required].
    split; [| reflexivity].
    cbn. rewrite Hw4, Hw3, Hs2.
    unfold Display.after_lines. cbn. now rewrite <- app_assoc. }
  destruct (Console.missing token) eqn:Mtoken.
  { intros [= <- <-]. left.
    exists [Console.title_line; Display.times "=" 50;
            Console.credentials_required].
    split; [| reflexivity].
    cbn. rewrite Hw4, Hw3, Hs2.
    unfold Display.after_lines. cbn. now rewrite <- app_assoc. }
  intros Hloop. right. destruct (missing_given name Mname) as [Ename Nname].
  destruct (missing_given token Mtoken) as [Etoken Ntoken].
  exists (Console.given name), (Console.given token), s4,
    [Console.title_line; Display.times "=" 50].
  repeat split; try assumption.
  - intros Hm. rewrite <- (Hname Hm). exact Ename.
  - intros Hm. rewrite <- (Htoken Hm). exact Etoken.
  - now rewrite Hw4, Hw3.
  - exists (used3 ++ used4). now rewrite <- Hin2, Hin3, Hin4, app_assoc.
Qed.

(** ** Leaving the menu *)

(** One turn: the menu is printed, a line is read, its branch is taken. *)
Lemma menu_turn_run api (s : Console.session text) :
  Console.menu_turn repr codec strip pages api s =
  let w := Display.after_lines (Console.world_of s) Console.menu in
  let asked := Console.prompts s ++ [Console.choice_prompt] in
  match Console.stdin s with
  | [] => (Console.Halt Console.EndOfInput, Console.mkSession w [] asked)
  | line :: rest =>
      Console.dispatch repr codec strip pages api (strip line)
                       (Console.mkSession w rest asked)
  end.
Proof.
  cbv zeta. destruct s as [w typed asked].
  unfold Console.menu_turn, Console.bind, Console.run, Console.input, print,
    Console.with_world, Display.after_lines, Console.menu.
  cbn [Console.world_of Console.stdin Console.prompts remote sent stdout files].
  rewrite <- !app_assoc. cbn [app].
  destruct typed; reflexivity.
Qed.


Lemma stays_ret : stays (text:=text) (Console.ret false).
Proof. intros s. cbn. discriminate. Qed.

Lemma stays_bind {A} (m : Console.C (text:=text) A) (k : A -> Console.C bool) :
  (forall a, stays (k a)) -> stays (Console.bind m k).
Proof.
  intros Hk s. unfold Console.bind.
  destruct (m s) as [[a | h] s1]; [apply Hk | cbn; discriminate].
Qed.

Ltac stay := repeat first [apply stays_ret | apply stays_bind; intros ?].

(** Only the fifth option leaves the loop, after its farewell. *)
Lemma dispatch_stays api choice :
  choice <> "5" -> stays (Console.dispatch repr codec strip pages api choice).
Proof.
  intros Hne. unfold Console.dispatch.
  destruct (String.eqb choice "1"); [stay |].
  destruct (String.eqb choice "2"); [stay |].
  destruct (String.eqb choice "3").
  { apply stays_bind. intros line. cbv zeta. destruct (negb _); stay. }
  destruct (String.eqb choice "4").
  { apply stays_bind. intros ?. apply stays_bind.
    intros [| product products]; stay. }
  destruct (String.eqb_spec choice "5"); [contradiction | stay].
Qed.

Lemma dispatch_left api choice (s s' : Console.session text) :
  Console.dispatch repr codec strip pages api choice s = (Console.Done true, s') ->
  choice = "5" /\
  s' = Console.with_world s (after_print (Console.world_of s) Console.goodbye).
Proof.
  intros Hrun. destruct (String.eqb_spec choice "5") as [-> | Hne].
  - split; [reflexivity |]. revert Hrun. unfold Console.dispatch.
    cbn [String.eqb Ascii.eqb Bool.eqb]. intros [= <-]. reflexivity.
  - exfalso. apply (dispatch_stays api choice Hne s). now rewrite Hrun.
Qed.

Lemma menu_turn_left api (s s' : Console.session text) :
  Console.menu_turn repr codec strip pages api s = (Console.Done true, s') ->
  exists line,
    Console.stdin s = line :: Console.stdin s' /\ strip line = "5" /\
    last (stdout (Console.world_of s')) "" = Console.goodbye.
Proof.
  rewrite menu_turn_run. cbv zeta.
  destruct (Console.stdin s) as [| line rest]; [discriminate |].
  intros Hrun. apply dispatch_left in Hrun as [Hchoice ->].
  exists line. cbn. repeat split; [exact Hchoice |]. apply last_last.
Qed.

Lemma menu_loop_done api turns : forall s s' : Console.session text,
  Console.menu_loop repr codec strip pages turns api s = (Console.Done tt, s') ->
  exists used line,
    Console.stdin s = used ++ line :: Console.stdin s' /\ strip line = "5" /\
    last (stdout (Console.world_of s')) "" = Console.goodbye.
Proof.
  induction turns as [| turns IH]; intros s s'; cbn [Console.menu_loop];
    [discriminate |].
  unfold Console.bind.
  destruct (Console.menu_turn repr codec strip pages api s) as [[[|] | h] s1] eqn:Hturn;
    [| | discriminate].
  - intros [= <-]. destruct (menu_turn_left api s s1 Hturn) as (line & Hin & Hl).
    exists [], line. split; [exact Hin | exact Hl].
  - intros Hloop. destruct (IH s1 s' Hloop) as (used & line & Hin & Hl).
    destruct (menu_turn_sends (fun _ => True) api s) as [_ [used1 Hused1]].
    { apply Forall_forall. auto. }
    rewrite Hturn in Hused1. cbn [snd] in Hused1.
    exists (used1 ++ used), line. split; [| exact Hl].
    now rewrite Hused1, Hin, app_assoc.
Qed.

Lemma last_app_lines (before lines : list string) :
  lines <> [] -> last (before ++ lines) "" = last lines "".
Proof.
  intros Hne. destruct (exists_last Hne) as (front & line & ->).
  now rewrite app_assoc, !last_last.
Qed.

(** ** The properties *)

(** X16.  Only the fourth option of the menu writes a file: as long as no
    line typed reads [4] once stripped, [main] leaves every file as it was,
    whatever it fetches and however it ends. *)
Theorem main_writes_only_on_export (turns : nat) (s : Console.session text) :
  Forall (fun line => strip line <> "4") (Console.stdin s) ->
  files (Console.world_of (snd (Console.main repr codec strip getenv pages turns s))) =
  files (Console.world_of s).
Proof.
  intros Hlines. destruct (main_same_files turns s Hlines) as [[Hfiles _] _].
  exact Hfiles.
Qed.

(** Asking for a credential gives the one supplied. *)
Lemma ask_if_missing_supplied value lines credential prompt rest
      (s : Console.session text) :
  Console.supplied strip value lines credential ->
  Console.stdin s = lines ++ rest ->
  exists s',
    Console.ask_if_missing strip value prompt s =
    (Console.Done (Some credential), s') /\
    Console.world_of s' = Console.world_of s /\ Console.stdin s' = rest.
Proof.
  unfold Console.supplied, Console.ask_if_missing.
  destruct (Console.missing value).
  - intros (line & -> & ->) Hin. unfold Console.bind, Console.input.
    rewrite Hin. cbn [app]. eexists. split; [reflexivity |]. split; reflexivity.
  - intros [-> ->] Hin. exists s. split; [reflexivity |]. split; [reflexivity |].
    exact Hin.
Qed.

(** X17.  All requests of one run of [main] go to the products endpoint of
    the shop whose credentials were supplied, with its token: each
    credential is the value of the environment when that is set and not
    empty, and otherwise the line typed at its prompt, stripped; and when
    either comes out empty no request is sent at all. *)
Theorem main_requests_one_shop (turns : nat) (s : Console.session text)
        (name_lines token_lines rest : list string)
        (shop_name access_token : string) :
  Console.stdin s = name_lines ++ token_lines ++ rest ->
  Console.supplied strip (getenv "SHOPIFY_SHOP_NAME") name_lines shop_name ->
  Console.supplied strip (getenv "SHOPIFY_ACCESS_TOKEN") token_lines access_token ->
  exists new,
    sent (Console.world_of (snd (Console.main repr codec strip getenv pages turns s))) =
    sent (Console.world_of s) ++ new /\
    Forall (Wire.to_shop shop_name access_token) new /\
    (shop_name = "" \/ access_token = "" -> new = []).
Proof.
  intros Hin Hname Htoken. unfold Console.main.
  unfold Console.bind at 1, Console.run at 1, print at 1. cbn [Console.world_of].
  unfold Console.bind at 1, Console.run at 1, print at 1.
  cbn [Console.world_of Console.with_world remote sent stdout files writable].
  match goal with
  | |- context [Console.bind (Console.ask_if_missing strip ?v ?p) ?k ?s0] =>
      set (s2 := s0);
      assert (Hs2 : sent (Console.world_of s2) = sent (Console.world_of s))
        by reflexivity;
      assert (Hin2 : Console.stdin s2 = name_lines ++ token_lines ++ rest)
        by exact Hin;
      clearbody s2
  end.
  destruct (ask_if_missing_supplied _ _ _ Console.shop_prompt _ s2 Hname Hin2)
    as (s3 & Hask3 & Hw3 & Hin3).
  unfold Console.bind at 1. rewrite Hask3.
  destruct (ask_if_missing_supplied _ _ _ Console.token_prompt _ s3 Htoken Hin3)
    as (s4 & Hask4 & Hw4 & Hin4).
  unfold Console.bind at 1. rewrite Hask4.
  assert (Hs4 : sent (Console.world_of s4) = sent (Console.world_of s))
    by (now rewrite Hw4, Hw3).
  cbn [Console.missing Console.given].
  destruct (String.eqb_spec shop_name "") as [Ename | Nname]; cbn [orb].
  { exists []. unfold Console.run, print. cbn. rewrite Hs4, app_nil_r.
    repeat split; constructor. }
  destruct (String.eqb_spec access_token "") as [Etoken | Ntoken].
  { exists []. unfold Console.run, print. cbn. rewrite Hs4, app_nil_r.
    repeat split; constructor. }
  destruct (menu_loop_sends (fun _ => True)
                            (Shopify.init shop_name access_token) turns s4)
    as [(new & Hnew & Hall) _].
  { apply Forall_forall. auto. }
  exists new. rewrite Hnew, Hs4. split; [reflexivity |]. split.
  - eapply Forall_impl; [| exact Hall]. apply request_of_to_shop.
  - intros [E | E]; contradiction.
Qed.

(** X18.  [main] returns only in two ways: after the line that asks for
    the credentials, having sent no request, or after the farewell of the
    fifth option, a line typed having read [5] once stripped.  No other
    choice, no failed request and no empty result ends the program. *)
Theorem main_returns_after_farewell (turns : nat) (s s' : Console.session text) :
  Console.main repr codec strip getenv pages turns s = (Console.Done tt, s') ->
  (last (stdout (Console.world_of s')) "" = Console.credentials_required /\
   sent (Console.world_of s') = sent (Console.world_of s)) \/
  (last (stdout (Console.world_of s')) "" = Console.goodbye /\
   exists used line,
     Console.stdin s = used ++ line :: Console.stdin s' /\ strip line = "5").
Proof.
  intros Hmain.
  apply main_cases in Hmain
    as [(lines & Hw & Hlast) |
        (name & token & s1 & lines & _ & _ & _ & _ & _ & [used0 Hused0] & Hloop)].
  - left. specialize (Hlast eq_refl). rewrite Hw. cbn [Display.after_lines stdout sent].
    split; [| reflexivity].
    rewrite last_app_lines; [exact Hlast |].
    intros ->. discriminate Hlast.
  - right. apply menu_loop_done in Hloop as (used & line & Hin & Hfive & Hlast).
    split; [exact Hlast |]. exists (used0 ++ used), line.
    split; [| exact Hfive]. now rewrite Hused0, Hin, app_assoc.
Qed.

(** X19.  Without credentials in the environment [main] asks for both, the
    token even after a blank shop name; if either line is blank once
    stripped it prints that both are required and returns, without a
    request and without showing the menu. *)
Theorem main_refuses_blank_credentials (turns : nat) (s : Console.session text)
        (name_line token_line : string) (rest : list string) :
  Console.missing (getenv "SHOPIFY_SHOP_NAME") = true ->
  Console.missing (getenv "SHOPIFY_ACCESS_TOKEN") = true ->
  Console.stdin s = name_line :: token_line :: rest ->
  strip name_line = "" \/ strip token_line = "" ->
  Console.main repr codec strip getenv pages turns s =
  (Console.Done tt,
   Console.mkSession
     (Display.after_lines (Console.world_of s)
        [Console.title_line; Display.times "=" 50; Console.credentials_required])
     rest
     (Console.prompts s ++ [Console.shop_prompt; Console.token_prompt])).
Proof.
  intros Hname Htoken Hin Hblank. destruct s as [w typed asked].
  cbn [Console.stdin] in Hin. subst typed.
  unfold Console.main, Console.ask_if_missing. rewrite Hname, Htoken.
  unfold Console.bind, Console.run, Console.input, Console.ret, print,
    Console.with_world, Display.after_lines.
  cbn [Console.world_of Console.stdin Console.prompts remote sent stdout files
       Console.missing].
  replace (String.eqb (strip name_line) "" || String.eqb (strip token_line) "")
    with true.
  - cbn [Console.world_of Console.stdin Console.prompts remote sent stdout files].
    rewrite <- !app_assoc. reflexivity.
  - symmetry. destruct Hblank as [-> | ->]; [reflexivity | apply orb_true_r].
Qed.


(** ** Failures of requests *)

Lemma calm_ret {A} (a : A) : calm (text:=text) (Console.ret a).
Proof. intros s msg. cbn. discriminate. Qed.

Lemma calm_bind {A B} (m : Console.C (text:=text) A) (k : A -> Console.C B) :
  calm m -> (forall a, calm (k a)) -> calm (Console.bind m k).
Proof.
  intros Hm Hk s msg. unfold Console.bind. specialize (Hm s msg).
  destruct (m s) as [[a | h] s1]; [apply Hk |].
  cbn in *. intros [= ->]. now apply Hm.
Qed.

Lemma calm_input prompt : calm (text:=text) (Console.input prompt).
Proof.
  intros s msg. unfold Console.input. destruct (Console.stdin s); cbn; discriminate.
Qed.

Lemma calm_run {A} (m : M (text:=text) A) :
  (forall w msg, fst (m w) <> Raise (RequestException msg)) ->
  calm (Console.run m).
Proof.
  intros Hm s msg. unfold Console.run. specialize (Hm (Console.world_of s) msg).
  destruct (m (Console.world_of s)) as [[a | e] w]; cbn in *; [discriminate |].
  intros [= ->]. now apply Hm.
Qed.

Lemma calm_run_loop {A} (m : world text -> option (result A) * world text) :
  (forall w msg, fst (m w) <> Some (Raise (RequestException msg))) ->
  calm (Console.run_loop m).
Proof.
  intros Hm s msg. unfold Console.run_loop.
  specialize (Hm (Console.world_of s) msg).
  destruct (m (Console.world_of s)) as [[[a | e] |] w]; cbn in *;
    try discriminate.
  intros [= ->]. now apply Hm.
Qed.

(** The fetchers catch the failures of their requests. *)
Lemma print_calm line (w : world text) msg :
  fst (print line w) <> Raise (RequestException msg).
Proof. discriminate. Qed.

Lemma get_products_calm self limit status (w : world text) msg :
  fst (get_products self limit status w) <> Raise (RequestException msg).
Proof.
  rewrite get_products_run. cbv zeta.
  destruct (next_outcome w (get_request self limit status)) as [m | r];
    [discriminate |].
  destruct (http_error r); [discriminate |]. cbn [fst]. intros Hr.
  apply records_malformed in Hr as [_ Hr]. now apply (Hr msg).
Qed.

Lemma search_products_calm self query limit (w : world text) msg :
  fst (search_products self query limit w) <> Raise (RequestException msg).
Proof.
  rewrite search_products_run. cbv zeta.
  destruct (next_outcome w (search_request self query limit)) as [m | r];
    [discriminate |].
  destruct (http_error r); [discriminate |]. cbn [fst]. intros Hr.
  apply records_malformed in Hr as [_ Hr]. now apply (Hr msg).
Qed.

Lemma loop_calm self status fuel msg :
  forall all_products page_info (w : world text),
    fst (all_products_loop fuel self status all_products page_info w) <>
    Some (Raise (RequestException msg)).
Proof.
  induction fuel as [| fuel IH]; intros acc pi w; cbn [all_products_loop];
    [discriminate |].
  rewrite loop_body_run. cbv zeta.
  destruct (next_outcome w (all_request self status pi)) as [m | r];
    [discriminate |].
  destruct (http_error r); [discriminate |].
  pose proof (turn_of_not_request r acc pi msg) as Hturn.
  destruct (turn_of r acc pi) as [[acc' | acc' pi'] | e]; cbn [fst].
  - discriminate.
  - apply IH.
  - intros [= ->]. now apply Hturn.
Qed.

Lemma get_all_products_calm self status fuel (w : world text) msg :
  fst (get_all_products fuel self status w) <> Some (Raise (RequestException msg)).
Proof. apply loop_calm. Qed.

(** [display_products] raises nothing but the [TypeError] of a row. *)
Lemma print_rows_raises products e : forall w : world text,
  fst (Display.print_rows repr products w) = Raise e -> e = TypeError.
Proof.
  induction products as [| product products IH]; intros w; [discriminate |].
  cbn [Display.print_rows]. unfold bind at 1, lift.
  destruct (Display.row_of repr product) as [row | e'] eqn:Hrow.
  - unfold bind at 1, print. apply IH.
  - cbn [fst]. intros [= <-]. exact (row_of_raises repr product e' Hrow).
Qed.

Lemma display_calm products (w : world text) msg :
  fst (Display.display_products repr products w) <> Raise (RequestException msg).
Proof.
  destruct products as [| product products]; [discriminate |].
  rewrite (display_products_run repr (product :: products) w) by discriminate.
  intros Hraise. apply print_rows_raises in Hraise. discriminate.
Qed.

Lemma export_calm products filename (w : world text) msg :
  fst (Exporting.export_to_json codec products filename w) <>
  Raise (RequestException msg).
Proof.
  rewrite export_to_json_run. cbv zeta.
  destruct (writable w filename);
    [destruct (cut codec (JList (map Exporting.product_dict products))) |];
    discriminate.
Qed.

Ltac becalm :=
  repeat first
    [ apply calm_bind; [| intros ?]
    | apply calm_ret
    | apply calm_input
    | apply calm_run; intros ? ?
    | apply calm_run_loop; intros ? ?
    | apply print_calm
    | apply display_calm
    | apply export_calm
    | apply get_products_calm
    | apply search_products_calm
    | apply get_all_products_calm ].

Lemma dispatch_calm api choice :
  calm (Console.dispatch repr codec strip pages api choice).
Proof.
  unfold Console.dispatch.
  destruct (String.eqb choice "1"); [becalm |].
  destruct (String.eqb choice "2"); [becalm |].
  destruct (String.eqb choice "3").
  { becalm. destruct (negb _); becalm. }
  destruct (String.eqb choice "4").
  { becalm.
    match goal with
    | |- context [match ?p with _ => _ end] => destruct p
    end; becalm. }
  destruct (String.eqb choice "5"); becalm.
Qed.

Lemma menu_loop_calm api turns :
  calm (Console.menu_loop repr codec strip pages turns api).
Proof.
  induction turns as [| turns IH]; cbn [Console.menu_loop].
  - intros s msg. cbn. discriminate.
  - apply calm_bind.
    + unfold Console.menu_turn. becalm. apply dispatch_calm.
    + intros [|]; [apply calm_ret | exact IH].
Qed.

(** X21.  No failure of a request gets out of [main]: each fetch catches the
    [RequestException] of its own requests, and neither the table nor the
    export raises one, so [main] never ends with a [RequestException]. *)
Theorem main_catches_request_failures (turns : nat) (s : Console.session text)
        (msg : string) :
  fst (Console.main repr codec strip getenv pages turns s) <>
  Console.Halt (Console.Raised (RequestException msg)).
Proof.
  revert s msg. change (calm (Console.main repr codec strip getenv pages turns)).
  unfold Console.main.
  do 2 (apply calm_bind; [becalm | intros ?]).
  do 2 (apply calm_bind;
        [unfold Console.ask_if_missing; destruct (Console.missing _); becalm
        | intros ?]).
  destruct (_ || _); [becalm | apply menu_loop_calm].
Qed.

End Menu.

(** ** The properties at the desk *)

Lemma main_writes_only_on_export_witness :
  files (Console.world_of
           (snd (Desk.main Desk.env_set 3 5
                   (Desk.session_of [Reply Sample.first_page; Reply Sample.last_page]
                                    ["1"; " 3 "; "shirt"; "2"; "5"])))) = [].
Proof.
  apply (main_writes_only_on_export
           Desk.no_repr (JsonText.codec JsonText.whole) Console.strip_text
           Desk.env_set 3 5
           (Desk.session_of [Reply Sample.first_page; Reply Sample.last_page]
                            ["1"; " 3 "; "shirt"; "2"; "5"])).
  repeat constructor; intros H; vm_compute in H; discriminate H.
Defined.

Lemma main_requests_one_shop_witness :
  exists new,
    sent (Console.world_of
            (snd (Desk.main Desk.env_unset 3 5
                    (Desk.session_of [Reply Sample.last_page]
                                     [" demo"; "shpat_demo "; "1"; "5"])))) =
    [] ++ new /\
    Forall (Wire.to_shop "demo" "shpat_demo") new /\
    ("demo" = "" \/ "shpat_demo" = "" -> new = []).
Proof.
  apply (main_requests_one_shop
           Desk.no_repr (JsonText.codec JsonText.whole) Console.strip_text
           Desk.env_unset 3 5
           (Desk.session_of [Reply Sample.last_page]
                            [" demo"; "shpat_demo "; "1"; "5"])
           [" demo"] ["shpat_demo "] ["1"; "5"] "demo" "shpat_demo").
  - reflexivity.
  - exists " demo". split; reflexivity.
  - exists "shpat_demo ". split; reflexivity.
Defined.

Lemma main_returns_after_farewell_witness :
  let s := Desk.session_of [Reply Sample.last_page] ["1"; " 5 "; "2"] in
  let s' := snd (Desk.main Desk.env_set 3 5 s) in
  (last (stdout (Console.world_of s')) "" = Console.credentials_required /\
   sent (Console.world_of s') = sent (Console.world_of s)) \/
  (last (stdout (Console.world_of s')) "" = Console.goodbye /\
   exists used line,
     Console.stdin s = used ++ line :: Console.stdin s' /\
     Console.strip_text line = "5").
Proof.
  cbv zeta.
  apply (main_returns_after_farewell
           Desk.no_repr (JsonText.codec JsonText.whole) Console.strip_text
           Desk.env_set 3 5
           (Desk.session_of [Reply Sample.last_page] ["1"; " 5 "; "2"])).
  vm_compute. reflexivity.
Defined.

Lemma main_refuses_blank_credentials_witness :
  Desk.main Desk.env_unset 3 5 (Desk.session_of [] ["  "; "shpat_demo"; "1"]) =
  (Console.Done tt,
   Console.mkSession
     (Display.after_lines (Sample.world_of [])
        [Console.title_line; Display.times "=" 50; Console.credentials_required])
     ["1"]
     [Console.shop_prompt; Console.token_prompt]).
Proof.
  apply (main_refuses_blank_credentials
           Desk.no_repr (JsonText.codec JsonText.whole) Console.strip_text
           Desk.env_unset 3 5
           (Desk.session_of [] ["  "; "shpat_demo"; "1"]) "  " "shpat_demo" ["1"]).
  - reflexivity.
  - reflexivity.
  - reflexivity.
  - left. reflexivity.
Defined.

